(** * GoMetrics: the aggregation pipeline

    A shallow embedding of the Go packages [collect] (metric types and the
    four collectors), [agg] (the aggregator), [prom] (the exporter) and
    [rest] (the handlers) and of the configuration helpers of [main],
    followed by the properties of the pipeline.

    Conventions.
    - [uint64] and [int] are [Z]; arithmetic that can wrap is written with
      an explicit [mod 2^64].
    - [float64] is the IEEE-754 value type [spec_float]; the program only
      copies floats, it never computes with them.
    - A Go slice is [option (list A)]: [None] is the nil slice.
    - A Go pointer that is only tested against nil and dereferenced is an
      [option].
    - Effects (channel operations, log lines, probe calls, the writes to
      the snapshot store and to the exporter) are recorded, in program
      order, in a trace of [Op]s next to the threaded state. *)

From Stdlib Require Import ZArith Ascii String List Lia Bool.
From Stdlib Require Import Floats.SpecFloat.
From Stdlib Require Import Sorting.Sorted.
From stdpp Require Import base option list gmap strings pretty.

Local Open Scope string_scope.
Local Open Scope list_scope.
Local Open Scope Z_scope.

(** ** Base types *)

Definition uint64 := Z.
Definition float64 := spec_float.
Definition slice (A : Type) := option (list A).

(** The zero value of [float64] is [+0]. *)
Definition float_zero : float64 := S754_zero false.

Definition wrap64 (z : Z) : uint64 := z mod 2 ^ 64.

(** [time.Duration]: a signed count of nanoseconds. *)
Definition Duration := Z.
Definition Millisecond : Duration := 1000000.
Definition Second : Duration := 1000 * Millisecond.

(** [time.Time], reduced to the instant it denotes: seconds since
    January 1, year 1 00:00:00 UTC and the nanosecond within the second.
    The zero value of the Go struct denotes the instant [0, 0]. *)
Module Time.
Record t := mk { sec : Z; nsec : Z }.

Definition zero : t := mk 0 0.

(* func (t Time) IsZero() bool *)
Definition IsZero (x : t) : bool := (sec x =? 0) && (nsec x =? 0).

(** [leb x y] is [!x.After(y)]. *)
Definition leb (x y : t) : bool :=
  (sec x <? sec y) || ((sec x =? sec y) && (nsec x <=? nsec y)).

Definition le (x y : t) : Prop := leb x y = true.
End Time.

(** Go's [error] interface, reduced to the message. *)
Inductive error := errorString (msg : string).

(** A Go [(value, err)] result; the callers below never look at the value
    when [err != nil]. *)
Inductive result (A : Type) :=
| Ok (a : A)
| Err (e : error).
Arguments Ok {A} a.
Arguments Err {A} e.

Definition is_err {A} (r : result A) : bool :=
  match r with
  | Ok _ => false
  | Err _ => true
  end.

(** ** package collect: metric types *)

Module CPUMetric.
Record t := mk {
  OverallPercent : float64;
  PerCorePercent : slice float64;
  LoadAverage : slice float64 }.
Definition zero : t := mk float_zero None None.
End CPUMetric.

Module MemoryMetric.
Record t := mk {
  TotalBytes : uint64;
  AvailableBytes : uint64;
  UsedBytes : uint64;
  UsedPercent : float64;
  SwapTotalBytes : uint64;
  SwapUsedBytes : uint64;
  SwapUsedPercent : float64 }.
Definition zero : t := mk 0 0 0 float_zero 0 0 float_zero.
End MemoryMetric.

Module DiskMetric.
Record t := mk {
  TotalBytes : uint64;
  FreeBytes : uint64;
  UsedBytes : uint64;
  UsedPercent : float64;
  ReadBytes : uint64;
  WriteBytes : uint64;
  ReadOps : uint64;
  WriteOps : uint64 }.
Definition zero : t := mk 0 0 0 float_zero 0 0 0 0.
End DiskMetric.

Module NetworkMetric.
Record t := mk {
  BytesSent : uint64;
  BytesRecv : uint64;
  PacketsSent : uint64;
  PacketsRecv : uint64;
  ErrorsIn : uint64;
  ErrorsOut : uint64;
  DropsIn : uint64;
  DropsOut : uint64 }.
Definition zero : t := mk 0 0 0 0 0 0 0 0.
End NetworkMetric.

(** The dynamic value held by the [Data any] field of a [Metric]: one of
    the four metric structs, the nil interface, or a value of some other
    dynamic type (named by [dyn_type]; the program never inspects it). *)
Inductive any :=
| AnyNil
| AnyCPU (c : CPUMetric.t)
| AnyMemory (m : MemoryMetric.t)
| AnyDisk (d : DiskMetric.t)
| AnyNetwork (n : NetworkMetric.t)
| AnyOther (dyn_type : string).

Module Metric.
Record t := mk {
  Type_ : string;
  Timestamp : Time.t;
  Data : any }.
Definition zero : t := mk "" Time.zero AnyNil.
End Metric.

Module Sample.
Record t := mk {
  Timestamp : Time.t;
  CPU : CPUMetric.t;
  Memory : MemoryMetric.t;
  Disk : DiskMetric.t;
  Network : NetworkMetric.t }.

Definition zero : t :=
  mk Time.zero CPUMetric.zero MemoryMetric.zero DiskMetric.zero
     NetworkMetric.zero.

(* func (s *Sample) IsComplete() bool *)
Definition IsComplete (s : t) : bool := negb (Time.IsZero (Timestamp s)).
End Sample.

(** The four type assertions [metric.Data.(collect.XMetric)]. *)
Definition assertCPU (d : any) : option CPUMetric.t :=
  match d with
  | AnyCPU c => Some c
  | _ => None
  end.

Definition assertMemory (d : any) : option MemoryMetric.t :=
  match d with
  | AnyMemory m => Some m
  | _ => None
  end.

Definition assertDisk (d : any) : option DiskMetric.t :=
  match d with
  | AnyDisk x => Some x
  | _ => None
  end.

Definition assertNetwork (d : any) : option NetworkMetric.t :=
  match d with
  | AnyNetwork n => Some n
  | _ => None
  end.

(** ** Effects *)

(** Arguments of a [log.Printf] / [log.Println] call. *)
Inductive LogArg :=
| ArgString (s : string)
| ArgError (e : error)
| ArgDuration (d : Duration)
| ArgTime (t : Time.t)
| ArgFloat (f : float64).

(** The external probe calls (gopsutil). *)
Inductive ProbeCall :=
| cpu_Percent (percpu : bool)
| load_Avg
| mem_VirtualMemory
| mem_SwapMemory
| disk_Usage
| disk_IOCounters
| net_IOCounters.

(** The outcome of a [select] statement. *)
Inductive Choice :=
| Blocks
| Default
| Case (i : nat).

(** What a goroutine does, in program order.  [Select] is the [select] of
    a [Start] loop; [Offer] is the [select] around a send of a metric to
    the mailbox, with the case it took. *)
Inductive Op :=
| Log (format : string) (args : list LogArg)
| NewTicker (d : Duration)
| Probe (p : ProbeCall)
| Now
| Select (c : Choice)
| Offer (m : Metric.t) (c : Choice)
| Recv (m : Metric.t)
| Publish (s : Sample.t)
| PromUpdate (s : Sample.t).

(** A computation over a state [S] that also emits a trace. *)
Definition M (S A : Type) : Type := S -> A * S * list Op.

Definition ret {S A} (a : A) : M S A := fun s => (a, s, []).

Definition bind {S A B} (m : M S A) (k : A -> M S B) : M S B :=
  fun s =>
    let '(a, s1, t1) := m s in
    let '(b, s2, t2) := k a s1 in
    (b, s2, t1 ++ t2).

Definition emit {S} (o : Op) : M S unit := fun s => (tt, s, [o]).
Definition get {S} : M S S := fun s => (s, s, []).
Definition put {S} (s' : S) : M S unit := fun _ => (tt, s', []).
Definition modify {S} (f : S -> S) : M S unit := fun s => (tt, f s, []).

Declare Scope go_scope.
Delimit Scope go_scope with go.
Notation "'do' x <- c ; k" := (bind c (fun x => k))
  (at level 10, x name, c at level 100, k at level 200) : go_scope.
Notation "'exec' c ; k" := (bind c (fun _ => k))
  (at level 10, c at level 100, k at level 200) : go_scope.
Local Open Scope go_scope.

Definition result_of {S A} (r : A * S * list Op) : A := fst (fst r).
Definition state_of {S A} (r : A * S * list Op) : S := snd (fst r).
Definition trace_of {S A} (r : A * S * list Op) : list Op := snd r.

(** ** Channels and [select] *)

(** The consumer side of the mailbox as the runtime sees it: the
    aggregator is running ([RecvIdle]), parked in its [select] waiting for
    a metric ([RecvParked]), or has been handed a metric directly by a
    sender and is about to resume with it ([RecvHanded]). *)
Inductive Receiver :=
| RecvIdle
| RecvParked
| RecvHanded (m : Metric.t).

(** A [chan collect.Metric].  No goroutine ever blocks in a send (every
    send below sits in a [select] with a [default] case), so the channel
    has no queue of waiting senders; it is never closed. *)
Module Chan.
Record t := mk {
  dataqsiz : Z;
  buf : list Metric.t;
  recvq : Receiver }.

(* make(chan collect.Metric, size) *)
(** [None] is the panic of [make] on a negative size.  For any other
    size the model yields the channel: it does not bound memory, whereas
    the runtime also panics, or stops for lack of memory, when a buffer
    of that size cannot be allocated.  Statements about a process
    therefore take the success of [main] as a hypothesis. *)
Definition make (size : Z) : option t :=
  if size <? 0 then None else Some (mk size [] RecvIdle).

Definition qcount (c : t) : Z := Z.of_nat (length (buf c)).

Definition with_buf (b : list Metric.t) (c : t) : t :=
  mk (dataqsiz c) b (recvq c).

Definition with_recvq (r : Receiver) (c : t) : t :=
  mk (dataqsiz c) (buf c) r.

(** A send can proceed: a receiver is parked, or the buffer has room. *)
Definition send_ready (c : t) : bool :=
  match recvq c with
  | RecvParked => true
  | _ => qcount c <? dataqsiz c
  end.

(** The send itself, when it can proceed: hand the value to the parked
    receiver, else append it to the buffer. *)
Definition send (m : Metric.t) (c : t) : t :=
  match recvq c with
  | RecvParked => with_recvq (RecvHanded m) c
  | _ => with_buf (buf c ++ [m]) c
  end.

(** A receive can proceed for a running receiver: the buffer is not
    empty. *)
Definition recv_ready (c : t) : bool :=
  match buf c with
  | [] => false
  | _ :: _ => true
  end.

Definition recv (c : t) : option (Metric.t * t) :=
  match buf c with
  | [] => None
  | m :: b => Some (m, with_buf b c)
  end.

(** The runtime keeps a receiver parked only on an empty buffer, and the
    buffer within its capacity. *)
Definition wf (c : t) : Prop :=
  0 <= dataqsiz c /\ qcount c <= dataqsiz c /\
  (recvq c = RecvParked -> buf c = []).
End Chan.

(** The cases that are ready, by index. *)
Fixpoint ready_cases (i : nat) (ready : list bool) : list nat :=
  match ready with
  | [] => []
  | true :: r => i :: ready_cases (S i) r
  | false :: r => ready_cases (S i) r
  end.

(** Go's [select]: among the ready cases one is chosen by the runtime's
    pseudo-random [pick]; when none is ready the [default] case runs if
    there is one, otherwise the goroutine blocks. *)
Definition go_select (ready : list bool) (hasDefault : bool) (pick : nat)
  : Choice :=
  match ready_cases 0 ready with
  | [] => if hasDefault then Default else Blocks
  | i :: rest => Case (nth (pick mod length (i :: rest)) (i :: rest) i)
  end.

(** The non-blocking hand-off used by the Memory, Disk and Network
    collectors:
<<
select {
case output <- metric:
default:
}
>>
    It returns whether the metric was sent. *)
Definition trySend (metric : Metric.t) : M Chan.t bool :=
  do c <- get;
  match go_select [Chan.send_ready c] true 0 with
  | Case _ =>
      exec put (Chan.send metric c);
      exec emit (Offer metric (Case 0));
      ret true
  | ch =>
      exec emit (Offer metric ch);
      ret false
  end.

(** ** package agg: the aggregator *)

Module Aggregator.
(** The struct without its mutex (every method below runs as one step) and
    without the exporter handle, whose updates appear in the trace. *)
Record t := mk {
  metricsChan : Chan.t;
  latestSample : Sample.t;
  currentCPU : option CPUMetric.t;
  currentMemory : option MemoryMetric.t;
  currentDisk : option DiskMetric.t;
  currentNetwork : option NetworkMetric.t;
  sampleInterval : Duration }.

Definition with_metricsChan (c : Chan.t) (a : t) : t :=
  mk c (latestSample a) (currentCPU a) (currentMemory a) (currentDisk a)
     (currentNetwork a) (sampleInterval a).

Definition with_latestSample (s : Sample.t) (a : t) : t :=
  mk (metricsChan a) s (currentCPU a) (currentMemory a) (currentDisk a)
     (currentNetwork a) (sampleInterval a).

Definition with_currentCPU (x : option CPUMetric.t) (a : t) : t :=
  mk (metricsChan a) (latestSample a) x (currentMemory a) (currentDisk a)
     (currentNetwork a) (sampleInterval a).

Definition with_currentMemory (x : option MemoryMetric.t) (a : t) : t :=
  mk (metricsChan a) (latestSample a) (currentCPU a) x (currentDisk a)
     (currentNetwork a) (sampleInterval a).

Definition with_currentDisk (x : option DiskMetric.t) (a : t) : t :=
  mk (metricsChan a) (latestSample a) (currentCPU a) (currentMemory a) x
     (currentNetwork a) (sampleInterval a).

Definition with_currentNetwork (x : option NetworkMetric.t) (a : t) : t :=
  mk (metricsChan a) (latestSample a) (currentCPU a) (currentMemory a)
     (currentDisk a) x (sampleInterval a).
End Aggregator.

(* func NewAggregator(sampleInterval time.Duration, bufferSize int) *Aggregator *)
Definition NewAggregator (sampleInterval : Duration) (bufferSize : Z)
  : option Aggregator.t :=
  match Chan.make bufferSize with
  | None => None
  | Some c =>
      Some (Aggregator.mk c Sample.zero None None None None sampleInterval)
  end.

(* func (a *Aggregator) GetMetricsChan() chan<- collect.Metric *)
Definition GetMetricsChan (a : Aggregator.t) : Chan.t :=
  Aggregator.metricsChan a.

(* func (a *Aggregator) GetLatestSample() collect.Sample *)
Definition GetLatestSample (a : Aggregator.t) : Sample.t :=
  Aggregator.latestSample a.

(* func (a *Aggregator) storeMetric(metric collect.Metric) *)
Definition storeMetric (metric : Metric.t) : M Aggregator.t unit :=
  let ty := Metric.Type_ metric in
  if String.eqb ty "cpu" then
    match assertCPU (Metric.Data metric) with
    | Some cpuData => modify (Aggregator.with_currentCPU (Some cpuData))
    | None => ret tt
    end
  else if String.eqb ty "memory" then
    match assertMemory (Metric.Data metric) with
    | Some memData => modify (Aggregator.with_currentMemory (Some memData))
    | None => ret tt
    end
  else if String.eqb ty "disk" then
    match assertDisk (Metric.Data metric) with
    | Some diskData => modify (Aggregator.with_currentDisk (Some diskData))
    | None => ret tt
    end
  else if String.eqb ty "network" then
    match assertNetwork (Metric.Data metric) with
    | Some netData => modify (Aggregator.with_currentNetwork (Some netData))
    | None => ret tt
    end
  else emit (Log "Unknown metric type: %s" [ArgString ty]).

(* func (a *Aggregator) createSample() *)
Definition createSample (now : Time.t) : M Aggregator.t unit :=
  exec emit Now;
  do a <- get;
  let sample := Sample.mk now CPUMetric.zero MemoryMetric.zero
                  DiskMetric.zero NetworkMetric.zero in
  let sample :=
    match Aggregator.currentCPU a with
    | Some x =>
        Sample.mk (Sample.Timestamp sample) x (Sample.Memory sample)
          (Sample.Disk sample) (Sample.Network sample)
    | None => sample
    end in
  let sample :=
    match Aggregator.currentMemory a with
    | Some x =>
        Sample.mk (Sample.Timestamp sample) (Sample.CPU sample) x
          (Sample.Disk sample) (Sample.Network sample)
    | None => sample
    end in
  let sample :=
    match Aggregator.currentDisk a with
    | Some x =>
        Sample.mk (Sample.Timestamp sample) (Sample.CPU sample)
          (Sample.Memory sample) x (Sample.Network sample)
    | None => sample
    end in
  let sample :=
    match Aggregator.currentNetwork a with
    | Some x =>
        Sample.mk (Sample.Timestamp sample) (Sample.CPU sample)
          (Sample.Memory sample) (Sample.Disk sample) x
    | None => sample
    end in
  exec modify (Aggregator.with_latestSample sample);
  exec emit (Publish sample);
  exec emit (PromUpdate sample);
  emit (Log "Sample created at %v (CPU: %.1f%%, Memory: %.1f%%, Disk: %.1f%%)"
          [ArgTime (Sample.Timestamp sample);
           ArgFloat (CPUMetric.OverallPercent (Sample.CPU sample));
           ArgFloat (MemoryMetric.UsedPercent (Sample.Memory sample));
           ArgFloat (DiskMetric.UsedPercent (Sample.Disk sample))]).

(** How a goroutine's loop stands after an iteration. *)
Inductive Status :=
| Running
| Stopped
| Panicked.

(** What a [for { select { case <-ctx.Done(): ... case <-ticker.C: ... } }]
    loop meets when it reaches its [select]: whether the context is
    cancelled, whether the ticker has fired, and the runtime's
    pseudo-random pick among the ready cases. *)
Record Ready := mkReady {
  ctxDone : bool;
  tickFired : bool;
  pick : nat }.

(** One iteration of the loop of [Aggregator.Start]; [now] is what
    [time.Now()] returns in this iteration.
<<
select {
case <-ctx.Done():            // case 0
	log.Println("Aggregator stopping...")
	return
case metric := <-a.metricsChan: // case 1
	a.storeMetric(metric)
case <-ticker.C:               // case 2
	a.createSample()
}
>> *)
Definition Start_select (r : Ready) (now : Time.t) : M Aggregator.t Status :=
  do a <- get;
  let c := Aggregator.metricsChan a in
  match Chan.recvq c with
  | RecvHanded m =>
      (* woken by a sender: the select returns its receive case *)
      exec emit (Select (Case 1));
      exec put (Aggregator.with_metricsChan (Chan.with_recvq RecvIdle c) a);
      exec emit (Recv m);
      exec storeMetric m;
      ret Running
  | _ =>
      let ch :=
        go_select [ctxDone r; Chan.recv_ready c; tickFired r] false (pick r) in
      exec emit (Select ch);
      match ch with
      | Blocks =>
          exec put
            (Aggregator.with_metricsChan (Chan.with_recvq RecvParked c) a);
          ret Running
      | Case 0%nat =>
          exec put (Aggregator.with_metricsChan (Chan.with_recvq RecvIdle c) a);
          exec emit (Log "Aggregator stopping..." []);
          ret Stopped
      | Case 1%nat =>
          match Chan.recv c with
          | Some (m, c') =>
              exec put
                (Aggregator.with_metricsChan (Chan.with_recvq RecvIdle c') a);
              exec emit (Recv m);
              exec storeMetric m;
              ret Running
          | None => ret Running
          end
      | Case _ =>
          exec put (Aggregator.with_metricsChan (Chan.with_recvq RecvIdle c) a);
          exec createSample now;
          ret Running
      | Default => ret Running
      end
  end.

(** The part of [Aggregator.Start] before its loop.  [time.NewTicker]
    panics on a non-positive interval. *)
Definition Start_begin : M Aggregator.t Status :=
  do a <- get;
  let d := Aggregator.sampleInterval a in
  if d <=? 0 then ret Panicked
  else
    exec emit (NewTicker d);
    exec emit (Log "Aggregator started with %v sample interval"
                 [ArgDuration d]);
    ret Running.

Fixpoint Start_loop (ws : list (Ready * Time.t)) : M Aggregator.t Status :=
  match ws with
  | [] => ret Running
  | (r, now) :: ws' =>
      do st <- Start_select r now;
      match st with
      | Running => Start_loop ws'
      | _ => ret st
      end
  end.

(* func (a *Aggregator) Start(ctx context.Context) *)
(** [ws] is what the loop meets at its successive iterations; the result
    is [Running] when the loop is still going after them. *)
Definition Start (ws : list (Ready * Time.t)) : M Aggregator.t Status :=
  do st <- Start_begin;
  match st with
  | Running => Start_loop ws
  | _ => ret st
  end.

(** The samples written to the snapshot store, oldest first. *)
Definition published (tr : list Op) : list Sample.t :=
  omap (fun o => match o with Publish s => Some s | _ => None end) tr.

(** Delivering a sequence of metrics to [storeMetric], one after the
    other. *)
Fixpoint deliver (ms : list Metric.t) : M Aggregator.t unit :=
  match ms with
  | [] => ret tt
  | m :: ms' => exec storeMetric m; deliver ms'
  end.

(** ** The metric kinds of the specification *)

Inductive Kind :=
| KCPU
| KMemory
| KDisk
| KNetwork.

Definition tag (k : Kind) : string :=
  match k with
  | KCPU => "cpu"
  | KMemory => "memory"
  | KDisk => "disk"
  | KNetwork => "network"
  end.

(** Whether a dynamic value has the struct type of kind [k]. *)
Definition has_type (k : Kind) (d : any) : bool :=
  match k, d with
  | KCPU, AnyCPU _ => true
  | KMemory, AnyMemory _ => true
  | KDisk, AnyDisk _ => true
  | KNetwork, AnyNetwork _ => true
  | _, _ => false
  end.

(** The payload of a metric when it is a Measurement of kind [k]: tagged
    [k] and carrying a value of [k]'s struct type. *)
Definition payload_of (k : Kind) (m : Metric.t) : option any :=
  if String.eqb (Metric.Type_ m) (tag k) && has_type k (Metric.Data m)
  then Some (Metric.Data m) else None.

(** The Aggregator State slot of kind [k], as a dynamic value. *)
Definition slot (k : Kind) (a : Aggregator.t) : option any :=
  match k with
  | KCPU => AnyCPU <$> Aggregator.currentCPU a
  | KMemory => AnyMemory <$> Aggregator.currentMemory a
  | KDisk => AnyDisk <$> Aggregator.currentDisk a
  | KNetwork => AnyNetwork <$> Aggregator.currentNetwork a
  end.

(** ** package collect: the collectors *)

(** gopsutil's statistics, with the fields the collectors read.  A
    successful probe returns a usable (non-nil) statistics value. *)
Module load.
Record AvgStat := mkAvgStat {
  Load1 : float64;
  Load5 : float64;
  Load15 : float64 }.
End load.

Module mem.
Record VirtualMemoryStat := mkVirtualMemoryStat {
  Total : uint64;
  Available : uint64;
  Used : uint64;
  UsedPercent : float64 }.
Record SwapMemoryStat := mkSwapMemoryStat {
  SwapTotal : uint64;
  SwapUsed : uint64;
  SwapUsedPercent : float64 }.
End mem.

Module disk.
Record UsageStat := mkUsageStat {
  Total : uint64;
  Free : uint64;
  Used : uint64;
  UsedPercent : float64 }.
Record IOCountersStat := mkIOCountersStat {
  ReadCount : uint64;
  WriteCount : uint64;
  ReadBytes : uint64;
  WriteBytes : uint64 }.
End disk.

Module net.
Record IOCountersStat := mkIOCountersStat {
  BytesSent : uint64;
  BytesRecv : uint64;
  PacketsSent : uint64;
  PacketsRecv : uint64;
  Errin : uint64;
  Errout : uint64;
  Dropin : uint64;
  Dropout : uint64 }.
End net.

(** What one collection cycle meets: the results its probe calls return
    (each is consulted only if the call is made), the clock reading of its
    [time.Now()], and, at the moment of the hand-off, whether the context
    is cancelled and the runtime's pick. *)
Record Cycle (P : Type) := mkCycle {
  probes : P;
  now : Time.t;
  ctxDoneAtSend : bool;
  pickSend : nat }.
Arguments mkCycle {P} _ _ _ _.
Arguments probes {P} _.
Arguments now {P} _.
Arguments ctxDoneAtSend {P} _.
Arguments pickSend {P} _.

Module CPUCollector.
(** The [output] field is the shared mailbox, threaded as the state. *)
Record t := mk { interval : Duration }.

Record Probes := mkProbes {
  Percent_overall : result (slice float64); (* cpu.Percent(time.Second, false) *)
  Percent_percore : result (slice float64); (* cpu.Percent(time.Second, true) *)
  Avg : result load.AvgStat }.              (* load.Avg() *)

(* func (c *CPUCollector) collectCPUMetrics() (Metric, error) *)
(** [None] is the run-time panic of [overallPercent[0]] on an empty
    slice. *)
Definition collectCPUMetrics (p : Probes) (now : Time.t)
  : M Chan.t (option (result Metric.t)) :=
  exec emit (Probe (cpu_Percent false));
  match Percent_overall p with
  | Err err => ret (Some (Err err))
  | Ok overallPercent =>
      exec emit (Probe (cpu_Percent true));
      match Percent_percore p with
      | Err err => ret (Some (Err err))
      | Ok perCorePercent =>
          exec emit (Probe load_Avg);
          do loadAvg <-
            match Avg p with
            | Err err =>
                exec emit (Log "Warning: could not get load average: %v"
                             [ArgError err]);
                ret (load.mkAvgStat float_zero float_zero float_zero)
            | Ok st => ret st
            end;
          match overallPercent with
          | Some (first :: _) =>
              let cpuMetric :=
                CPUMetric.mk first perCorePercent
                  (Some [load.Load1 loadAvg; load.Load5 loadAvg;
                         load.Load15 loadAvg]) in
              exec emit Now;
              ret (Some (Ok (Metric.mk "cpu" now (AnyCPU cpuMetric))))
          | _ => ret None
          end
      end
  end.

(** The part of [Start] before its loop. *)
Definition Start_begin (c : t) : M Chan.t Status :=
  if interval c <=? 0 then ret Panicked
  else
    exec emit (NewTicker (interval c));
    exec emit (Log "CPU collector started with interval %v"
                 [ArgDuration (interval c)]);
    ret Running.

(** One iteration of the loop of [Start]. *)
Definition Start_select (r : Ready) (cy : Cycle Probes) : M Chan.t Status :=
  let ch := go_select [ctxDone r; tickFired r] false (pick r) in
  exec emit (Select ch);
  match ch with
  | Case 0%nat =>
      exec emit (Log "CPU collector stopping..." []);
      ret Stopped
  | Case _ =>
      do res <- collectCPUMetrics (probes cy) (now cy);
      match res with
      | None => ret Panicked
      | Some (Err err) =>
          exec emit (Log "Error collecting CPU metrics: %v" [ArgError err]);
          ret Running
      | Some (Ok metric) =>
          do out <- get;
          let took :=
            go_select [Chan.send_ready out; ctxDoneAtSend cy] true
              (pickSend cy) in
          exec emit (Offer metric took);
          match took with
          | Case 0%nat =>
              exec put (Chan.send metric out);
              ret Running
          | Case _ => ret Stopped
          | _ =>
              exec emit (Log "CPU metric dropped: output channel full" []);
              ret Running
          end
      end
  | _ => ret Running
  end.

Fixpoint Start_loop (ws : list (Ready * Cycle Probes)) : M Chan.t Status :=
  match ws with
  | [] => ret Running
  | (r, cy) :: ws' =>
      do st <- Start_select r cy;
      match st with
      | Running => Start_loop ws'
      | _ => ret st
      end
  end.

(* func (c *CPUCollector) Start(ctx context.Context) *)
Definition Start (c : t) (ws : list (Ready * Cycle Probes))
  : M Chan.t Status :=
  do st <- Start_begin c;
  match st with
  | Running => Start_loop ws
  | _ => ret st
  end.
End CPUCollector.

(* func NewCPUCollector(interval time.Duration, output chan<- Metric) *CPUCollector *)
Definition NewCPUCollector (interval : Duration) : CPUCollector.t :=
  CPUCollector.mk interval.

(** The [Start] methods of the Memory, Disk and Network collectors are the
    same loop around their own [collectAndSend]:
<<
ticker := time.NewTicker(x.interval)
defer ticker.Stop()
// Collect initial metric immediately
x.collectAndSend()
for {
	select {
	case <-ctx.Done():       // case 0
		log.Println("... collector stopping...")
		return
	case <-ticker.C:         // case 1
		x.collectAndSend()
	}
}
>> *)
Section TickerLoop.
Context {P : Type}.
Variable interval : Duration.
Variable stopping : string.
Variable collectAndSend : P -> Time.t -> M Chan.t unit.

(** The part before the loop; [cy] is what the initial collection meets. *)
Definition poll_begin (cy : Cycle P) : M Chan.t Status :=
  if interval <=? 0 then ret Panicked
  else
    exec emit (NewTicker interval);
    exec collectAndSend (probes cy) (now cy);
    ret Running.

(** One iteration of the loop. *)
Definition poll_select (r : Ready) (cy : Cycle P) : M Chan.t Status :=
  let ch := go_select [ctxDone r; tickFired r] false (pick r) in
  exec emit (Select ch);
  match ch with
  | Case 0%nat =>
      exec emit (Log stopping []);
      ret Stopped
  | Case _ =>
      exec collectAndSend (probes cy) (now cy);
      ret Running
  | _ => ret Running
  end.

Fixpoint poll_loop (ws : list (Ready * Cycle P)) : M Chan.t Status :=
  match ws with
  | [] => ret Running
  | (r, cy) :: ws' =>
      do st <- poll_select r cy;
      match st with
      | Running => poll_loop ws'
      | _ => ret st
      end
  end.

Definition poll_Start (cy0 : Cycle P) (ws : list (Ready * Cycle P))
  : M Chan.t Status :=
  do st <- poll_begin cy0;
  match st with
  | Running => poll_loop ws
  | _ => ret st
  end.
End TickerLoop.

Module MemoryCollector.
Record t := mk { interval : Duration }.

Record Probes := mkProbes {
  VirtualMemory : result mem.VirtualMemoryStat;  (* mem.VirtualMemory() *)
  SwapMemory : result mem.SwapMemoryStat }.      (* mem.SwapMemory() *)

(* func (m *MemoryCollector) collectAndSend() *)
Definition collectAndSend (p : Probes) (now : Time.t) : M Chan.t unit :=
  exec emit (Probe mem_VirtualMemory);
  match VirtualMemory p with
  | Err err =>
      emit (Log "Error collecting virtual memory metrics: %v" [ArgError err])
  | Ok vmem =>
      exec emit (Probe mem_SwapMemory);
      match SwapMemory p with
      | Err err =>
          emit (Log "Error collecting swap memory metrics: %v" [ArgError err])
      | Ok swap =>
          let memMetric :=
            MemoryMetric.mk (mem.Total vmem) (mem.Available vmem)
              (mem.Used vmem) (mem.UsedPercent vmem) (mem.SwapTotal swap)
              (mem.SwapUsed swap) (mem.SwapUsedPercent swap) in
          exec emit Now;
          let metric := Metric.mk "memory" now (AnyMemory memMetric) in
          do sent <- trySend metric;
          if sent then ret tt
          else emit (Log "Memory metrics channel full, dropping metric" [])
      end
  end.

Definition Start_begin (m : t) := poll_begin (interval m) collectAndSend.
Definition Start_select :=
  poll_select "Memory collector stopping..." collectAndSend.

(* func (m *MemoryCollector) Start(ctx context.Context) *)
Definition Start (m : t) :=
  poll_Start (interval m) "Memory collector stopping..." collectAndSend.
End MemoryCollector.

Module DiskCollector.
Record t := mk { interval : Duration }.

Record Probes := mkProbes {
  Usage : result disk.UsageStat;                  (* disk.Usage("/") *)
  IOCounters :
    result (gmap string disk.IOCountersStat) }.   (* disk.IOCounters() *)

(** [for _, io := range ioCounters { total += io.X }] on a [uint64]
    accumulator. *)
Definition total (f : disk.IOCountersStat -> uint64)
    (ioCounters : gmap string disk.IOCountersStat) : uint64 :=
  map_fold (fun _ io acc => wrap64 (acc + f io)) 0 ioCounters.

(* func (d *DiskCollector) collectAndSend() *)
Definition collectAndSend (p : Probes) (now : Time.t) : M Chan.t unit :=
  exec emit (Probe disk_Usage);
  match Usage p with
  | Err err =>
      emit (Log "Error collecting disk usage metrics: %v" [ArgError err])
  | Ok usage =>
      exec emit (Probe disk_IOCounters);
      match IOCounters p with
      | Err err =>
          emit (Log "Error collecting disk I/O metrics: %v" [ArgError err])
      | Ok ioCounters =>
          let totalReadBytes := total disk.ReadBytes ioCounters in
          let totalWriteBytes := total disk.WriteBytes ioCounters in
          let totalReadOps := total disk.ReadCount ioCounters in
          let totalWriteOps := total disk.WriteCount ioCounters in
          let diskMetric :=
            DiskMetric.mk (disk.Total usage) (disk.Free usage)
              (disk.Used usage) (disk.UsedPercent usage) totalReadBytes
              totalWriteBytes totalReadOps totalWriteOps in
          exec emit Now;
          let metric := Metric.mk "disk" now (AnyDisk diskMetric) in
          do sent <- trySend metric;
          if sent then ret tt
          else emit (Log "Disk metrics channel full, dropping metric" [])
      end
  end.

Definition Start_begin (d : t) := poll_begin (interval d) collectAndSend.
Definition Start_select :=
  poll_select "Disk collector stopping..." collectAndSend.

(* func (d *DiskCollector) Start(ctx context.Context) *)
Definition Start (d : t) :=
  poll_Start (interval d) "Disk collector stopping..." collectAndSend.
End DiskCollector.

Module NetworkCollector.
Record t := mk { interval : Duration }.

Record Probes := mkProbes {
  IOCounters : result (slice net.IOCountersStat) }.  (* net.IOCounters(false) *)

(* func (n *NetworkCollector) collectAndSend() *)
Definition collectAndSend (p : Probes) (now : Time.t) : M Chan.t unit :=
  exec emit (Probe net_IOCounters);
  match IOCounters p with
  | Err err => emit (Log "Error collecting network metrics: %v" [ArgError err])
  | Ok ioCounters =>
      match ioCounters with
      | Some (netStats :: _) =>
          let networkMetric :=
            NetworkMetric.mk (net.BytesSent netStats) (net.BytesRecv netStats)
              (net.PacketsSent netStats) (net.PacketsRecv netStats)
              (net.Errin netStats) (net.Errout netStats)
              (net.Dropin netStats) (net.Dropout netStats) in
          exec emit Now;
          let metric := Metric.mk "network" now (AnyNetwork networkMetric) in
          do sent <- trySend metric;
          if sent then ret tt
          else emit (Log "Network metrics channel full, dropping metric" [])
      | _ => emit (Log "No network interfaces found" [])
      end
  end.

Definition Start_begin (n : t) := poll_begin (interval n) collectAndSend.
Definition Start_select :=
  poll_select "Network collector stopping..." collectAndSend.

(* func (n *NetworkCollector) Start(ctx context.Context) *)
Definition Start (n : t) :=
  poll_Start (interval n) "Network collector stopping..." collectAndSend.
End NetworkCollector.

(** ** package main: configuration *)

(** The process environment; [os.Getenv] returns the empty string for an
    unset variable. *)
Definition Getenv (env : gmap string string) (key : string) : string :=
  default "" (env !! key).

Definition digit (a : Ascii.ascii) : option Z :=
  let n := Z.of_nat (Ascii.nat_of_ascii a) in
  if (48 <=? n) && (n <=? 57) then Some (n - 48) else None.

Fixpoint digits (s : string) (acc : Z) : option Z :=
  match s with
  | EmptyString => Some acc
  | String a s' =>
      match digit a with
      | Some d => digits s' (acc * 10 + d)
      | None => None
      end
  end.

(** The Go standard library's [strconv.Atoi] for a 64-bit [int]: an
    optional sign, then one or more decimal digits, the value within the
    range of [int]; [None] stands for a non-nil error. *)
Definition Atoi (s : string) : option Z :=
  match s with
  | EmptyString => None
  | String a rest =>
      let neg := Ascii.eqb a "-"%char in
      let body := if neg || Ascii.eqb a "+"%char then rest else s in
      match body with
      | EmptyString => None
      | _ =>
          match digits body 0 with
          | None => None
          | Some n =>
              let v := if neg then - n else n in
              if (- 2 ^ 63 <=? v) && (v <=? 2 ^ 63 - 1) then Some v else None
          end
      end
  end.

Section Config.
(** The Go standard library's [time.ParseDuration]; [None] stands for a
    non-nil error. *)
Variable ParseDuration : string -> option Duration.
Variable env : gmap string string.

(* func getEnv(key, defaultValue string) string *)
Definition getEnv (key defaultValue : string) : string :=
  let value := Getenv env key in
  if negb (String.eqb value "") then value else defaultValue.

(* func getEnvDuration(key string, defaultValue time.Duration) time.Duration *)
Definition getEnvDuration (key : string) (defaultValue : Duration) : Duration :=
  let value := Getenv env key in
  if negb (String.eqb value "") then
    match ParseDuration value with
    | Some duration => duration
    | None => defaultValue
    end
  else defaultValue.

(* func getEnvInt(key string, defaultValue int) int *)
Definition getEnvInt (key : string) (defaultValue : Z) : Z :=
  let value := Getenv env key in
  if negb (String.eqb value "") then
    match Atoi value with
    | Some intVal => intVal
    | None => defaultValue
    end
  else defaultValue.

(** The settings [main] reads before it starts anything. *)
Record Settings := mkSettings {
  port : string;
  collectorInterval : Duration;
  sampleInterval : Duration;
  bufferSize : Z }.

Definition settings : Settings :=
  mkSettings (getEnv "PORT" "8080")
    (getEnvDuration "COLLECTOR_INTERVAL" (5 * Second))
    (getEnvDuration "SAMPLE_INTERVAL" (250 * Millisecond))
    (getEnvInt "BUFFER_SIZE" 100).
End Config.

(** ** The running process *)

(** A method on the mailbox, run on the aggregator that owns it. *)
Definition on_chan {A} (m : M Chan.t A) : M Aggregator.t A :=
  fun a =>
    let '(x, c, tr) := m (Aggregator.metricsChan a) in
    (x, Aggregator.with_metricsChan c a, tr).

Inductive Goroutine :=
| GAggregator
| GCPU
| GMemory
| GDisk
| GNetwork.

(** The aggregator with its mailbox, the four collectors, and where each
    of the five goroutines of [main] stands: [None] until the goroutine
    has run the part of [Start] before its loop. *)
Record Process := mkProcess {
  aggregator : Aggregator.t;
  cpuCollector : CPUCollector.t;
  memoryCollector : MemoryCollector.t;
  diskCollector : DiskCollector.t;
  networkCollector : NetworkCollector.t;
  aggregatorSt : option Status;
  cpuSt : option Status;
  memorySt : option Status;
  diskSt : option Status;
  networkSt : option Status }.

(** [main] up to the five [go x.Start(ctx)] statements; [None] is the
    panic of [make] on a negative buffer size. *)
Definition main (ParseDuration : string -> option Duration)
    (env : gmap string string) : option Process :=
  let cfg := settings ParseDuration env in
  match NewAggregator (sampleInterval cfg) (bufferSize cfg) with
  | None => None
  | Some a =>
      Some (mkProcess a
              (NewCPUCollector (collectorInterval cfg))
              (MemoryCollector.mk (collectorInterval cfg))
              (DiskCollector.mk (collectorInterval cfg))
              (NetworkCollector.mk (collectorInterval cfg))
              None None None None None)
  end.

(** One scheduling step: a goroutine runs the part of its [Start] before
    the loop if it has not yet, else one iteration of its loop, with what
    it meets there. *)
Inductive Step :=
| StepAggregator (r : Ready) (now : Time.t)
| StepCPU (r : Ready) (cy : Cycle CPUCollector.Probes)
| StepMemory (r : Ready) (cy : Cycle MemoryCollector.Probes)
| StepDisk (r : Ready) (cy : Cycle DiskCollector.Probes)
| StepNetwork (r : Ready) (cy : Cycle NetworkCollector.Probes).

Definition goroutine_of (s : Step) : Goroutine :=
  match s with
  | StepAggregator _ _ => GAggregator
  | StepCPU _ _ => GCPU
  | StepMemory _ _ => GMemory
  | StepDisk _ _ => GDisk
  | StepNetwork _ _ => GNetwork
  end.

Definition advance {S} (st : option Status) (begin iter : M S Status)
  : M S (option Status) :=
  match st with
  | None => do s <- begin; ret (Some s)
  | Some Running => do s <- iter; ret (Some s)
  | Some s => ret (Some s)
  end.

(** A panic in any goroutine ends the process. *)
Definition crashed (p : Process) : bool :=
  let bad st := match st with Some Panicked => true | _ => false end in
  bad (aggregatorSt p) || bad (cpuSt p) || bad (memorySt p) ||
  bad (diskSt p) || bad (networkSt p).

Definition step (s : Step) (p : Process) : Process * list Op :=
  if crashed p then (p, [])
  else
    let a := aggregator p in
    match s with
    | StepAggregator r now =>
        let '(st, a', tr) :=
          advance (aggregatorSt p) Start_begin (Start_select r now) a in
        (mkProcess a' (cpuCollector p) (memoryCollector p) (diskCollector p)
           (networkCollector p) st (cpuSt p) (memorySt p) (diskSt p)
           (networkSt p), tr)
    | StepCPU r cy =>
        let '(st, a', tr) :=
          on_chan (advance (cpuSt p)
                     (CPUCollector.Start_begin (cpuCollector p))
                     (CPUCollector.Start_select r cy)) a in
        (mkProcess a' (cpuCollector p) (memoryCollector p) (diskCollector p)
           (networkCollector p) (aggregatorSt p) st (memorySt p) (diskSt p)
           (networkSt p), tr)
    | StepMemory r cy =>
        let '(st, a', tr) :=
          on_chan (advance (memorySt p)
                     (MemoryCollector.Start_begin (memoryCollector p) cy)
                     (MemoryCollector.Start_select r cy)) a in
        (mkProcess a' (cpuCollector p) (memoryCollector p) (diskCollector p)
           (networkCollector p) (aggregatorSt p) (cpuSt p) st (diskSt p)
           (networkSt p), tr)
    | StepDisk r cy =>
        let '(st, a', tr) :=
          on_chan (advance (diskSt p)
                     (DiskCollector.Start_begin (diskCollector p) cy)
                     (DiskCollector.Start_select r cy)) a in
        (mkProcess a' (cpuCollector p) (memoryCollector p) (diskCollector p)
           (networkCollector p) (aggregatorSt p) (cpuSt p) (memorySt p) st
           (networkSt p), tr)
    | StepNetwork r cy =>
        let '(st, a', tr) :=
          on_chan (advance (networkSt p)
                     (NetworkCollector.Start_begin (networkCollector p) cy)
                     (NetworkCollector.Start_select r cy)) a in
        (mkProcess a' (cpuCollector p) (memoryCollector p) (diskCollector p)
           (networkCollector p) (aggregatorSt p) (cpuSt p) (memorySt p)
           (diskSt p) st, tr)
    end.

(** An execution: the process after a schedule, and what the goroutines
    did, in order. *)
Fixpoint run (ss : list Step) (p : Process) : Process * list Op :=
  match ss with
  | [] => (p, [])
  | s :: ss' =>
      let '(p1, t1) := step s p in
      let '(p2, t2) := run ss' p1 in
      (p2, t1 ++ t2)
  end.

(** The clock readings offered to the aggregator along a schedule. *)
Definition aggregator_clock (ss : list Step) : list Time.t :=
  omap (fun s => match s with StepAggregator _ now => Some now | _ => None end)
       ss.

(** ** package prom: the exporter *)

(** The conversion [float64(x)] of a [uint64]: the nearest double, ties
    to even. *)
Definition float64_of_uint64 (x : uint64) : float64 :=
  binary_normalize 53 1024 x 0 false.

(** A [prometheus.GaugeVec] with one label: the series created so far,
    by label value.  [WithLabelValues(l).Set(v)] creates the series if it
    is not there and sets it. *)
Abbreviation GaugeVec := (gmap string float64).
Definition Gauge := float64.

Definition WithLabelValues_Set (label : string) (v : float64) (g : GaugeVec)
  : GaugeVec :=
  <[label := v]> g.

Module Metrics.
Record t := mk {
  cpuUsagePercent : GaugeVec;
  cpuLoadAverage : GaugeVec;
  memoryUsageBytes : GaugeVec;
  memoryUsagePercent : Gauge;
  swapUsageBytes : GaugeVec;
  swapUsagePercent : Gauge;
  diskUsageBytes : GaugeVec;
  diskUsagePercent : Gauge;
  diskIOBytes : GaugeVec;
  diskIOOperations : GaugeVec;
  networkBytes : GaugeVec;
  networkPackets : GaugeVec;
  networkErrors : GaugeVec;
  networkDrops : GaugeVec }.
End Metrics.

(* func NewMetrics() *Metrics *)
(** A new vector has no series, a new gauge is at zero. *)
Definition NewMetrics : Metrics.t :=
  Metrics.mk ∅ ∅ ∅ float_zero ∅ float_zero ∅ float_zero ∅ ∅ ∅ ∅ ∅ ∅.

(** [fmt.Sprintf("core_%d", i)] *)
Definition core_label (i : nat) : string := "core_" +:+ pretty i.

(** [for i, corePercent := range perCore { ... .Set(corePercent) }], from
    index [i] on. *)
Fixpoint range_cores (i : nat) (perCore : list float64) (g : GaugeVec)
  : GaugeVec :=
  match perCore with
  | [] => g
  | corePercent :: rest =>
      range_cores (S i) rest (WithLabelValues_Set (core_label i) corePercent g)
  end.

(* func (m *Metrics) UpdateFromSample(sample collect.Sample) *)
Definition UpdateFromSample (sample : Sample.t) (m : Metrics.t) : Metrics.t :=
  let cpu := Sample.CPU sample in
  let memory := Sample.Memory sample in
  let dsk := Sample.Disk sample in
  let network := Sample.Network sample in
  let f := float64_of_uint64 in
  Metrics.mk
    (range_cores 0 (default [] (CPUMetric.PerCorePercent cpu))
       (WithLabelValues_Set "overall" (CPUMetric.OverallPercent cpu)
          (Metrics.cpuUsagePercent m)))
    (match default [] (CPUMetric.LoadAverage cpu) with
     | l1 :: l5 :: l15 :: _ =>
         WithLabelValues_Set "15m" l15
           (WithLabelValues_Set "5m" l5
              (WithLabelValues_Set "1m" l1 (Metrics.cpuLoadAverage m)))
     | _ => Metrics.cpuLoadAverage m
     end)
    (WithLabelValues_Set "available" (f (MemoryMetric.AvailableBytes memory))
       (WithLabelValues_Set "used" (f (MemoryMetric.UsedBytes memory))
          (WithLabelValues_Set "total" (f (MemoryMetric.TotalBytes memory))
             (Metrics.memoryUsageBytes m))))
    (MemoryMetric.UsedPercent memory)
    (WithLabelValues_Set "used" (f (MemoryMetric.SwapUsedBytes memory))
       (WithLabelValues_Set "total" (f (MemoryMetric.SwapTotalBytes memory))
          (Metrics.swapUsageBytes m)))
    (MemoryMetric.SwapUsedPercent memory)
    (WithLabelValues_Set "free" (f (DiskMetric.FreeBytes dsk))
       (WithLabelValues_Set "used" (f (DiskMetric.UsedBytes dsk))
          (WithLabelValues_Set "total" (f (DiskMetric.TotalBytes dsk))
             (Metrics.diskUsageBytes m))))
    (DiskMetric.UsedPercent dsk)
    (WithLabelValues_Set "write" (f (DiskMetric.WriteBytes dsk))
       (WithLabelValues_Set "read" (f (DiskMetric.ReadBytes dsk))
          (Metrics.diskIOBytes m)))
    (WithLabelValues_Set "write" (f (DiskMetric.WriteOps dsk))
       (WithLabelValues_Set "read" (f (DiskMetric.ReadOps dsk))
          (Metrics.diskIOOperations m)))
    (WithLabelValues_Set "received" (f (NetworkMetric.BytesRecv network))
       (WithLabelValues_Set "sent" (f (NetworkMetric.BytesSent network))
          (Metrics.networkBytes m)))
    (WithLabelValues_Set "received" (f (NetworkMetric.PacketsRecv network))
       (WithLabelValues_Set "sent" (f (NetworkMetric.PacketsSent network))
          (Metrics.networkPackets m)))
    (WithLabelValues_Set "out" (f (NetworkMetric.ErrorsOut network))
       (WithLabelValues_Set "in" (f (NetworkMetric.ErrorsIn network))
          (Metrics.networkErrors m)))
    (WithLabelValues_Set "out" (f (NetworkMetric.DropsOut network))
       (WithLabelValues_Set "in" (f (NetworkMetric.DropsIn network))
          (Metrics.networkDrops m))).

(** ** package rest: the handlers *)

(** The values the handlers pass to [json.NewEncoder(w).Encode]. *)
Inductive JSONValue :=
| JSONError (msg : string)      (* map[string]string{"error": msg} *)
| JSONSample (sample : Sample.t).

(** What a handler does with its [http.ResponseWriter], in order. *)
Inductive ResponseOp :=
| W_Header_Set (key value : string)
| W_WriteHeader (statusCode : Z)
| W_Write (body : string)
| W_Encode (v : JSONValue)
| W_Error (msg : string) (code : Z).   (* http.Error(w, msg, code) *)

Definition StatusOK : Z := 200.
Definition StatusInternalServerError : Z := 500.
Definition StatusServiceUnavailable : Z := 503.

(* func (h *Handlers) HealthzHandler(w http.ResponseWriter, r *http.Request) *)
Definition HealthzHandler : list ResponseOp :=
  [W_WriteHeader StatusOK; W_Write "OK"].

(* func (h *Handlers) ReadyzHandler(w http.ResponseWriter, r *http.Request) *)
Definition ReadyzHandler : list ResponseOp :=
  [W_WriteHeader StatusOK; W_Write "Ready"].

(* func (h *Handlers) MetricsLatestHandler(w http.ResponseWriter, r *http.Request) *)
(** [a] is the aggregator the handlers share, as it is when the request
    is served; [encode] is the error, if any, that
    [json.NewEncoder(w).Encode] returns for a sample. *)
Definition MetricsLatestHandler (encode : Sample.t -> option error)
    (a : Aggregator.t) : list ResponseOp :=
  let sample := GetLatestSample a in
  W_Header_Set "Content-Type" "application/json" ::
  if Time.IsZero (Sample.Timestamp sample) then
    [W_WriteHeader StatusServiceUnavailable;
     W_Encode (JSONError "No metrics data available yet")]
  else
    W_WriteHeader StatusOK ::
    W_Encode (JSONSample sample) ::
    match encode sample with
    | Some _ => [W_Error "Error encoding metrics" StatusInternalServerError]
    | None => []
    end.

(** ** Vocabulary of the statements *)

(** [emits P m]: every operation [m] performs satisfies [P], from any
    state. *)
Definition emits {S A} (P : Op -> Prop) (m : M S A) : Prop :=
  forall s, Forall P (trace_of (m s)).

(** Predicates on single operations. *)
Definition not_publish (o : Op) : Prop :=
  match o with
  | Publish _ => False
  | _ => True
  end.

(** A computation of the aggregator either publishes nothing and leaves
    the stored sample alone, or publishes one sample stamped [now]. *)
Definition quiet_or_stamped {A} (now : Time.t) (a : Aggregator.t)
    (res : A * Aggregator.t * list Op) : Prop :=
  (published (trace_of res) = [] /\
   Aggregator.latestSample (state_of res) = Aggregator.latestSample a) \/
  (exists s, published (trace_of res) = [s] /\ Sample.Timestamp s = now).

(** The state of the mailbox after the collectors have attempted, in
    order, to hand off each of [ms]. *)
Definition sendAll (ms : list Metric.t) (c : Chan.t) : Chan.t :=
  fold_left (fun c m => state_of (trySend m c)) ms c.

(** Up to [n] successive receives by a running consumer. *)
Fixpoint drain (n : nat) (c : Chan.t) : list Metric.t * Chan.t :=
  match n with
  | O => ([], c)
  | S n' =>
      match Chan.recv c with
      | None => ([], c)
      | Some (m, c') =>
          let '(ms, c'') := drain n' c' in
          (m :: ms, c'')
      end
  end.

(** The probe results a cycle of the collector of kind [k] meets. *)
Definition Probes (k : Kind) : Type :=
  match k with
  | KCPU => CPUCollector.Probes
  | KMemory => MemoryCollector.Probes
  | KDisk => DiskCollector.Probes
  | KNetwork => NetworkCollector.Probes
  end.

(** The part of the [Start] of the collector of kind [k] before its loop;
    only the CPU collector ignores the cycle. *)
Definition worker_begin (k : Kind) (interval : Duration)
  : Cycle (Probes k) -> M Chan.t Status :=
  match k with
  | KCPU => fun _ => CPUCollector.Start_begin (CPUCollector.mk interval)
  | KMemory => MemoryCollector.Start_begin (MemoryCollector.mk interval)
  | KDisk => DiskCollector.Start_begin (DiskCollector.mk interval)
  | KNetwork => NetworkCollector.Start_begin (NetworkCollector.mk interval)
  end.

(** One iteration of the loop of the collector of kind [k]. *)
Definition worker_select (k : Kind)
  : Ready -> Cycle (Probes k) -> M Chan.t Status :=
  match k with
  | KCPU => CPUCollector.Start_select
  | KMemory => MemoryCollector.Start_select
  | KDisk => DiskCollector.Start_select
  | KNetwork => NetworkCollector.Start_select
  end.

(** Some probe call made in a cycle with these results returns an error
    (a call is made only when the calls before it succeeded, except that
    the CPU collector goes on after a failure of [load.Avg]). *)
Definition probe_failed (k : Kind) : Probes k -> bool :=
  match k return Probes k -> bool with
  | KCPU => fun p =>
      match CPUCollector.Percent_overall p with
      | Err _ => true
      | Ok _ =>
          match CPUCollector.Percent_percore p with
          | Err _ => true
          | Ok _ => is_err (CPUCollector.Avg p)
          end
      end
  | KMemory => fun p =>
      match MemoryCollector.VirtualMemory p with
      | Err _ => true
      | Ok _ => is_err (MemoryCollector.SwapMemory p)
      end
  | KDisk => fun p =>
      match DiskCollector.Usage p with
      | Err _ => true
      | Ok _ => is_err (DiskCollector.IOCounters p)
      end
  | KNetwork => fun p => is_err (NetworkCollector.IOCounters p)
  end.

(** The same, leaving out the CPU collector's [load.Avg] call. *)
Definition probe_failed_fatal (k : Kind) : Probes k -> bool :=
  match k return Probes k -> bool with
  | KCPU => fun p =>
      match CPUCollector.Percent_overall p with
      | Err _ => true
      | Ok _ => is_err (CPUCollector.Percent_percore p)
      end
  | KMemory => probe_failed KMemory
  | KDisk => probe_failed KDisk
  | KNetwork => probe_failed KNetwork
  end.

(** The loop's [select] takes its ticker case. *)
Definition takes_tick (r : Ready) : Prop :=
  go_select [ctxDone r; tickFired r] false (pick r) = Case 1.

(** The probe calls made, in order. *)
Definition probe_calls (tr : list Op) : list ProbeCall :=
  omap (fun o => match o with Probe p => Some p | _ => None end) tr.

(** The hand-offs attempted, in order, each with the case its [select]
    took. *)
Definition offers (tr : list Op) : list (Metric.t * Choice) :=
  omap (fun o => match o with Offer m c => Some (m, c) | _ => None end) tr.

Definition not_select (o : Op) : Prop :=
  match o with
  | Select _ => False
  | _ => True
  end.

(** A cycle with these probe results builds a metric and reaches the
    hand-off. *)
Definition collects (k : Kind) : Probes k -> bool :=
  match k return Probes k -> bool with
  | KCPU => fun p =>
      match CPUCollector.Percent_overall p, CPUCollector.Percent_percore p with
      | Ok (Some (_ :: _)), Ok _ => true
      | _, _ => false
      end
  | KMemory => fun p =>
      negb (is_err (MemoryCollector.VirtualMemory p)) &&
      negb (is_err (MemoryCollector.SwapMemory p))
  | KDisk => fun p =>
      negb (is_err (DiskCollector.Usage p)) &&
      negb (is_err (DiskCollector.IOCounters p))
  | KNetwork => fun p =>
      match NetworkCollector.IOCounters p with
      | Ok (Some (_ :: _)) => true
      | _ => false
      end
  end.

Definition stopping (k : Kind) : string :=
  match k with
  | KCPU => "CPU collector stopping..."
  | KMemory => "Memory collector stopping..."
  | KDisk => "Disk collector stopping..."
  | KNetwork => "Network collector stopping..."
  end.

Definition with_ctxDoneAtSend {P} (b : bool) (cy : Cycle P) : Cycle P :=
  mkCycle (probes cy) (now cy) b (pickSend cy).

Definition no_blocking_offer (o : Op) : Prop :=
  match o with
  | Offer _ Blocks => False
  | _ => True
  end.

(** [keeps I m]: [m] preserves the state invariant [I]. *)
Definition keeps {S A} (I : S -> Prop) (m : M S A) : Prop :=
  forall s, I s -> I (state_of (m s)).

(** The aggregator's mailbox is well formed. *)
Definition agg_wf (a : Aggregator.t) : Prop :=
  Chan.wf (Aggregator.metricsChan a).

(** The metrics the aggregator received from the mailbox, oldest first. *)
Definition received (tr : list Op) : list Metric.t :=
  omap (fun o => match o with Recv m => Some m | _ => None end) tr.

(** More predicates on single operations. *)
Definition not_recv (o : Op) : Prop :=
  match o with
  | Recv _ => False
  | _ => True
  end.

(** What a step of the aggregator does to a slot: nothing, or what
    [storeMetric] does with the one metric it received. *)
Definition slot_after (k : Kind) (ms : list Metric.t) (before : option any)
  : option any :=
  match last (omap (payload_of k) ms) with
  | Some p => Some p
  | None => before
  end.

(** ** Vocabulary of the further properties *)

(** The loop [for _, io := range ioCounters { total += io.X }] on a
    [uint64] accumulator, run over the entries of the map in the order [l]
    in which the runtime happens to visit them. *)
Definition range_total (f : disk.IOCountersStat -> uint64)
    (l : list (string * disk.IOCountersStat)) : uint64 :=
  fold_left (fun acc kv => wrap64 (acc + f kv.2)) l 0.

(** The sum of a counter over all disks, exactly. *)
Definition counter_sum (f : disk.IOCountersStat -> uint64)
    (l : list (string * disk.IOCountersStat)) : Z :=
  foldr (fun kv s => f kv.2 + s) 0 l.

(** The metrics actually sent to the mailbox, in order: the hand-offs
    whose [select] took the send case. *)
Definition sent (tr : list Op) : list Metric.t :=
  omap (fun o => match o with Offer m (Case 0) => Some m | _ => None end) tr.

(** The metrics sent and not yet received: the one handed to a woken
    consumer, if any, then the buffer. *)
Definition in_flight (c : Chan.t) : list Metric.t :=
  match Chan.recvq c with
  | RecvHanded m => m :: Chan.buf c
  | _ => Chan.buf c
  end.

(** [m] is a Measurement of kind [k] stamped [t]. *)
Definition measurement_of (k : Kind) (t : Time.t) (m : Metric.t) : Prop :=
  payload_of k m = Some (Metric.Data m) /\ Metric.Timestamp m = t.

(** [m] is a Measurement of some kind. *)
Definition is_measurement (m : Metric.t) : Prop :=
  exists k, payload_of k m = Some (Metric.Data m).

(** What a collector of kind [k] may do in a cycle stamped [t]: it offers
    only Measurements of its kind with that stamp, never receives,
    publishes or updates the exporter. *)
Definition collector_op (k : Kind) (t : Time.t) (o : Op) : Prop :=
  match o with
  | Offer m _ => measurement_of k t m
  | Recv _ | Publish _ | PromUpdate _ => False
  | _ => True
  end.

(** The effect of a computation of a collector of kind [k] on the mailbox
    [c]: none, or the send of one Measurement of its kind that the
    mailbox was ready to take. *)
Definition delivers {A} (k : Kind) (t : Time.t) (c : Chan.t)
    (res : A * Chan.t * list Op) : Prop :=
  (state_of res = c /\ sent (trace_of res) = []) \/
  (exists m, Chan.send_ready c = true /\ state_of res = Chan.send m c /\
             sent (trace_of res) = [m] /\ measurement_of k t m).

(** [quiet_with Q m]: [m] leaves the mailbox alone, sends nothing, and
    its result satisfies [Q]. *)
Definition quiet_with {A} (Q : A -> Prop) (m : M Chan.t A) : Prop :=
  forall c, state_of (m c) = c /\ sent (trace_of (m c)) = [] /\
            Q (result_of (m c)).

(** [one_send k t m]: from any mailbox, [m] sends at most one metric, a
    Measurement of kind [k] stamped [t]. *)
Definition one_send {A} (k : Kind) (t : Time.t) (m : M Chan.t A) : Prop :=
  forall c, delivers k t c (m c).

#[local] Instance Kind_eq_dec : EqDecision Kind.
Proof. solve_decision. Defined.

(** Any operation but the log line of [storeMetric]'s [default] branch. *)
Definition no_unknown_log (o : Op) : Prop :=
  match o with
  | Log format _ => format <> "Unknown metric type: %s"
  | _ => True
  end.

(** The mailbox is well formed and holds only Measurements. *)
Definition mailbox_inv (a : Aggregator.t) : Prop :=
  Chan.wf (Aggregator.metricsChan a) /\
  Forall is_measurement (in_flight (Aggregator.metricsChan a)).

(** What a stretch of an execution with trace [tr] does with the metrics:
    those in flight before plus those sent are those received plus those
    in flight after; the capacity does not change; every metric received
    is a Measurement, and no metric is reported as of unknown type. *)
Definition conserves (a : Aggregator.t) (tr : list Op) (a' : Aggregator.t)
  : Prop :=
  in_flight (Aggregator.metricsChan a) ++ sent tr =
    received tr ++ in_flight (Aggregator.metricsChan a') /\
  Chan.dataqsiz (Aggregator.metricsChan a') =
    Chan.dataqsiz (Aggregator.metricsChan a) /\
  Forall is_measurement (received tr) /\
  Forall no_unknown_log tr.

(** A schedule on which the statements below are exercised: the
    aggregator starts and parks; the Memory and Disk collectors start and
    send; the CPU collector starts, then collects at a tick; the
    aggregator receives twice, publishes at a tick, and receives again;
    the Network collector starts with a failing probe. *)
Definition demo_schedule : list Step :=
  let waiting := mkReady false false 0 in
  let tick := mkReady false true 0 in
  let memory :=
    mkCycle
      (MemoryCollector.mkProbes
         (Ok (mem.mkVirtualMemoryStat 8 4 4 float_zero))
         (Ok (mem.mkSwapMemoryStat 2 1 float_zero)))
      (Time.mk 10 100) false 0 in
  let dsk :=
    mkCycle
      (DiskCollector.mkProbes (Ok (disk.mkUsageStat 100 60 40 float_zero))
         (Ok (<["sda" := disk.mkIOCountersStat 1 2 3 4]> ∅)))
      (Time.mk 10 200) false 0 in
  let cpu :=
    mkCycle
      (CPUCollector.mkProbes (Ok (Some [float_zero]))
         (Ok (Some [float_zero; float_zero]))
         (Err (errorString "not implemented yet")))
      (Time.mk 12 0) false 0 in
  let network :=
    mkCycle
      (NetworkCollector.mkProbes (Err (errorString "permission denied")))
      (Time.mk 13 0) false 0 in
  [StepAggregator waiting (Time.mk 10 0);
   StepAggregator waiting (Time.mk 10 50);
   StepMemory waiting memory;
   StepDisk waiting dsk;
   StepCPU waiting cpu;
   StepCPU tick cpu;
   StepAggregator waiting (Time.mk 12 100);
   StepAggregator waiting (Time.mk 12 200);
   StepAggregator (mkReady false true 1) (Time.mk 12 250);
   StepAggregator waiting (Time.mk 12 300);
   StepNetwork waiting network].

(** The samples passed to the exporter, oldest first. *)
Definition prom_updates (tr : list Op) : list Sample.t :=
  omap (fun o => match o with PromUpdate s => Some s | _ => None end) tr.

(** The payload of kind [k] of a sample, and its zero value, as dynamic
    values. *)
Definition sample_payload (k : Kind) (s : Sample.t) : any :=
  match k with
  | KCPU => AnyCPU (Sample.CPU s)
  | KMemory => AnyMemory (Sample.Memory s)
  | KDisk => AnyDisk (Sample.Disk s)
  | KNetwork => AnyNetwork (Sample.Network s)
  end.

Definition zero_payload (k : Kind) : any :=
  match k with
  | KCPU => AnyCPU CPUMetric.zero
  | KMemory => AnyMemory MemoryMetric.zero
  | KDisk => AnyDisk DiskMetric.zero
  | KNetwork => AnyNetwork NetworkMetric.zero
  end.

(** Reading a trace from a slot value [cur]: every sample published
    carries, for kind [k], the slot's value at that point, or the zero
    value while the slot is empty. *)
Fixpoint publishes_current (k : Kind) (cur : option any) (tr : list Op)
  : Prop :=
  match tr with
  | [] => True
  | Recv m :: tr' => publishes_current k (slot_after k [m] cur) tr'
  | Publish s :: tr' =>
      sample_payload k s = default (zero_payload k) cur /\
      publishes_current k cur tr'
  | _ :: tr' => publishes_current k cur tr'
  end.

(** The stored sample after a stretch of an execution is the last one
    published in it, and the exporter was passed exactly the samples
    published. *)
Definition stores_last (a : Aggregator.t) (tr : list Op) (a' : Aggregator.t)
  : Prop :=
  Aggregator.latestSample a' =
    default (Aggregator.latestSample a) (last (published tr)) /\
  prom_updates tr = published tr.

(** The slot of kind [k] follows the metrics received, and the samples
    published follow the slot. *)
Definition tracks (k : Kind) (a : Aggregator.t) (tr : list Op)
    (a' : Aggregator.t) : Prop :=
  slot k a' = slot_after k (received tr) (slot k a) /\
  publishes_current k (slot k a) tr.


(** The variable from which [main] takes the interval of a goroutine's
    ticker. *)
Definition interval_key (g : Goroutine) : string :=
  match g with
  | GAggregator => "SAMPLE_INTERVAL"
  | _ => "COLLECTOR_INTERVAL"
  end.

(** The line the collector of kind [k] logs when the mailbox does not
    take its metric. *)
Definition drop_log (k : Kind) : string :=
  match k with
  | KCPU => "CPU metric dropped: output channel full"
  | KMemory => "Memory metrics channel full, dropping metric"
  | KDisk => "Disk metrics channel full, dropping metric"
  | KNetwork => "Network metrics channel full, dropping metric"
  end.

(** The outcome of a cycle that hands off on mailbox [c]: one Measurement
    of kind [k] stamped [t] is offered; the mailbox takes it if it is
    ready to, else the metric is dropped and the drop logged; the
    collector goes on. *)
Definition hands_off (k : Kind) (t : Time.t) (c : Chan.t)
    (res : Status * Chan.t * list Op) : Prop :=
  result_of res = Running /\
  exists m, measurement_of k t m /\
    if Chan.send_ready c
    then state_of res = Chan.send m c /\
         offers (trace_of res) = [(m, Case 0)] /\
         ~ In (Log (drop_log k) []) (trace_of res)
    else state_of res = c /\
         offers (trace_of res) = [(m, Default)] /\
         In (Log (drop_log k) []) (trace_of res).

(** The status codes a handler writes, in order; the first is the one
    the client receives. *)
Definition statuses (ops : list ResponseOp) : list Z :=
  omap (fun o => match o with
                 | W_WriteHeader code | W_Error _ code => Some code
                 | _ => None
                 end) ops.

(** The exporter after the updates of a trace. *)
Definition exporter_after (tr : list Op) (m : Metrics.t) : Metrics.t :=
  fold_left (fun m s => UpdateFromSample s m) (prom_updates tr) m.

(** The exporter [m] shows the sample [s]: every series that
    [UpdateFromSample] sets whatever the sample is holds the sample's
    value, and so does the series of each core the sample lists. *)
Definition exposes (m : Metrics.t) (s : Sample.t) : Prop :=
  let f := float64_of_uint64 in
  let cpu := Sample.CPU s in
  let memory := Sample.Memory s in
  let dsk := Sample.Disk s in
  let network := Sample.Network s in
  (Metrics.cpuUsagePercent m !! "overall" =
     Some (CPUMetric.OverallPercent cpu) /\
   forall i v,
     default [] (CPUMetric.PerCorePercent cpu) !! i = Some v ->
     Metrics.cpuUsagePercent m !! core_label i = Some v) /\
  (Metrics.memoryUsageBytes m !! "total" =
     Some (f (MemoryMetric.TotalBytes memory)) /\
   Metrics.memoryUsageBytes m !! "used" =
     Some (f (MemoryMetric.UsedBytes memory)) /\
   Metrics.memoryUsageBytes m !! "available" =
     Some (f (MemoryMetric.AvailableBytes memory)) /\
   Metrics.memoryUsagePercent m = MemoryMetric.UsedPercent memory /\
   Metrics.swapUsageBytes m !! "total" =
     Some (f (MemoryMetric.SwapTotalBytes memory)) /\
   Metrics.swapUsageBytes m !! "used" =
     Some (f (MemoryMetric.SwapUsedBytes memory)) /\
   Metrics.swapUsagePercent m = MemoryMetric.SwapUsedPercent memory) /\
  (Metrics.diskUsageBytes m !! "total" =
     Some (f (DiskMetric.TotalBytes dsk)) /\
   Metrics.diskUsageBytes m !! "used" = Some (f (DiskMetric.UsedBytes dsk)) /\
   Metrics.diskUsageBytes m !! "free" = Some (f (DiskMetric.FreeBytes dsk)) /\
   Metrics.diskUsagePercent m = DiskMetric.UsedPercent dsk /\
   Metrics.diskIOBytes m !! "read" = Some (f (DiskMetric.ReadBytes dsk)) /\
   Metrics.diskIOBytes m !! "write" = Some (f (DiskMetric.WriteBytes dsk)) /\
   Metrics.diskIOOperations m !! "read" =
     Some (f (DiskMetric.ReadOps dsk)) /\
   Metrics.diskIOOperations m !! "write" =
     Some (f (DiskMetric.WriteOps dsk))) /\
  (Metrics.networkBytes m !! "sent" =
     Some (f (NetworkMetric.BytesSent network)) /\
   Metrics.networkBytes m !! "received" =
     Some (f (NetworkMetric.BytesRecv network)) /\
   Metrics.networkPackets m !! "sent" =
     Some (f (NetworkMetric.PacketsSent network)) /\
   Metrics.networkPackets m !! "received" =
     Some (f (NetworkMetric.PacketsRecv network)) /\
   Metrics.networkErrors m !! "in" =
     Some (f (NetworkMetric.ErrorsIn network)) /\
   Metrics.networkErrors m !! "out" =
     Some (f (NetworkMetric.ErrorsOut network)) /\
   Metrics.networkDrops m !! "in" =
     Some (f (NetworkMetric.DropsIn network)) /\
   Metrics.networkDrops m !! "out" =
     Some (f (NetworkMetric.DropsOut network))).

(** Nothing is received before it is sent: at every point of the trace,
    the metrics received so far are the first of those that were in
    flight at its start followed by those sent so far. *)
Definition causal (a : Aggregator.t) (tr : list Op) : Prop :=
  forall n,
    received (take n tr) `prefix_of`
      in_flight (Aggregator.metricsChan a) ++ sent (take n tr).

(** [conserves], at every point of the trace. *)
Definition ordered (a : Aggregator.t) (tr : list Op) (a' : Aggregator.t)
  : Prop :=
  conserves a tr a' /\ causal a tr.

(** The exporter is at most one sample behind the store: [createSample]
    stores its sample first and passes it to the exporter afterwards. *)
Definition one_behind (tr : list Op) : Prop :=
  prom_updates tr = published tr \/
  exists s, published tr = prom_updates tr ++ [s].

(** [stores_last], with the exporter at most one sample behind at every
    point of the trace. *)
Definition follows (a : Aggregator.t) (tr : list Op) (a' : Aggregator.t)
  : Prop :=
  stores_last a tr a' /\ forall n, one_behind (take n tr).

#[local] Instance ProbeCall_eq_dec : EqDecision ProbeCall.
Proof. solve_decision. Defined.

(** * Properties *)

(** ** Reasoning about computations *)

Lemma state_of_bind {S A B} (m : M S A) (k : A -> M S B) (s : S) :
  state_of (bind m k s) = state_of (k (result_of (m s)) (state_of (m s))).
Proof.
  unfold bind, state_of, result_of.
  destruct (m s) as [[a s1] t1]. simpl.
  destruct (k a s1) as [[b s2] t2]. reflexivity.
Qed.

Lemma trace_of_bind {S A B} (m : M S A) (k : A -> M S B) (s : S) :
  trace_of (bind m k s) =
  trace_of (m s) ++ trace_of (k (result_of (m s)) (state_of (m s))).
Proof.
  unfold bind, state_of, result_of, trace_of.
  destruct (m s) as [[a s1] t1]. simpl.
  destruct (k a s1) as [[b s2] t2]. reflexivity.
Qed.

Lemma result_of_bind {S A B} (m : M S A) (k : A -> M S B) (s : S) :
  result_of (bind m k s) = result_of (k (result_of (m s)) (state_of (m s))).
Proof.
  unfold bind, state_of, result_of.
  destruct (m s) as [[a s1] t1]. simpl.
  destruct (k a s1) as [[b s2] t2]. reflexivity.
Qed.

Lemma run_eta {S A} (r : A * S * list Op) :
  r = (result_of r, state_of r, trace_of r).
Proof. destruct r as [[a s] t]. reflexivity. Qed.

Ltac go_simpl :=
  repeat first
    [ rewrite trace_of_bind | rewrite state_of_bind | rewrite result_of_bind
    | progress cbn [ret emit get put modify trace_of state_of result_of
                    fst snd app] ].

Section Emits.
Context {S : Type} (P : Op -> Prop).

Lemma emits_ret {A} (a : A) : emits P (ret (S:=S) a).
Proof. intros s. constructor. Qed.

Lemma emits_get : emits P (get (S:=S)).
Proof. intros s. constructor. Qed.

Lemma emits_put (s' : S) : emits P (put s').
Proof. intros s. constructor. Qed.

Lemma emits_modify (f : S -> S) : emits P (modify f).
Proof. intros s. constructor. Qed.

Lemma emits_emit o : P o -> emits P (emit (S:=S) o).
Proof. intros H s. repeat constructor. exact H. Qed.

Lemma emits_bind {A B} (m : M S A) (k : A -> M S B) :
  emits P m -> (forall a, emits P (k a)) -> emits P (bind m k).
Proof.
  intros Hm Hk s. rewrite trace_of_bind. apply Forall_app. split.
  - apply Hm.
  - apply Hk.
Qed.
End Emits.

Create HintDb go discriminated.

Ltac emits_step :=
  first
    [ apply emits_ret | apply emits_get | apply emits_put | apply emits_modify
    | apply emits_emit; solve [simpl; auto]
    | solve [auto with go]
    | apply emits_bind; [|intros ?]
    | match goal with
      | |- emits _ (match ?x with _ => _ end) => destruct x
      | |- emits _ (let _ := _ in _) => cbv zeta
      end ].

Ltac emits_tac := repeat emits_step.

(** ** The aggregator state (C1, C10, C7) *)

Lemma storeMetric_slot (k : Kind) (m : Metric.t) (a : Aggregator.t) :
  slot k (state_of (storeMetric m a)) =
    match payload_of k m with
    | Some p => Some p
    | None => slot k a
    end.
Proof.
  destruct m as [ty ts d]. unfold storeMetric, payload_of. simpl.
  destruct (String.eqb ty "cpu") eqn:E1.
  { apply String.eqb_eq in E1. subst ty. destruct k, d; reflexivity. }
  destruct (String.eqb ty "memory") eqn:E2.
  { apply String.eqb_eq in E2. subst ty. destruct k, d; reflexivity. }
  destruct (String.eqb ty "disk") eqn:E3.
  { apply String.eqb_eq in E3. subst ty. destruct k, d; reflexivity. }
  destruct (String.eqb ty "network") eqn:E4.
  { apply String.eqb_eq in E4. subst ty. destruct k, d; reflexivity. }
  destruct k; simpl; rewrite ?E1, ?E2, ?E3, ?E4; reflexivity.
Qed.

(** C1. After any finite sequence of metrics has been delivered to
    [storeMetric], the slot of each kind holds the payload of the last
    Measurement of that kind in the sequence (a metric tagged with the
    kind and carrying its struct), whatever metrics of other kinds are
    interleaved; when the sequence has no Measurement of the kind the slot
    is as it was before. *)
Theorem storeMetric_last_write_wins (k : Kind) (ms : list Metric.t)
    (a : Aggregator.t) :
  slot k (state_of (deliver ms a)) =
    match last (omap (payload_of k) ms) with
    | Some p => Some p
    | None => slot k a
    end.
Proof.
  revert a. induction ms as [|m ms IH]; intros a.
  - reflexivity.
  - cbn [deliver]. rewrite state_of_bind, IH, storeMetric_slot.
    cbn [omap list_omap].
    destruct (payload_of k m) as [p|]; [|reflexivity].
    rewrite last_cons. destruct (last _); reflexivity.
Qed.

(** A metric with an unknown tag is logged and changes nothing. *)
Lemma storeMetric_unknown (m : Metric.t) (a : Aggregator.t) :
  (forall k, Metric.Type_ m <> tag k) ->
  storeMetric m a =
    (tt, a, [Log "Unknown metric type: %s" [ArgString (Metric.Type_ m)]]).
Proof.
  intros H. unfold storeMetric.
  pose proof (H KCPU) as H1. pose proof (H KMemory) as H2.
  pose proof (H KDisk) as H3. pose proof (H KNetwork) as H4.
  apply String.eqb_neq in H1, H2, H3, H4. simpl in H1, H2, H3, H4.
  rewrite H1, H2, H3, H4. reflexivity.
Qed.

(** C10. A metric whose tag is one of the four kinds but whose [Data] is
    not a value of that kind's struct type leaves the whole aggregator,
    hence all four slots, unchanged, and nothing is logged. *)
Theorem storeMetric_mismatch_discarded (k : Kind) (m : Metric.t)
    (a : Aggregator.t) :
  Metric.Type_ m = tag k ->
  has_type k (Metric.Data m) = false ->
  storeMetric m a = (tt, a, []).
Proof.
  destruct m as [ty ts d]. simpl. intros -> Hd. unfold storeMetric. simpl.
  destruct k, d; simpl in Hd; try discriminate; reflexivity.
Qed.

Lemma storeMetric_mismatch_discarded_witness :
  storeMetric (Metric.mk "disk" (Time.mk 5 0) (AnyCPU CPUMetric.zero))
    (Aggregator.mk (Chan.mk 2 [] RecvIdle) Sample.zero None None None None 1)
  = (tt,
     Aggregator.mk (Chan.mk 2 [] RecvIdle) Sample.zero None None None None 1,
     []).
Proof.
  apply (storeMetric_mismatch_discarded KDisk); reflexivity.
Defined.

(** C7. When only the CPU and Memory slots have been written, the sample
    built by [createSample] carries the stored CPU and Memory payloads and
    the zero values for Disk and Network, whatever sample was stored
    before; that sample is what is published. *)
Theorem createSample_unobserved_kinds_zero (now : Time.t) (a : Aggregator.t)
    (c : CPUMetric.t) (m : MemoryMetric.t) :
  Aggregator.currentCPU a = Some c ->
  Aggregator.currentMemory a = Some m ->
  Aggregator.currentDisk a = None ->
  Aggregator.currentNetwork a = None ->
  let sample := Sample.mk now c m DiskMetric.zero NetworkMetric.zero in
  GetLatestSample (state_of (createSample now a)) = sample /\
  published (trace_of (createSample now a)) = [sample].
Proof.
  intros Hc Hm Hd Hn.
  unfold GetLatestSample, createSample, bind, emit, get, modify.
  cbn. rewrite Hc, Hm, Hd, Hn. split; reflexivity.
Qed.

Lemma createSample_unobserved_kinds_zero_witness :
  let a :=
    Aggregator.mk (Chan.mk 2 [] RecvIdle)
      (Sample.mk (Time.mk 3 0) CPUMetric.zero MemoryMetric.zero
         (DiskMetric.mk 9 9 9 float_zero 9 9 9 9) NetworkMetric.zero)
      (Some (CPUMetric.mk (S754_infinity false) None None))
      (Some (MemoryMetric.mk 8 4 4 float_zero 0 0 float_zero)) None None 1 in
  let sample :=
    Sample.mk (Time.mk 7 0) (CPUMetric.mk (S754_infinity false) None None)
      (MemoryMetric.mk 8 4 4 float_zero 0 0 float_zero)
      DiskMetric.zero NetworkMetric.zero in
  GetLatestSample (state_of (createSample (Time.mk 7 0) a)) = sample /\
  published (trace_of (createSample (Time.mk 7 0) a)) = [sample].
Proof.
  apply (createSample_unobserved_kinds_zero (Time.mk 7 0)); reflexivity.
Defined.

(** ** Publishing (C6, C9) *)

Lemma not_publish_published tr : Forall not_publish tr -> published tr = [].
Proof.
  induction 1 as [|o tr Ho _ IH]; [reflexivity|].
  destruct o; simpl in *; try assumption. contradiction.
Qed.

Lemma published_app t1 t2 :
  published (t1 ++ t2) = published t1 ++ published t2.
Proof. apply omap_app. Qed.

Lemma trySend_quiet m : emits not_publish (trySend m).
Proof. unfold trySend. emits_tac. Qed.

Lemma storeMetric_quiet m : emits not_publish (storeMetric m).
Proof. unfold storeMetric. emits_tac. Qed.

#[local] Hint Resolve trySend_quiet storeMetric_quiet : go.

Lemma CPU_begin_quiet x : emits not_publish (CPUCollector.Start_begin x).
Proof. unfold CPUCollector.Start_begin. emits_tac. Qed.

Lemma CPU_select_quiet r cy :
  emits not_publish (CPUCollector.Start_select r cy).
Proof.
  unfold CPUCollector.Start_select, CPUCollector.collectCPUMetrics.
  emits_tac.
Qed.

Lemma Memory_collect_quiet p t :
  emits not_publish (MemoryCollector.collectAndSend p t).
Proof. unfold MemoryCollector.collectAndSend. emits_tac. Qed.

Lemma Disk_collect_quiet p t :
  emits not_publish (DiskCollector.collectAndSend p t).
Proof. unfold DiskCollector.collectAndSend. emits_tac. Qed.

Lemma Network_collect_quiet p t :
  emits not_publish (NetworkCollector.collectAndSend p t).
Proof. unfold NetworkCollector.collectAndSend. emits_tac. Qed.

#[local] Hint Resolve Memory_collect_quiet Disk_collect_quiet
  Network_collect_quiet : go.

Lemma poll_begin_quiet {P} i (cas : P -> Time.t -> M Chan.t unit) cy :
  (forall p t, emits not_publish (cas p t)) ->
  emits not_publish (poll_begin i cas cy).
Proof. intros H. unfold poll_begin. emits_tac; auto. Qed.

Lemma poll_select_quiet {P} msg (cas : P -> Time.t -> M Chan.t unit) r cy :
  (forall p t, emits not_publish (cas p t)) ->
  emits not_publish (poll_select msg cas r cy).
Proof. intros H. unfold poll_select. emits_tac; auto. Qed.

Lemma advance_quiet {S} st (b i : M S Status) :
  emits not_publish b -> emits not_publish i ->
  emits not_publish (advance st b i).
Proof. intros Hb Hi. unfold advance. emits_tac; assumption. Qed.

Lemma on_chan_trace {A} (m : M Chan.t A) a :
  trace_of (on_chan m a) = trace_of (m (Aggregator.metricsChan a)).
Proof.
  unfold on_chan. destruct (m _) as [[x c] tr]. reflexivity.
Qed.

Lemma on_chan_latestSample {A} (m : M Chan.t A) a :
  Aggregator.latestSample (state_of (on_chan m a)) = Aggregator.latestSample a.
Proof.
  unfold on_chan. destruct (m _) as [[x c] tr]. reflexivity.
Qed.

Lemma storeMetric_latestSample m a :
  Aggregator.latestSample (state_of (storeMetric m a)) =
  Aggregator.latestSample a.
Proof. unfold storeMetric. repeat case_match; reflexivity. Qed.

Lemma createSample_publish now a :
  exists s, published (trace_of (createSample now a)) = [s] /\
            Sample.Timestamp s = now.
Proof.
  unfold createSample, bind, emit, get, modify. cbn.
  eexists. split; [reflexivity|].
  destruct (Aggregator.currentCPU a), (Aggregator.currentMemory a),
    (Aggregator.currentDisk a), (Aggregator.currentNetwork a); reflexivity.
Qed.

Lemma Start_select_publish r now a :
  quiet_or_stamped now a (Start_select r now a).
Proof.
  unfold quiet_or_stamped, Start_select. go_simpl.
  destruct (Chan.recvq (Aggregator.metricsChan a)) eqn:Eq.
  3: { left. go_simpl. rewrite storeMetric_latestSample.
       rewrite app_nil_r. split; [|reflexivity].
       apply not_publish_published. repeat constructor.
       apply storeMetric_quiet. }
  all: go_simpl;
    destruct (go_select _ _ _) as [| |[|[|n]]]; go_simpl;
    try (left; split; reflexivity).
  all: try (destruct (Chan.recv _) as [[m c']|]; go_simpl;
            [left; rewrite storeMetric_latestSample, app_nil_r;
             split; [|reflexivity];
             apply not_publish_published; repeat constructor;
             apply storeMetric_quiet
            | left; split; reflexivity]).
  all: right; destruct (createSample_publish now
         (Aggregator.with_metricsChan
            (Chan.with_recvq RecvIdle (Aggregator.metricsChan a)) a))
         as [s [H1 H2]];
       exists s; split; [|exact H2];
       cbn [published omap list_omap]; rewrite app_nil_r; exact H1.
Qed.

Lemma Start_begin_publish now a : quiet_or_stamped now a (Start_begin a).
Proof.
  left. unfold Start_begin. go_simpl.
  destruct (_ <=? 0); split; reflexivity.
Qed.

Ltac collector_step :=
  match goal with
  | |- context [on_chan ?m ?a] =>
      let Ht := fresh "Ht" in
      let Hs := fresh "Hs" in
      let Hq := fresh "Hq" in
      pose proof (on_chan_trace m a) as Ht;
      pose proof (on_chan_latestSample m a) as Hs;
      assert (Hq : emits not_publish m)
        by (apply advance_quiet;
            first [ apply CPU_begin_quiet | apply CPU_select_quiet
                  | apply poll_begin_quiet; auto with go
                  | apply poll_select_quiet; auto with go ]);
      specialize (Hq (Aggregator.metricsChan a));
      destruct (on_chan m a) as [[? ?] ?];
      simpl in *; split; [|exact Hs];
      apply not_publish_published; rewrite Ht; exact Hq
  end.

Lemma step_publish (s : Step) (p : Process) :
  (published (step s p).2 = [] /\
   Aggregator.latestSample (aggregator (step s p).1) =
   Aggregator.latestSample (aggregator p)) \/
  (exists smp, published (step s p).2 = [smp] /\
     [Sample.Timestamp smp] = aggregator_clock [s]).
Proof.
  unfold step. destruct (crashed p); [left; split; reflexivity|].
  destruct s as [r now|r cy|r cy|r cy|r cy].
  - assert (H : quiet_or_stamped now (aggregator p)
                  (advance (aggregatorSt p) Start_begin (Start_select r now)
                     (aggregator p))).
    { unfold advance. destruct (aggregatorSt p) as [[| |]|].
      - pose proof (Start_select_publish r now (aggregator p)) as H.
        unfold quiet_or_stamped in *. go_simpl. rewrite !app_nil_r. exact H.
      - left. split; reflexivity.
      - left. split; reflexivity.
      - pose proof (Start_begin_publish now (aggregator p)) as H.
        unfold quiet_or_stamped in *. go_simpl. rewrite !app_nil_r. exact H. }
    destruct (advance _ _ _ _) as [[st a'] tr]. simpl in *.
    destruct H as [H|[smp [H1 H2]]]; [left; exact H|right].
    exists smp. split; [exact H1|]. rewrite H2. reflexivity.
  - left; collector_step.
  - left; collector_step.
  - left; collector_step.
  - left; collector_step.
Qed.

Lemma run_cons s ss p :
  run (s :: ss) p =
    ((run ss (step s p).1).1, (step s p).2 ++ (run ss (step s p).1).2).
Proof.
  cbn [run]. destruct (step s p) as [p1 t1]. simpl.
  destruct (run ss p1) as [p2 t2]. reflexivity.
Qed.

Lemma run_published_clock (ss : list Step) (p : Process) :
  map Sample.Timestamp (published (run ss p).2) `sublist_of`
  aggregator_clock ss.
Proof.
  revert p. induction ss as [|s ss IH]; intros p.
  - constructor.
  - rewrite run_cons. cbn [snd].
    rewrite published_app, map_app.
    replace (aggregator_clock (s :: ss))
      with (aggregator_clock [s] ++ aggregator_clock ss)
      by (destruct s; reflexivity).
    apply sublist_app; [|apply IH].
    destruct (step_publish s p) as [[H _]|[smp [H1 H2]]].
    + rewrite H. apply sublist_nil_l.
    + rewrite H1, <- H2. reflexivity.
Qed.

Lemma run_quiet_latestSample (ss : list Step) (p : Process) :
  published (run ss p).2 = [] ->
  Aggregator.latestSample (aggregator (run ss p).1) =
  Aggregator.latestSample (aggregator p).
Proof.
  revert p. induction ss as [|s ss IH]; intros p.
  - reflexivity.
  - rewrite run_cons. cbn [fst snd]. rewrite published_app.
    intros H. apply app_eq_nil in H as [H1 H2].
    rewrite (IH _ H2).
    destruct (step_publish s p) as [[_ H]|[smp [H3 _]]]; [exact H|].
    rewrite H1 in H3. discriminate.
Qed.

Lemma Time_le_trans : Transitive Time.le.
Proof.
  intros x y z. unfold Time.le, Time.leb. intros Hxy Hyz.
  apply orb_true_iff in Hxy, Hyz. apply orb_true_iff.
  rewrite !andb_true_iff, !Z.ltb_lt, !Z.eqb_eq, !Z.leb_le in *. lia.
Qed.

Lemma StronglySorted_sublist {A} (R : A -> A -> Prop) (l k : list A) :
  l `sublist_of` k -> StronglySorted R k -> StronglySorted R l.
Proof.
  induction 1 as [|x l k Hs IH|x l k Hs IH]; intros Hk.
  - constructor.
  - apply StronglySorted_inv in Hk as [Hk Hx]. constructor; [auto|].
    rewrite Forall_forall in *. eauto using elem_of_sublist.
  - apply StronglySorted_inv in Hk as [Hk _]. auto.
Qed.

(** C9. Along any execution of the process, the timestamps of the samples
    the aggregator publishes are, in publication order, non-decreasing,
    provided the clock readings its loop obtains are. *)
Theorem published_timestamps_nondecreasing (p : Process) (ss : list Step) :
  Sorted Time.le (aggregator_clock ss) ->
  Sorted Time.le (map Sample.Timestamp (published (run ss p).2)).
Proof.
  intros H. apply StronglySorted_Sorted.
  eapply StronglySorted_sublist; [apply run_published_clock|].
  apply Sorted_StronglySorted; [apply Time_le_trans|exact H].
Qed.

Lemma published_timestamps_nondecreasing_witness :
  let ss :=
    [StepAggregator (mkReady false false 0) (Time.mk 10 0);
     StepAggregator (mkReady false true 0) (Time.mk 10 500);
     StepMemory (mkReady false false 0)
       (mkCycle
          (MemoryCollector.mkProbes
             (Ok (mem.mkVirtualMemoryStat 8 4 4 float_zero))
             (Ok (mem.mkSwapMemoryStat 0 0 float_zero)))
          (Time.mk 10 700) false 0);
     StepAggregator (mkReady false true 1) (Time.mk 11 0)] in
  let p :=
    mkProcess
      (Aggregator.mk (Chan.mk 2 [] RecvIdle) Sample.zero None None None None
         (250 * Millisecond))
      (CPUCollector.mk Second) (MemoryCollector.mk Second)
      (DiskCollector.mk Second) (NetworkCollector.mk Second)
      None None None None None in
  Sorted Time.le (aggregator_clock ss) /\
  map Sample.Timestamp (published (run ss p).2) =
    [Time.mk 10 500; Time.mk 11 0] /\
  Sorted Time.le (map Sample.Timestamp (published (run ss p).2)).
Proof.
  cbv zeta. split; [|split].
  - repeat constructor.
  - vm_compute. reflexivity.
  - apply published_timestamps_nondecreasing. repeat constructor.
Defined.

(** C6. As long as the aggregator has published no sample, in any
    execution of a process whose aggregator comes from [NewAggregator],
    [GetLatestSample] returns the zero-value sample: a zero timestamp and
    the zero value of each of the four payloads. *)
Theorem GetLatestSample_before_first_publish
    (sampleInterval : Duration) (bufferSize : Z) (p : Process)
    (ss : list Step) :
  NewAggregator sampleInterval bufferSize = Some (aggregator p) ->
  published (run ss p).2 = [] ->
  let s := GetLatestSample (aggregator (run ss p).1) in
  Time.IsZero (Sample.Timestamp s) = true /\
  Sample.IsComplete s = false /\
  Sample.CPU s = CPUMetric.zero /\
  Sample.Memory s = MemoryMetric.zero /\
  Sample.Disk s = DiskMetric.zero /\
  Sample.Network s = NetworkMetric.zero.
Proof.
  intros Hnew Hq. cbv zeta. unfold GetLatestSample.
  rewrite (run_quiet_latestSample ss p Hq).
  unfold NewAggregator in Hnew.
  destruct (Chan.make bufferSize); [|discriminate].
  injection Hnew as <-. repeat split; reflexivity.
Qed.

Lemma GetLatestSample_before_first_publish_witness :
  let ss :=
    [StepAggregator (mkReady false false 0) (Time.mk 10 0);
     StepMemory (mkReady false false 0)
       (mkCycle
          (MemoryCollector.mkProbes
             (Ok (mem.mkVirtualMemoryStat 8 4 4 float_zero))
             (Ok (mem.mkSwapMemoryStat 0 0 float_zero)))
          (Time.mk 10 700) false 0);
     StepAggregator (mkReady false false 0) (Time.mk 11 0)] in
  let p :=
    mkProcess
      (Aggregator.mk (Chan.mk 100 [] RecvIdle) Sample.zero None None None None
         (250 * Millisecond))
      (CPUCollector.mk Second) (MemoryCollector.mk Second)
      (DiskCollector.mk Second) (NetworkCollector.mk Second)
      None None None None None in
  Aggregator.currentMemory (aggregator (run ss p).1) =
    Some (MemoryMetric.mk 8 4 4 float_zero 0 0 float_zero) /\
  GetLatestSample (aggregator (run ss p).1) = Sample.zero.
Proof.
  cbv zeta. split; [vm_compute; reflexivity|].
  match goal with
  | |- GetLatestSample (aggregator (run ?ss ?p).1) = _ =>
      pose proof (GetLatestSample_before_first_publish
                    (250 * Millisecond) 100 p ss eq_refl eq_refl) as H
  end.
  cbv zeta in H. destruct H as (H0 & H1 & H2 & H3 & H4 & H5).
  destruct (GetLatestSample _) as [ts c m d n]. simpl in *.
  subst. destruct ts as [s ns]. unfold Time.IsZero in H0. simpl in H0.
  apply andb_true_iff in H0 as [Hs Hn].
  apply Z.eqb_eq in Hs, Hn. subst. reflexivity.
Defined.

(** ** The mailbox (C2) *)

Lemma trySend_ready (m : Metric.t) (c : Chan.t) :
  Chan.send_ready c = true ->
  trySend m c = (true, Chan.send m c, [Offer m (Case 0)]).
Proof. intros H. unfold trySend, bind, get. cbn. rewrite H. reflexivity. Qed.

Lemma trySend_not_ready (m : Metric.t) (c : Chan.t) :
  Chan.send_ready c = false ->
  trySend m c = (false, c, [Offer m Default]).
Proof. intros H. unfold trySend, bind, get. cbn. rewrite H. reflexivity. Qed.

Lemma send_ready_room (c : Chan.t) :
  Chan.qcount c < Chan.dataqsiz c -> Chan.send_ready c = true.
Proof.
  intros H. unfold Chan.send_ready.
  destruct (Chan.recvq c); try reflexivity; apply Z.ltb_lt; exact H.
Qed.

Lemma send_ready_full (c : Chan.t) :
  Chan.wf c -> 0 < Chan.dataqsiz c ->
  Chan.qcount c = Chan.dataqsiz c -> Chan.send_ready c = false.
Proof.
  intros (_ & _ & Hp) Hpos Hfull. unfold Chan.send_ready.
  destruct (Chan.recvq c) eqn:E; try (apply Z.ltb_ge; lia).
  specialize (Hp eq_refl). unfold Chan.qcount in Hfull.
  rewrite Hp in Hfull. simpl in Hfull. lia.
Qed.

Lemma sendAll_buf (ms : list Metric.t) (c : Chan.t) :
  Chan.recvq c <> RecvParked ->
  Chan.qcount c + Z.of_nat (length ms) <= Chan.dataqsiz c ->
  sendAll ms c = Chan.with_buf (Chan.buf c ++ ms) c.
Proof.
  revert c. induction ms as [|m ms IH]; intros c Hr Hroom.
  - cbn. rewrite app_nil_r. destruct c; reflexivity.
  - cbn [sendAll fold_left]. cbn [length] in Hroom.
    rewrite trySend_ready by (apply send_ready_room; lia).
    cbn [state_of fst snd]. fold (sendAll ms (Chan.send m c)).
    assert (Hs : Chan.send m c = Chan.with_buf (Chan.buf c ++ [m]) c).
    { unfold Chan.send. destruct (Chan.recvq c); congruence. }
    rewrite Hs, IH.
    + unfold Chan.with_buf. cbn. rewrite <- app_assoc. reflexivity.
    + exact Hr.
    + unfold Chan.qcount, Chan.with_buf in *. cbn.
      rewrite length_app. cbn. lia.
Qed.

Lemma drain_buf (c : Chan.t) :
  drain (length (Chan.buf c)) c = (Chan.buf c, Chan.with_buf [] c).
Proof.
  destruct c as [sz b r]. cbn. revert sz r.
  induction b as [|m b IH]; intros sz r; [reflexivity|].
  cbn. unfold Chan.with_buf in *. cbn in *. rewrite IH. reflexivity.
Qed.

(** C2. For a mailbox of capacity C >= 1 in a state the runtime can reach:
    a try-send succeeds when the queue holds fewer than C items; when it
    holds C items it fails, nothing is enqueued and the mailbox is
    unchanged; metrics enqueued are appended behind those already queued
    and a consumer receives them in that order; and with C = 2, enqueuing
    CPU, Memory and Disk leaves exactly CPU then Memory queued with Disk
    rejected, and once both are dequeued, in that order, a further enqueue
    succeeds. *)
Theorem mailbox_try_send (c : Chan.t) (m : Metric.t) :
  Chan.wf c ->
  0 < Chan.dataqsiz c ->
  (Chan.qcount c < Chan.dataqsiz c -> result_of (trySend m c) = true) /\
  (Chan.qcount c = Chan.dataqsiz c ->
     trySend m c = (false, c, [Offer m Default])) /\
  (forall ms,
     Chan.recvq c <> RecvParked ->
     Chan.qcount c + Z.of_nat (length ms) <= Chan.dataqsiz c ->
     Chan.buf (sendAll ms c) = Chan.buf c ++ ms /\
     (drain (length (Chan.buf c ++ ms)) (sendAll ms c)).1 = Chan.buf c ++ ms) /\
  (forall c2 cpu mem dsk nw,
     Chan.make 2 = Some c2 ->
     let r1 := trySend cpu c2 in
     let r2 := trySend mem (state_of r1) in
     let r3 := trySend dsk (state_of r2) in
     let d := drain 2 (state_of r3) in
     result_of r1 = true /\ result_of r2 = true /\ result_of r3 = false /\
     Chan.buf (state_of r3) = [cpu; mem] /\
     d.1 = [cpu; mem] /\
     result_of (trySend nw d.2) = true).
Proof.
  intros Hwf Hpos. split; [|split; [|split]].
  - intros Hroom. rewrite trySend_ready by (apply send_ready_room; exact Hroom).
    reflexivity.
  - intros Hfull. apply trySend_not_ready, send_ready_full; assumption.
  - intros ms Hr Hroom. rewrite (sendAll_buf ms c Hr Hroom). split.
    + reflexivity.
    + pose proof (drain_buf (Chan.with_buf (Chan.buf c ++ ms) c)) as H.
      cbn [Chan.with_buf Chan.buf] in H. rewrite H. reflexivity.
  - intros c2 cpu mem dsk nw Hmk. injection Hmk as <-. cbv zeta.
    repeat split; reflexivity.
Qed.

Lemma mailbox_try_send_witness :
  let m := Metric.mk "disk" (Time.mk 3 0) (AnyDisk DiskMetric.zero) in
  let q := [Metric.mk "cpu" (Time.mk 1 0) (AnyCPU CPUMetric.zero);
            Metric.mk "memory" (Time.mk 2 0) (AnyMemory MemoryMetric.zero)] in
  trySend m (Chan.mk 2 q RecvIdle) =
    (false, Chan.mk 2 q RecvIdle, [Offer m Default]).
Proof.
  cbv zeta.
  refine (proj1 (proj2 (mailbox_try_send (Chan.mk 2 _ RecvIdle) _ _ _)) _).
  - unfold Chan.wf, Chan.qcount. simpl. repeat split; [lia|lia|discriminate].
  - simpl. lia.
  - reflexivity.
Defined.

(** C2 does not hold of capacity 0, which [BUFFER_SIZE=0] selects: the
    channel is then unbuffered, and once the aggregator waits in its
    [select] a try-send succeeds although the queue holds C = 0 items. *)
Lemma mailbox_try_send_counterexample :
  ~ (forall (env : gmap string string) (p : Process) (ss : list Step)
            (m : Metric.t),
       main (fun _ => None) env = Some p ->
       let c := Aggregator.metricsChan (aggregator (run ss p).1) in
       Chan.qcount c = Chan.dataqsiz c ->
       trySend m c = (false, c, [Offer m Default])).
Proof.
  intros H.
  specialize (H (<["BUFFER_SIZE" := "0"]> ∅) _
                [StepAggregator (mkReady false false 0) (Time.mk 10 0);
                 StepAggregator (mkReady false false 0) (Time.mk 10 50)]
                Metric.zero eq_refl eq_refl).
  vm_compute in H. discriminate H.
Qed.

(** At capacity 0 the channel is unbuffered: a try-send succeeds exactly
    when the consumer is parked in its receive. *)
Lemma unbuffered_try_send (m : Metric.t) (r : Receiver) :
  result_of (trySend m (Chan.mk 0 [] r)) =
    match r with
    | RecvParked => true
    | _ => false
    end.
Proof. destruct r; reflexivity. Qed.

(** ** Probe failures (C8) *)

Ltac nodup_probes := apply (bool_decide_unpack _); vm_compute; reflexivity.

(** A cycle in which [load.Avg] fails while both [cpu.Percent] calls
    succeed still hands a CPU metric, with zero load averages, to the
    mailbox. *)
Lemma load_failure_still_collects (r : Ready) (cy : Cycle CPUCollector.Probes)
    (c : Chan.t) (first : float64) (rest : list float64)
    (perCore : slice float64) (e : error) :
  takes_tick r ->
  CPUCollector.Percent_overall (probes cy) = Ok (Some (first :: rest)) ->
  CPUCollector.Percent_percore (probes cy) = Ok perCore ->
  CPUCollector.Avg (probes cy) = Err e ->
  exists ch,
    offers (trace_of (CPUCollector.Start_select r cy c)) =
      [(Metric.mk "cpu" (now cy)
          (AnyCPU (CPUMetric.mk first perCore
                     (Some [float_zero; float_zero; float_zero]))), ch)].
Proof.
  intros Ht H1 H2 H3.
  unfold CPUCollector.Start_select, CPUCollector.collectCPUMetrics.
  unfold takes_tick in Ht. rewrite Ht. clear Ht.
  unfold bind, emit, get, put, ret. rewrite H1, H2, H3. cbn -[go_select].
  destruct (go_select _ _ _) as [| |[|n]]; cbn; eexists; reflexivity.
Qed.

(** C8 does not hold of every probe call: here [load.Avg] fails and a
    CPU metric is enqueued all the same. *)
Lemma probe_failure_skips_cycle_counterexample :
  ~ (forall (k : Kind) (r : Ready) (cy : Cycle (Probes k)) (c : Chan.t),
       takes_tick r ->
       probe_failed k (probes cy) = true ->
       let res := worker_select k r cy c in
       result_of res = Running /\ state_of res = c /\
       offers (trace_of res) = []).
Proof.
  intros H.
  specialize (H KCPU (mkReady false true 0)
    (mkCycle
       (CPUCollector.mkProbes (Ok (Some [float_zero])) (Ok (Some [float_zero]))
          (Err (errorString "not implemented yet")))
       (Time.mk 10 0) false 0)
    (Chan.mk 2 [] RecvIdle) eq_refl eq_refl).
  cbv zeta in H. destruct H as (_ & _ & H). vm_compute in H. discriminate.
Qed.

(** C8, for the probe calls whose failure ends the cycle.  In a cycle
    where a probe call other than the CPU collector's [load.Avg] returns
    an error, the collector attempts no hand-off, leaves the mailbox as
    it is, calls no probe twice and goes on with its loop; the same holds
    for the initial collection made before the loop. *)
Theorem fatal_probe_failure_skips_cycle (k : Kind) (r : Ready)
    (cy : Cycle (Probes k)) (c : Chan.t) (interval : Duration) :
  probe_failed_fatal k (probes cy) = true ->
  (takes_tick r ->
   let res := worker_select k r cy c in
   result_of res = Running /\ state_of res = c /\
   offers (trace_of res) = [] /\ NoDup (probe_calls (trace_of res))) /\
  (0 < interval ->
   let res := worker_begin k interval cy c in
   result_of res = Running /\ state_of res = c /\
   offers (trace_of res) = [] /\ NoDup (probe_calls (trace_of res))).
Proof.
  intros Hf. split.
  - intros Ht. unfold takes_tick in Ht.
    destruct k; cbn in Hf |- *;
      unfold CPUCollector.Start_select, CPUCollector.collectCPUMetrics,
        MemoryCollector.Start_select, DiskCollector.Start_select,
        NetworkCollector.Start_select, poll_select,
        MemoryCollector.collectAndSend, DiskCollector.collectAndSend,
        NetworkCollector.collectAndSend; rewrite Ht;
      unfold bind, emit, get, put, ret.
    + destruct (CPUCollector.Percent_overall _);
        [destruct (CPUCollector.Percent_percore _); [discriminate|]|];
        cbn; repeat split; nodup_probes.
    + destruct (MemoryCollector.VirtualMemory _);
        [destruct (MemoryCollector.SwapMemory _); [discriminate|]|];
        cbn; repeat split; nodup_probes.
    + destruct (DiskCollector.Usage _);
        [destruct (DiskCollector.IOCounters _); [discriminate|]|];
        cbn; repeat split; nodup_probes.
    + destruct (NetworkCollector.IOCounters _); [discriminate|].
      cbn; repeat split; nodup_probes.
  - intros Hi. apply Z.leb_gt in Hi.
    destruct k; cbn in Hf |- *;
      unfold CPUCollector.Start_begin, MemoryCollector.Start_begin,
        DiskCollector.Start_begin, NetworkCollector.Start_begin, poll_begin,
        MemoryCollector.collectAndSend, DiskCollector.collectAndSend,
        NetworkCollector.collectAndSend; cbn; rewrite Hi;
      unfold bind, emit, get, put, ret.
    + cbn; repeat split; nodup_probes.
    + destruct (MemoryCollector.VirtualMemory _);
        [destruct (MemoryCollector.SwapMemory _); [discriminate|]|];
        cbn; repeat split; nodup_probes.
    + destruct (DiskCollector.Usage _);
        [destruct (DiskCollector.IOCounters _); [discriminate|]|];
        cbn; repeat split; nodup_probes.
    + destruct (NetworkCollector.IOCounters _); [discriminate|].
      cbn; repeat split; nodup_probes.
Qed.

Lemma fatal_probe_failure_skips_cycle_witness :
  let cy :=
    mkCycle
      (DiskCollector.mkProbes (Ok (disk.mkUsageStat 100 60 40 float_zero))
         (Err (errorString "permission denied")))
      (Time.mk 10 0) false 0 in
  let c := Chan.mk 2 [] RecvIdle in
  let res := worker_select KDisk (mkReady false true 0) cy c in
  result_of res = Running /\ state_of res = c /\
  offers (trace_of res) = [] /\ NoDup (probe_calls (trace_of res)).
Proof.
  cbv zeta.
  refine (proj1 (fatal_probe_failure_skips_cycle KDisk (mkReady false true 0)
                   _ _ Second _) _); reflexivity.
Defined.

(** ** The first collection (C3) *)

(** The Memory, Disk and Network collectors call their first probe as soon
    as the ticker exists, before their loop reaches its [select]. *)
Lemma first_collection_is_immediate (k : Kind) (interval : Duration)
    (cy : Cycle (Probes k)) (c : Chan.t) :
  k <> KCPU ->
  0 < interval ->
  let tr := trace_of (worker_begin k interval cy c) in
  (exists p rest, tr = NewTicker interval :: Probe p :: rest) /\
  Forall not_select tr.
Proof.
  intros Hk Hi. apply Z.leb_gt in Hi. cbv zeta.
  destruct k; [congruence| | |]; cbn;
    unfold MemoryCollector.Start_begin, DiskCollector.Start_begin,
      NetworkCollector.Start_begin, poll_begin; cbn; rewrite Hi;
    rewrite trace_of_bind; cbn [emit trace_of snd app];
    rewrite trace_of_bind; cbn [ret trace_of snd]; rewrite app_nil_r.
  - split.
    + unfold MemoryCollector.collectAndSend. rewrite trace_of_bind. cbn.
      eauto.
    + constructor; [exact I|].
      assert (H : emits not_select
                    (MemoryCollector.collectAndSend (probes cy) (now cy))).
      { unfold MemoryCollector.collectAndSend, trySend. emits_tac. }
      apply H.
  - split.
    + unfold DiskCollector.collectAndSend. rewrite trace_of_bind. cbn.
      eauto.
    + constructor; [exact I|].
      assert (H : emits not_select
                    (DiskCollector.collectAndSend (probes cy) (now cy))).
      { unfold DiskCollector.collectAndSend, trySend. emits_tac. }
      apply H.
  - split.
    + unfold NetworkCollector.collectAndSend. rewrite trace_of_bind. cbn.
      eauto.
    + constructor; [exact I|].
      assert (H : emits not_select
                    (NetworkCollector.collectAndSend (probes cy) (now cy))).
      { unfold NetworkCollector.collectAndSend, trySend. emits_tac. }
      apply H.
Qed.

(** C3 at the CPU collector.  Started with the default 5 s interval on an
    empty mailbox, with probes that would all succeed, the CPU collector
    creates its ticker, logs, and goes to wait in its [select]: it has
    called no probe and attempted no hand-off, and the mailbox is still
    empty.  The Memory collector, started the same way, has by then probed
    and enqueued its first metric. *)
Theorem CPUCollector_Start_waits_for_first_tick :
  let interval := 5 * Second in
  let out := Chan.mk 100 [] RecvIdle in
  let waiting := mkReady false false 0 in
  let cpu :=
    mkCycle
      (CPUCollector.mkProbes (Ok (Some [float_zero]))
         (Ok (Some [float_zero; float_zero]))
         (Ok (load.mkAvgStat float_zero float_zero float_zero)))
      (Time.mk 10 0) false 0 in
  let memory :=
    mkCycle
      (MemoryCollector.mkProbes
         (Ok (mem.mkVirtualMemoryStat 8 4 4 float_zero))
         (Ok (mem.mkSwapMemoryStat 0 0 float_zero)))
      (Time.mk 10 0) false 0 in
  let metric :=
    Metric.mk "memory" (Time.mk 10 0)
      (AnyMemory (MemoryMetric.mk 8 4 4 float_zero 0 0 float_zero)) in
  CPUCollector.Start (NewCPUCollector interval) [(waiting, cpu)] out =
    (Running, out,
     [NewTicker interval;
      Log "CPU collector started with interval %v" [ArgDuration interval];
      Select Blocks]) /\
  MemoryCollector.Start (MemoryCollector.mk interval) memory
      [(waiting, memory)] out =
    (Running, Chan.mk 100 [metric] RecvIdle,
     [NewTicker interval; Probe mem_VirtualMemory; Probe mem_SwapMemory; Now;
      Offer metric (Case 0); Select Blocks]).
Proof. split; vm_compute; reflexivity. Qed.

(** The CPU collector makes no probe call and no hand-off before its loop,
    whatever its interval and the state of the mailbox. *)
Lemma CPUCollector_Start_begin_idle (c : CPUCollector.t) (out : Chan.t) :
  state_of (CPUCollector.Start_begin c out) = out /\
  probe_calls (trace_of (CPUCollector.Start_begin c out)) = [] /\
  offers (trace_of (CPUCollector.Start_begin c out)) = [].
Proof.
  unfold CPUCollector.Start_begin.
  destruct (_ <=? 0); repeat split; reflexivity.
Qed.

(** ** Cancellation (C4) *)

(** C4 does not hold of the Memory collector: with the context cancelled
    at the moment of the hand-off it enqueues its metric and goes on with
    its loop. *)
Lemma cancellation_during_handoff_counterexample :
  ~ (forall (k : Kind) (r : Ready) (cy : Cycle (Probes k)) (c : Chan.t),
       takes_tick r ->
       collects k (probes cy) = true ->
       ctxDoneAtSend cy = true ->
       result_of (worker_select k r cy c) = Stopped).
Proof.
  intros H.
  specialize (H KMemory (mkReady false true 0)
    (mkCycle
       (MemoryCollector.mkProbes
          (Ok (mem.mkVirtualMemoryStat 8 4 4 float_zero))
          (Ok (mem.mkSwapMemoryStat 0 0 float_zero)))
       (Time.mk 10 0) true 0)
    (Chan.mk 2 [] RecvIdle) eq_refl eq_refl eq_refl).
  vm_compute in H. discriminate.
Qed.

Lemma go_select_default_never_blocks (ready : list bool) (pick : nat) :
  go_select ready true pick <> Blocks.
Proof. unfold go_select. destruct (ready_cases 0 ready); discriminate. Qed.

Lemma go_select_first_ready (b : bool) (pick : nat) :
  go_select [true; b] false pick <> Blocks /\
  (b = false -> go_select [true; b] false pick = Case 0).
Proof.
  destruct b; unfold go_select; cbn [ready_cases]; split;
    try discriminate; reflexivity.
Qed.

Lemma trySend_never_blocks m : emits no_blocking_offer (trySend m).
Proof.
  unfold trySend. apply emits_bind; [apply emits_get|]. intros c.
  pose proof (go_select_default_never_blocks [Chan.send_ready c] 0) as H.
  destruct (go_select _ _ _); [congruence| |]; emits_tac.
Qed.

#[local] Hint Resolve trySend_never_blocks : go.

Lemma worker_select_never_blocks_on_mailbox (k : Kind) (r : Ready)
    (cy : Cycle (Probes k)) :
  emits no_blocking_offer (worker_select k r cy).
Proof.
  destruct k; cbn.
  - unfold CPUCollector.Start_select, CPUCollector.collectCPUMetrics.
    repeat first
      [ match goal with
        | |- emits _ (bind get _) =>
            apply emits_bind; [apply emits_get|]; intros out;
            match goal with
            | |- context [go_select ?l true ?p] =>
                pose proof (go_select_default_never_blocks l p);
                destruct (go_select l true p); [congruence| |]
            end
        end
      | emits_step ].
  - unfold MemoryCollector.Start_select, poll_select,
      MemoryCollector.collectAndSend. emits_tac.
  - unfold DiskCollector.Start_select, poll_select,
      DiskCollector.collectAndSend. emits_tac.
  - unfold NetworkCollector.Start_select, poll_select,
      NetworkCollector.collectAndSend. emits_tac.
Qed.

Lemma go_select_two (a b d : bool) (pick i : nat) :
  go_select [a; b] d pick = Case i ->
  (i = 0%nat /\ a = true) \/ (i = 1%nat /\ b = true).
Proof.
  unfold go_select. destruct a, b; cbn [ready_cases].
  - pose proof (Nat.mod_upper_bound pick 2 ltac:(lia)) as Hb.
    cbn [length]. destruct (pick mod 2)%nat as [|[|n]]; [| |lia].
    + cbn. intros [= <-]. auto.
    + cbn. intros [= <-]. auto.
  - cbn. intros [= <-]. auto.
  - cbn. intros [= <-]. auto.
  - destruct d; discriminate.
Qed.

Lemma poll_select_stopped {P} msg (cas : P -> Time.t -> M Chan.t unit)
    (r : Ready) (cy : Cycle P) (c : Chan.t) :
  result_of (poll_select msg cas r cy c) = Stopped -> ctxDone r = true.
Proof.
  unfold poll_select. go_simpl.
  destruct (go_select _ _ _) as [| |i] eqn:E; go_simpl; try discriminate.
  apply go_select_two in E as [[-> H]|[-> _]]; [auto|].
  go_simpl. discriminate.
Qed.

Lemma CPU_select_stopped (r : Ready) (cy : Cycle CPUCollector.Probes)
    (c : Chan.t) :
  result_of (CPUCollector.Start_select r cy c) = Stopped ->
  ctxDone r = true \/ ctxDoneAtSend cy = true.
Proof.
  unfold CPUCollector.Start_select. go_simpl.
  destruct (go_select _ _ _) as [| |i] eqn:E; go_simpl; try discriminate.
  apply go_select_two in E as [[-> H]|[-> _]]; [auto|].
  go_simpl.
  destruct (result_of (CPUCollector.collectCPUMetrics _ _ _)) as [[m|e]|];
    go_simpl; try discriminate.
  destruct (go_select _ _ _) as [| |i] eqn:E; go_simpl; try discriminate.
  apply go_select_two in E as [[-> _]|[-> H]]; [|auto].
  go_simpl. discriminate.
Qed.

Lemma CPU_collects (p : CPUCollector.Probes) (t : Time.t) (c : Chan.t) :
  collects KCPU p = true ->
  exists m tr, CPUCollector.collectCPUMetrics p t c = (Some (Ok m), c, tr).
Proof.
  unfold collects, CPUCollector.collectCPUMetrics, bind, emit, ret.
  destruct (CPUCollector.Percent_overall p) as [[[|f l]|]|]; try discriminate.
  destruct (CPUCollector.Percent_percore p); try discriminate.
  intros _. destruct (CPUCollector.Avg p); cbn; eauto.
Qed.

Lemma CPU_handoff_cancelled (r : Ready) (cy : Cycle CPUCollector.Probes)
    (c : Chan.t) :
  takes_tick r ->
  collects KCPU (probes cy) = true ->
  ctxDoneAtSend cy = true ->
  Chan.send_ready c = false ->
  result_of (CPUCollector.Start_select r cy c) = Stopped /\
  state_of (CPUCollector.Start_select r cy c) = c.
Proof.
  intros Ht Hc Hd Hr.
  destruct (CPU_collects (probes cy) (now cy) c Hc) as (m & tr & Hm).
  unfold CPUCollector.Start_select. unfold takes_tick in Ht. rewrite Ht.
  go_simpl. rewrite Hm. go_simpl. rewrite Hr, Hd. split; reflexivity.
Qed.

(** C4, as the collectors implement it.  For the collector of every
    kind: once the context is cancelled the [select] of its loop cannot
    block, and with no tick pending it stops there at once, without
    probing; no hand-off ever blocks on the mailbox; the collector stops
    only because of cancellation.  The CPU collector, and only it, also
    looks at cancellation in its hand-off: cancelled while the mailbox
    cannot take the metric, it stops there.  The Memory, Disk and Network
    collectors behave the same whether or not the context is cancelled at
    the hand-off. *)
Theorem cancellation_is_cooperative (k : Kind) (r : Ready)
    (cy : Cycle (Probes k)) (c : Chan.t) :
  let res := worker_select k r cy c in
  (ctxDone r = true ->
     go_select [ctxDone r; tickFired r] false (pick r) <> Blocks /\
     (tickFired r = false ->
        res = (Stopped, c, [Select (Case 0); Log (stopping k) []]))) /\
  Forall no_blocking_offer (trace_of res) /\
  (result_of res = Stopped ->
     ctxDone r = true \/ (k = KCPU /\ ctxDoneAtSend cy = true)) /\
  (k = KCPU -> takes_tick r -> collects k (probes cy) = true ->
     ctxDoneAtSend cy = true -> Chan.send_ready c = false ->
     result_of res = Stopped /\ state_of res = c) /\
  (k <> KCPU ->
     forall b, worker_select k r (with_ctxDoneAtSend b cy) c = res).
Proof.
  cbv zeta. split; [|split; [|split; [|split]]].
  - intros Hd. rewrite Hd.
    destruct (go_select_first_ready (tickFired r) (pick r)) as [H1 H2].
    split; [exact H1|]. intros Ht. rewrite Ht in H2.
    destruct k; cbn;
      unfold CPUCollector.Start_select, MemoryCollector.Start_select,
        DiskCollector.Start_select, NetworkCollector.Start_select,
        poll_select; rewrite Hd, Ht, H2; reflexivity.
  - apply worker_select_never_blocks_on_mailbox.
  - intros Hs. destruct k; cbn in Hs.
    + apply CPU_select_stopped in Hs as [H|H]; auto.
    + apply poll_select_stopped in Hs. auto.
    + apply poll_select_stopped in Hs. auto.
    + apply poll_select_stopped in Hs. auto.
  - intros -> Ht Hc Hd Hr. apply CPU_handoff_cancelled; assumption.
  - intros Hk b. destruct k; [congruence| | |]; reflexivity.
Qed.

Lemma cancellation_is_cooperative_witness :
  let cy :=
    mkCycle
      (CPUCollector.mkProbes (Ok (Some [float_zero])) (Ok (Some [float_zero]))
         (Ok (load.mkAvgStat float_zero float_zero float_zero)))
      (Time.mk 10 0) true 0 in
  let full :=
    Chan.mk 1 [Metric.mk "disk" (Time.mk 9 0) (AnyDisk DiskMetric.zero)]
      RecvIdle in
  let res := worker_select KCPU (mkReady false true 0) cy full in
  result_of res = Stopped /\ state_of res = full.
Proof.
  cbv zeta.
  refine (proj1 (proj2 (proj2 (proj2
            (cancellation_is_cooperative KCPU (mkReady false true 0) _ _))))
            _ _ _ _ _); reflexivity.
Defined.


(** ** Configuration (C5) *)

(** C5 does not hold of a value that parses: it is used as it is, and
    here a negative buffer size replaces the positive default. *)
Lemma invalid_setting_falls_back_counterexample :
  ~ (forall (env : gmap string string) (key : string) (defaultValue : Z),
       0 < defaultValue -> 0 < getEnvInt env key defaultValue).
Proof.
  intros H.
  specialize (H (<["BUFFER_SIZE" := "-5"]> ∅) "BUFFER_SIZE" 100 eq_refl).
  vm_compute in H. discriminate.
Qed.

(** With that environment [main] panics in [make]. *)
Lemma main_negative_buffer_panics (ParseDuration : string -> option Duration) :
  main ParseDuration (<["BUFFER_SIZE" := "-5"]> ∅) = None.
Proof.
  unfold main, settings.
  replace (getEnvInt (<["BUFFER_SIZE" := "-5"]> ∅) "BUFFER_SIZE" 100)
    with (-5) by (vm_compute; reflexivity).
  reflexivity.
Qed.

Lemma Atoi_empty : Atoi "" = None.
Proof. reflexivity. Qed.

(** C5, as the helpers implement it.  A setting whose variable is unset,
    empty or does not parse takes its default; a value that parses is
    used as parsed, positive or not.  So a setting is positive at startup
    when its default is and every value that parses for it is. *)
Theorem settings_fall_back_on_parse_failure
    (ParseDuration : string -> option Duration) (env : gmap string string)
    (key : string) (dflt : Z) :
  let value := Getenv env key in
  (value = "" \/ Atoi value = None -> getEnvInt env key dflt = dflt) /\
  (forall v, Atoi value = Some v -> getEnvInt env key dflt = v) /\
  (value = "" \/ ParseDuration value = None ->
     getEnvDuration ParseDuration env key dflt = dflt) /\
  (forall d, value <> "" -> ParseDuration value = Some d ->
     getEnvDuration ParseDuration env key dflt = d) /\
  (0 < dflt ->
     (forall v, Atoi value = Some v -> 0 < v) ->
     0 < getEnvInt env key dflt) /\
  (0 < dflt ->
     (forall d, ParseDuration value = Some d -> 0 < d) ->
     0 < getEnvDuration ParseDuration env key dflt).
Proof.
  cbv zeta. unfold getEnvInt, getEnvDuration.
  destruct (String.eqb_spec (Getenv env key) "") as [He|He]; cbn [negb].
  - rewrite He, Atoi_empty. repeat split; try reflexivity; try discriminate;
      try congruence; auto.
  - destruct (Atoi (Getenv env key)) as [v|] eqn:Ea;
      destruct (ParseDuration (Getenv env key)) as [d|] eqn:Ep;
      repeat split; try reflexivity; try congruence; auto;
      try (intros [?|?]; congruence).
Qed.

Lemma settings_fall_back_on_parse_failure_witness :
  getEnvInt (<["BUFFER_SIZE" := "12x"]> ∅) "BUFFER_SIZE" 100 = 100.
Proof.
  refine (proj1 (settings_fall_back_on_parse_failure (fun _ => None)
                   (<["BUFFER_SIZE" := "12x"]> ∅) "BUFFER_SIZE" 100) _).
  right. vm_compute. reflexivity.
Defined.

(** ** The mailbox stays well formed *)

Section Keeps.
Context {S : Type} (I : S -> Prop).

Lemma keeps_ret {A} (a : A) : keeps I (ret (S:=S) a).
Proof. intros s H. exact H. Qed.

Lemma keeps_emit o : keeps I (emit (S:=S) o).
Proof. intros s H. exact H. Qed.

Lemma keeps_bind {A B} (m : M S A) (k : A -> M S B) :
  keeps I m -> (forall a, keeps I (k a)) -> keeps I (bind m k).
Proof.
  intros Hm Hk s H. rewrite state_of_bind. apply Hk, Hm, H.
Qed.
End Keeps.

Ltac keeps_step :=
  first
    [ apply keeps_ret | apply keeps_emit
    | solve [auto with go]
    | apply keeps_bind; [|intros ?]
    | match goal with
      | |- keeps _ (match ?x with _ => _ end) => destruct x
      | |- keeps _ (let _ := _ in _) => cbv zeta
      end ].

Ltac keeps_tac := repeat keeps_step.

Lemma make_wf (size : Z) (c : Chan.t) : Chan.make size = Some c -> Chan.wf c.
Proof.
  unfold Chan.make. destruct (size <? 0) eqn:E; [discriminate|].
  intros [= <-]. apply Z.ltb_ge in E.
  unfold Chan.wf, Chan.qcount. cbn. repeat split; try lia; try discriminate.
Qed.

Lemma send_wf (m : Metric.t) (c : Chan.t) :
  Chan.wf c -> Chan.send_ready c = true -> Chan.wf (Chan.send m c).
Proof.
  unfold Chan.wf, Chan.send_ready, Chan.send, Chan.qcount.
  intros (H0 & H1 & H2) Hr.
  destruct (Chan.recvq c) eqn:E; cbn; rewrite ?E;
    try (apply Z.ltb_lt in Hr; rewrite length_app; cbn;
         repeat split; try lia; try discriminate).
  repeat split; try lia; try discriminate.
Qed.

Lemma trySend_wf (m : Metric.t) : keeps Chan.wf (trySend m).
Proof.
  intros c Hc. destruct (Chan.send_ready c) eqn:E.
  - rewrite trySend_ready by exact E. apply send_wf; assumption.
  - rewrite trySend_not_ready by exact E. exact Hc.
Qed.

#[local] Hint Resolve trySend_wf : go.

Lemma Memory_collect_wf p t :
  keeps Chan.wf (MemoryCollector.collectAndSend p t).
Proof. unfold MemoryCollector.collectAndSend. keeps_tac. Qed.

Lemma Disk_collect_wf p t : keeps Chan.wf (DiskCollector.collectAndSend p t).
Proof. unfold DiskCollector.collectAndSend. keeps_tac. Qed.

Lemma Network_collect_wf p t :
  keeps Chan.wf (NetworkCollector.collectAndSend p t).
Proof. unfold NetworkCollector.collectAndSend. keeps_tac. Qed.

#[local] Hint Resolve Memory_collect_wf Disk_collect_wf Network_collect_wf : go.

Lemma poll_begin_wf {P} i (cas : P -> Time.t -> M Chan.t unit) cy :
  (forall p t, keeps Chan.wf (cas p t)) -> keeps Chan.wf (poll_begin i cas cy).
Proof. intros H. unfold poll_begin. keeps_tac; auto. Qed.

Lemma poll_select_wf {P} msg (cas : P -> Time.t -> M Chan.t unit) r cy :
  (forall p t, keeps Chan.wf (cas p t)) ->
  keeps Chan.wf (poll_select msg cas r cy).
Proof. intros H. unfold poll_select. keeps_tac; auto. Qed.

Lemma CPU_begin_wf x : keeps Chan.wf (CPUCollector.Start_begin x).
Proof. unfold CPUCollector.Start_begin. keeps_tac. Qed.

Lemma collectCPUMetrics_state p t c :
  state_of (CPUCollector.collectCPUMetrics p t c) = c.
Proof.
  assert (H : keeps (fun s => s = c) (CPUCollector.collectCPUMetrics p t)).
  { unfold CPUCollector.collectCPUMetrics. keeps_tac. }
  apply H. reflexivity.
Qed.

Lemma CPU_select_wf r cy : keeps Chan.wf (CPUCollector.Start_select r cy).
Proof.
  intros c Hc. unfold CPUCollector.Start_select. go_simpl.
  destruct (go_select _ _ _) as [| |[|n]]; go_simpl; try exact Hc.
  rewrite collectCPUMetrics_state.
  destruct (result_of (CPUCollector.collectCPUMetrics _ _ _)) as [[m|e]|];
    go_simpl; try exact Hc.
  destruct (go_select _ _ _) as [| |i] eqn:E; go_simpl; try exact Hc.
  apply go_select_two in E as [[-> H]|[-> _]]; go_simpl; [|exact Hc].
  apply send_wf; assumption.
Qed.

Lemma advance_keeps {S} (I : S -> Prop) st (b i : M S Status) :
  keeps I b -> keeps I i -> keeps I (advance st b i).
Proof. intros Hb Hi. unfold advance. keeps_tac; assumption. Qed.

Lemma on_chan_wf {A} (m : M Chan.t A) (a : Aggregator.t) :
  keeps Chan.wf m ->
  Chan.wf (Aggregator.metricsChan a) ->
  Chan.wf (Aggregator.metricsChan (state_of (on_chan m a))).
Proof.
  intros Hm Ha. specialize (Hm _ Ha). unfold on_chan.
  destruct (m _) as [[x c] tr]. exact Hm.
Qed.

Lemma storeMetric_chan m a :
  Aggregator.metricsChan (state_of (storeMetric m a)) =
  Aggregator.metricsChan a.
Proof. unfold storeMetric. repeat case_match; reflexivity. Qed.

Lemma createSample_chan now a :
  Aggregator.metricsChan (state_of (createSample now a)) =
  Aggregator.metricsChan a.
Proof. unfold createSample, bind, emit, get, modify. reflexivity. Qed.

Lemma go_select_blocks (a b c : bool) (pick : nat) :
  go_select [a; b; c] false pick = Blocks -> b = false.
Proof. destruct a, b, c; unfold go_select; cbn; congruence. Qed.

Lemma with_recvq_wf (r : Receiver) (c : Chan.t) :
  Chan.wf c -> (r = RecvParked -> Chan.buf c = []) ->
  Chan.wf (Chan.with_recvq r c).
Proof.
  unfold Chan.wf, Chan.qcount, Chan.with_recvq. cbn.
  intros (H0 & H1 & _) H. repeat split; assumption.
Qed.

Lemma recv_wf (c c' : Chan.t) (m : Metric.t) :
  Chan.wf c -> Chan.recv c = Some (m, c') ->
  Chan.wf (Chan.with_recvq RecvIdle c').
Proof.
  unfold Chan.wf, Chan.qcount, Chan.recv, Chan.with_recvq, Chan.with_buf.
  intros (H0 & H1 & _). destruct (Chan.buf c) as [|x b]; [discriminate|].
  intros [= <- <-]. cbn in *. repeat split; try lia; try discriminate.
Qed.

Lemma Start_select_wf r now : keeps agg_wf (Start_select r now).
Proof.
  intros a Ha. unfold agg_wf in *. unfold Start_select. go_simpl.
  destruct (Chan.recvq (Aggregator.metricsChan a)) eqn:Eq.
  3: { go_simpl. rewrite storeMetric_chan. cbn.
       apply with_recvq_wf; [exact Ha|discriminate]. }
  all: go_simpl;
    destruct (go_select _ _ _) as [| |[|[|n]]] eqn:E; go_simpl;
    try exact Ha;
    try (cbn; apply with_recvq_wf; [exact Ha|discriminate]);
    try (rewrite createSample_chan; cbn;
         apply with_recvq_wf; [exact Ha|discriminate]);
    try (cbn; apply with_recvq_wf; [exact Ha|]; intros _;
         apply go_select_blocks in E; unfold Chan.recv_ready in E;
         destruct (Chan.buf _); [reflexivity|discriminate]);
    try (destruct (Chan.recv _) as [[m c']|] eqn:Er; go_simpl;
         [rewrite storeMetric_chan; cbn; eapply recv_wf; eassumption
         |exact Ha]).
Qed.

Lemma Start_begin_wf : keeps agg_wf Start_begin.
Proof.
  intros a Ha. unfold Start_begin. go_simpl.
  destruct (_ <=? 0); exact Ha.
Qed.

Lemma step_wf (s : Step) (p : Process) :
  agg_wf (aggregator p) -> agg_wf (aggregator (step s p).1).
Proof.
  intros Hp. unfold step. destruct (crashed p); [exact Hp|].
  destruct s as [r now|r cy|r cy|r cy|r cy].
  - pose proof (advance_keeps agg_wf (aggregatorSt p) Start_begin
                  (Start_select r now) Start_begin_wf (Start_select_wf r now)
                  _ Hp) as H.
    destruct (advance _ _ _ _) as [[st a'] tr]. exact H.
  - match goal with |- context [on_chan ?m ?a] =>
      assert (H : agg_wf (state_of (on_chan m a)))
        by (apply on_chan_wf; [|exact Hp]; apply advance_keeps;
            [apply CPU_begin_wf|apply CPU_select_wf]);
      destruct (on_chan m a) as [[st a'] tr]; exact H
    end.
  - match goal with |- context [on_chan ?m ?a] =>
      assert (H : agg_wf (state_of (on_chan m a)))
        by (apply on_chan_wf; [|exact Hp]; apply advance_keeps;
            [apply poll_begin_wf|apply poll_select_wf]; auto with go);
      destruct (on_chan m a) as [[st a'] tr]; exact H
    end.
  - match goal with |- context [on_chan ?m ?a] =>
      assert (H : agg_wf (state_of (on_chan m a)))
        by (apply on_chan_wf; [|exact Hp]; apply advance_keeps;
            [apply poll_begin_wf|apply poll_select_wf]; auto with go);
      destruct (on_chan m a) as [[st a'] tr]; exact H
    end.
  - match goal with |- context [on_chan ?m ?a] =>
      assert (H : agg_wf (state_of (on_chan m a)))
        by (apply on_chan_wf; [|exact Hp]; apply advance_keeps;
            [apply poll_begin_wf|apply poll_select_wf]; auto with go);
      destruct (on_chan m a) as [[st a'] tr]; exact H
    end.
Qed.

(** In every execution of the process [main] starts, the mailbox is in a
    well-formed state. *)
Lemma reachable_mailbox_wf (ParseDuration : string -> option Duration)
    (env : gmap string string) (p : Process) (ss : list Step) :
  main ParseDuration env = Some p ->
  Chan.wf (Aggregator.metricsChan (aggregator (run ss p).1)).
Proof.
  intros Hm.
  assert (H0 : agg_wf (aggregator p)).
  { unfold main, NewAggregator in Hm.
    destruct (Chan.make _) as [c|] eqn:E; [|discriminate].
    injection Hm as <-. cbn. eapply make_wf. exact E. }
  clear Hm. revert p H0. induction ss as [|s ss IH]; intros p H0.
  - exact H0.
  - rewrite run_cons. cbn [fst]. apply IH, step_wf, H0.
Qed.

(** ** Delivery through the mailbox *)

Lemma not_recv_received tr : Forall not_recv tr -> received tr = [].
Proof.
  induction 1 as [|o tr Ho _ IH]; [reflexivity|].
  destruct o; simpl in *; try assumption. contradiction.
Qed.

Lemma received_app t1 t2 : received (t1 ++ t2) = received t1 ++ received t2.
Proof. apply omap_app. Qed.

Lemma on_chan_slot {A} (m : M Chan.t A) (a : Aggregator.t) (k : Kind) :
  slot k (state_of (on_chan m a)) = slot k a.
Proof.
  unfold on_chan. destruct (m _) as [[x c] tr]. destruct k; reflexivity.
Qed.

Lemma with_metricsChan_slot (c : Chan.t) (a : Aggregator.t) (k : Kind) :
  slot k (Aggregator.with_metricsChan c a) = slot k a.
Proof. destruct k; reflexivity. Qed.

Lemma trySend_no_recv m : emits not_recv (trySend m).
Proof. unfold trySend. emits_tac. Qed.

Lemma storeMetric_no_recv m : emits not_recv (storeMetric m).
Proof. unfold storeMetric. emits_tac. Qed.

Lemma createSample_no_recv now : emits not_recv (createSample now).
Proof. unfold createSample. emits_tac. Qed.

#[local] Hint Resolve trySend_no_recv storeMetric_no_recv
  createSample_no_recv : go.

Lemma createSample_slot now a k :
  slot k (state_of (createSample now a)) = slot k a.
Proof.
  unfold createSample, bind, emit, get, modify. destruct k; reflexivity.
Qed.

Lemma slot_after_app k l1 l2 before :
  slot_after k (l1 ++ l2) before = slot_after k l2 (slot_after k l1 before).
Proof.
  unfold slot_after. rewrite omap_app, last_app.
  destruct (last (omap (payload_of k) l2)); reflexivity.
Qed.

Lemma Start_select_slot r now a k :
  slot k (state_of (Start_select r now a)) =
  slot_after k (received (trace_of (Start_select r now a))) (slot k a).
Proof.
  unfold Start_select. go_simpl.
  assert (Hstore : forall m a0,
    slot k a0 = slot k a ->
    slot k (state_of (storeMetric m a0)) =
    slot_after k (received (Recv m :: trace_of (storeMetric m a0) ++ []))
      (slot k a)).
  { intros m a0 H0. rewrite storeMetric_slot, app_nil_r.
    change (received (Recv m :: ?t)) with (m :: received t).
    rewrite (not_recv_received _ (storeMetric_no_recv m a0)).
    unfold slot_after. cbn. rewrite H0.
    destruct (payload_of k m); reflexivity. }
  destruct (Chan.recvq (Aggregator.metricsChan a)) eqn:Eq.
  3: { go_simpl. apply Hstore, with_metricsChan_slot. }
  all: go_simpl;
    destruct (go_select _ _ _) as [| |[|[|n]]] eqn:E; go_simpl;
    try (destruct k; reflexivity);
    try (destruct (Chan.recv _) as [[m c']|] eqn:Er; go_simpl;
         [apply Hstore, with_metricsChan_slot|reflexivity]);
    rewrite createSample_slot, with_metricsChan_slot, app_nil_r;
    change (received (Select ?c :: ?t)) with (received t);
    rewrite (not_recv_received _ (createSample_no_recv now _));
    reflexivity.
Qed.

Lemma Start_begin_slot a k :
  slot k (state_of (Start_begin a)) =
  slot_after k (received (trace_of (Start_begin a))) (slot k a).
Proof.
  unfold Start_begin. go_simpl. destruct (_ <=? 0); reflexivity.
Qed.

Lemma CPU_begin_no_recv x : emits not_recv (CPUCollector.Start_begin x).
Proof. unfold CPUCollector.Start_begin. emits_tac. Qed.

Lemma CPU_select_no_recv r cy :
  emits not_recv (CPUCollector.Start_select r cy).
Proof.
  unfold CPUCollector.Start_select, CPUCollector.collectCPUMetrics.
  emits_tac.
Qed.

Lemma Memory_collect_no_recv p t :
  emits not_recv (MemoryCollector.collectAndSend p t).
Proof. unfold MemoryCollector.collectAndSend. emits_tac. Qed.

Lemma Disk_collect_no_recv p t :
  emits not_recv (DiskCollector.collectAndSend p t).
Proof. unfold DiskCollector.collectAndSend. emits_tac. Qed.

Lemma Network_collect_no_recv p t :
  emits not_recv (NetworkCollector.collectAndSend p t).
Proof. unfold NetworkCollector.collectAndSend. emits_tac. Qed.

#[local] Hint Resolve Memory_collect_no_recv Disk_collect_no_recv
  Network_collect_no_recv : go.

Lemma poll_begin_emits {P} (Q : Op -> Prop) i
    (cas : P -> Time.t -> M Chan.t unit) cy :
  (forall d, Q (NewTicker d)) ->
  (forall p t, emits Q (cas p t)) -> emits Q (poll_begin i cas cy).
Proof. intros H0 H. unfold poll_begin. emits_tac; auto. Qed.

Lemma poll_select_emits {P} (Q : Op -> Prop) msg
    (cas : P -> Time.t -> M Chan.t unit) r cy :
  (forall c, Q (Select c)) -> (forall f l, Q (Log f l)) ->
  (forall p t, emits Q (cas p t)) -> emits Q (poll_select msg cas r cy).
Proof. intros H0 H1 H. unfold poll_select. emits_tac; auto. Qed.

Lemma advance_emits {S} (Q : Op -> Prop) st (b i : M S Status) :
  emits Q b -> emits Q i -> emits Q (advance st b i).
Proof. intros Hb Hi. unfold advance. emits_tac; assumption. Qed.

Ltac collector_slot :=
  match goal with
  | |- context [on_chan ?m ?a] =>
      let Ht := fresh "Ht" in
      let Hs := fresh "Hs" in
      let Hq := fresh "Hq" in
      pose proof (on_chan_trace m a) as Ht;
      assert (Hq : emits not_recv m)
        by (apply advance_emits;
            first [ apply CPU_begin_no_recv | apply CPU_select_no_recv
                  | apply poll_begin_emits; simpl; auto with go
                  | apply poll_select_emits; simpl; auto with go ]);
      specialize (Hq (Aggregator.metricsChan a));
      match goal with
      | |- slot ?k _ = _ => pose proof (on_chan_slot m a k) as Hs
      end;
      destruct (on_chan m a) as [[? ?] ?];
      simpl; cbn [state_of trace_of fst snd] in Hs, Ht, Hq;
      rewrite Hs, Ht, (not_recv_received _ Hq); reflexivity
  end.

Lemma step_slot (s : Step) (p : Process) (k : Kind) :
  slot k (aggregator (step s p).1) =
  slot_after k (received (step s p).2) (slot k (aggregator p)).
Proof.
  unfold step. destruct (crashed p); [reflexivity|].
  destruct s as [r now|r cy|r cy|r cy|r cy].
  - assert (H : slot k (state_of (advance (aggregatorSt p) Start_begin
                                    (Start_select r now) (aggregator p))) =
                slot_after k
                  (received (trace_of (advance (aggregatorSt p) Start_begin
                                         (Start_select r now) (aggregator p))))
                  (slot k (aggregator p))).
    { unfold advance. destruct (aggregatorSt p) as [[| |]|]; go_simpl;
        rewrite ?app_nil_r;
        first [ apply Start_select_slot | apply Start_begin_slot
              | reflexivity ]. }
    destruct (advance _ _ _ _) as [[st a'] tr]. exact H.
  - collector_slot.
  - collector_slot.
  - collector_slot.
  - collector_slot.
Qed.

(** Along any execution of the process, the slot of each kind holds the
    payload of the last Measurement of that kind the aggregator received
    from the mailbox, or is as it was when it received none. *)
Lemma run_slot (ss : list Step) (p : Process) (k : Kind) :
  slot k (aggregator (run ss p).1) =
  slot_after k (received (run ss p).2) (slot k (aggregator p)).
Proof.
  revert p. induction ss as [|s ss IH]; intros p.
  - reflexivity.
  - rewrite run_cons. cbn [fst snd].
    rewrite received_app, slot_after_app, IH, step_slot. reflexivity.
Qed.

(** * Further properties *)

(** ** The disk I/O totals *)

Lemma counter_sum_perm f l1 l2 :
  l1 ≡ₚ l2 -> counter_sum f l1 = counter_sum f l2.
Proof.
  induction 1 as [|x l1 l2 _ IH|x y l|l1 l2 l3 _ IH1 _ IH2];
    unfold counter_sum in *; cbn; lia.
Qed.

Lemma range_total_from f l acc :
  0 <= acc < 2 ^ 64 ->
  fold_left (fun acc kv => wrap64 (acc + f kv.2)) l acc =
  wrap64 (acc + counter_sum f l).
Proof.
  revert acc. induction l as [|kv l IH]; intros acc Hacc.
  - cbn. unfold wrap64. rewrite Z.add_0_r, Z.mod_small; [reflexivity|lia].
  - cbn [fold_left]. rewrite IH by (apply Z.mod_pos_bound; lia).
    unfold wrap64, counter_sum. cbn [foldr].
    rewrite Zplus_mod_idemp_l. f_equal. lia.
Qed.

Lemma range_total_sum f l : range_total f l = wrap64 (counter_sum f l).
Proof. unfold range_total. rewrite range_total_from by lia. reflexivity. Qed.

Lemma total_sum f (m : gmap string disk.IOCountersStat) :
  DiskCollector.total f m = wrap64 (counter_sum f (map_to_list m)).
Proof.
  unfold DiskCollector.total. rewrite map_fold_foldr.
  induction (map_to_list m) as [|[k io] l IH]; [reflexivity|].
  cbn -[wrap64 counter_sum]. rewrite IH. unfold wrap64, counter_sum.
  cbn [foldr snd]. rewrite Zplus_mod_idemp_l. f_equal. lia.
Qed.

(** X1. The disk I/O totals do not depend on the order in which the
    runtime visits the map of per-disk counters: whatever that order, the
    loop computes the sum of the counter over all disks modulo 2^64, which
    is what the collector reports; the total is a [uint64], and it is 0
    when there is no disk. *)
Theorem disk_totals_order_independent (f : disk.IOCountersStat -> uint64)
    (ioCounters : gmap string disk.IOCountersStat)
    (l : list (string * disk.IOCountersStat)) :
  l ≡ₚ map_to_list ioCounters ->
  range_total f l = DiskCollector.total f ioCounters /\
  DiskCollector.total f ioCounters =
    counter_sum f (map_to_list ioCounters) mod 2 ^ 64 /\
  0 <= DiskCollector.total f ioCounters < 2 ^ 64 /\
  DiskCollector.total f ∅ = 0.
Proof.
  intros Hp. rewrite range_total_sum, total_sum, (counter_sum_perm f _ _ Hp).
  repeat split; try reflexivity; unfold wrap64;
    apply Z.mod_pos_bound; lia.
Qed.

Lemma disk_totals_order_independent_witness :
  let sda := disk.mkIOCountersStat 10 20 (2 ^ 64 - 1) 5 in
  let sdb := disk.mkIOCountersStat 1 2 3 4 in
  let m : gmap string disk.IOCountersStat :=
    <["sda" := sda]> (<["sdb" := sdb]> ∅) in
  range_total disk.ReadBytes (reverse (map_to_list m)) =
    DiskCollector.total disk.ReadBytes m /\
  DiskCollector.total disk.ReadBytes m = 2.
Proof.
  cbv zeta. split; [|vm_compute; reflexivity].
  refine (proj1 (disk_totals_order_independent disk.ReadBytes _ _ _)).
  apply reverse_Permutation.
Defined.

(** ** What the collectors put into the mailbox *)

Lemma trySend_emits (P : Op -> Prop) (m : Metric.t) :
  (forall ch, P (Offer m ch)) -> emits P (trySend m).
Proof. intros H. unfold trySend. emits_tac; apply emits_emit, H. Qed.

Lemma Memory_collect_ops p t :
  emits (collector_op KMemory t) (MemoryCollector.collectAndSend p t).
Proof.
  unfold MemoryCollector.collectAndSend. emits_tac.
  all: apply emits_emit; split; reflexivity.
Qed.

Lemma Disk_collect_ops p t :
  emits (collector_op KDisk t) (DiskCollector.collectAndSend p t).
Proof.
  unfold DiskCollector.collectAndSend. emits_tac.
  all: apply emits_emit; split; reflexivity.
Qed.

Lemma Network_collect_ops p t :
  emits (collector_op KNetwork t) (NetworkCollector.collectAndSend p t).
Proof.
  unfold NetworkCollector.collectAndSend. emits_tac.
  all: apply emits_emit; split; reflexivity.
Qed.

Lemma collectCPUMetrics_ops p t :
  emits (collector_op KCPU t) (CPUCollector.collectCPUMetrics p t).
Proof. unfold CPUCollector.collectCPUMetrics. emits_tac. Qed.

Lemma collectCPUMetrics_metric p t c m :
  result_of (CPUCollector.collectCPUMetrics p t c) = Some (Ok m) ->
  measurement_of KCPU t m.
Proof.
  unfold CPUCollector.collectCPUMetrics, bind, emit, ret.
  destruct (CPUCollector.Percent_overall p) as [[[|f l]|]|];
    try discriminate;
    destruct (CPUCollector.Percent_percore p); try discriminate;
    destruct (CPUCollector.Avg p); cbn; intros [= <-]; split; reflexivity.
Qed.

Lemma CPU_select_ops r cy :
  emits (collector_op KCPU (now cy)) (CPUCollector.Start_select r cy).
Proof.
  intros c. unfold CPUCollector.Start_select. go_simpl.
  constructor; [exact I|].
  destruct (go_select _ _ _) as [| |[|n]]; go_simpl;
    try (repeat constructor; fail).
  apply Forall_app. split; [apply collectCPUMetrics_ops|].
  pose proof (collectCPUMetrics_metric (probes cy) (now cy) c) as Hm.
  destruct (result_of (CPUCollector.collectCPUMetrics _ _ _)) as [[m|e]|];
    go_simpl; try (repeat constructor; fail).
  specialize (Hm m eq_refl).
  constructor; [exact Hm|].
  destruct (go_select _ _ _) as [| |[|n']]; go_simpl; repeat constructor.
Qed.

Lemma sent_app t1 t2 : sent (t1 ++ t2) = sent t1 ++ sent t2.
Proof. apply omap_app. Qed.

Section OneSend.
Context (k : Kind) (t : Time.t).

Lemma quiet_ret {A} (Q : A -> Prop) (a : A) : Q a -> quiet_with Q (ret a).
Proof. intros H c. auto. Qed.

Lemma quiet_emit (Q : unit -> Prop) (o : Op) :
  sent [o] = [] -> Q tt -> quiet_with Q (emit o).
Proof. intros H HQ c. auto. Qed.

Lemma quiet_bind {A B} (P : A -> Prop) (Q : B -> Prop) (m : M Chan.t A)
    (f : A -> M Chan.t B) :
  quiet_with P m -> (forall a, P a -> quiet_with Q (f a)) ->
  quiet_with Q (bind m f).
Proof.
  intros Hm Hf c. destruct (Hm c) as (Hs & Ht & Hp).
  rewrite state_of_bind, trace_of_bind, result_of_bind, sent_app, Hs, Ht.
  apply Hf, Hp.
Qed.

Lemma quiet_weaken {A} (P Q : A -> Prop) (m : M Chan.t A) :
  quiet_with P m -> (forall a, P a -> Q a) -> quiet_with Q m.
Proof. intros Hm H c. destruct (Hm c) as (? & ? & ?). auto. Qed.

Lemma one_send_quiet {A} (Q : A -> Prop) (m : M Chan.t A) :
  quiet_with Q m -> one_send k t m.
Proof. intros Hm c. left. destruct (Hm c) as (? & ? & _). auto. Qed.

Lemma one_send_bind {A B} (P : A -> Prop) (m : M Chan.t A)
    (f : A -> M Chan.t B) :
  quiet_with P m -> (forall a, P a -> one_send k t (f a)) ->
  one_send k t (bind m f).
Proof.
  intros Hm Hf c. destruct (Hm c) as (Hs & Ht & Hp).
  unfold delivers.
  rewrite state_of_bind, trace_of_bind, sent_app, Hs, Ht.
  apply Hf, Hp.
Qed.

Lemma one_send_trySend {A} (m : Metric.t) (f : bool -> M Chan.t A) :
  measurement_of k t m ->
  (forall b, quiet_with (fun _ => True) (f b)) ->
  one_send k t (bind (trySend m) f).
Proof.
  intros Hm Hf c. unfold delivers.
  rewrite state_of_bind, trace_of_bind, sent_app.
  destruct (Chan.send_ready c) eqn:E.
  - right. exists m. rewrite trySend_ready by exact E.
    cbn [state_of trace_of result_of fst snd].
    destruct (Hf true (Chan.send m c)) as (-> & -> & _). auto.
  - left. rewrite trySend_not_ready by exact E.
    cbn [state_of trace_of result_of fst snd].
    destruct (Hf false c) as (-> & -> & _). auto.
Qed.

Lemma one_send_emit_bind {A} (o : Op) (f : unit -> M Chan.t A) :
  sent [o] = [] -> one_send k t (f tt) -> one_send k t (bind (emit o) f).
Proof.
  intros Ho Hf. apply (one_send_bind (fun _ => True)).
  - apply quiet_emit; [exact Ho|exact I].
  - intros [] _. exact Hf.
Qed.

Lemma quiet_emit_bind {A} (Q : A -> Prop) (o : Op)
    (f : unit -> M Chan.t A) :
  sent [o] = [] -> quiet_with Q (f tt) -> quiet_with Q (bind (emit o) f).
Proof.
  intros Ho Hf. apply (quiet_bind (fun _ => True)).
  - apply quiet_emit; [exact Ho|exact I].
  - intros [] _. exact Hf.
Qed.
End OneSend.

Ltac quiet_step :=
  first
    [ apply quiet_ret; solve [exact I | auto]
    | apply quiet_emit; [reflexivity|solve [exact I | auto]]
    | apply quiet_emit_bind; [reflexivity|]
    | apply (quiet_bind (fun _ => True)); [|intros ? _]
    | match goal with
      | |- quiet_with _ (match ?x with _ => _ end) => destruct x
      | |- quiet_with _ (let _ := _ in _) => cbv zeta
      end ].

Ltac quiet_tac := repeat quiet_step.

Ltac one_send_step :=
  first
    [ apply one_send_trySend; [split; reflexivity|intros ?; quiet_tac]
    | apply (one_send_quiet _ _ (fun _ => True)); solve [quiet_tac]
    | apply one_send_emit_bind; [reflexivity|]
    | match goal with
      | |- one_send _ _ (match ?x with _ => _ end) => destruct x
      | |- one_send _ _ (let _ := _ in _) => cbv zeta
      end ].

Ltac one_send_tac := repeat one_send_step.

Lemma Memory_collect_one_send p t :
  one_send KMemory t (MemoryCollector.collectAndSend p t).
Proof. unfold MemoryCollector.collectAndSend. one_send_tac. Qed.

Lemma Disk_collect_one_send p t :
  one_send KDisk t (DiskCollector.collectAndSend p t).
Proof. unfold DiskCollector.collectAndSend. one_send_tac. Qed.

Lemma Network_collect_one_send p t :
  one_send KNetwork t (NetworkCollector.collectAndSend p t).
Proof. unfold NetworkCollector.collectAndSend. one_send_tac. Qed.

Lemma poll_begin_one_send {P} k i (cas : P -> Time.t -> M Chan.t unit) cy :
  (forall p t, one_send k t (cas p t)) ->
  one_send k (now cy) (poll_begin i cas cy).
Proof.
  intros H. unfold poll_begin. destruct (i <=? 0).
  - apply (one_send_quiet _ _ (fun _ => True)). quiet_tac.
  - apply one_send_emit_bind; [reflexivity|]. intros c.
    specialize (H (probes cy) (now cy) c). unfold delivers in *.
    rewrite state_of_bind, trace_of_bind, sent_app. cbn [ret state_of
      trace_of fst snd]. rewrite app_nil_r. exact H.
Qed.

Lemma poll_select_one_send {P} k msg (cas : P -> Time.t -> M Chan.t unit)
    r cy :
  (forall p t, one_send k t (cas p t)) ->
  one_send k (now cy) (poll_select msg cas r cy).
Proof.
  intros H. unfold poll_select. cbv zeta.
  apply one_send_emit_bind; [reflexivity|].
  destruct (go_select _ _ _) as [| |[|n]];
    try (apply (one_send_quiet _ _ (fun _ => True)); quiet_tac; fail).
  intros c. specialize (H (probes cy) (now cy) c). unfold delivers in *.
  rewrite state_of_bind, trace_of_bind, sent_app. cbn [ret state_of
    trace_of fst snd]. rewrite app_nil_r. exact H.
Qed.

Lemma collectCPUMetrics_quiet p t :
  quiet_with (fun res => forall m, res = Some (Ok m) -> measurement_of KCPU t m)
    (CPUCollector.collectCPUMetrics p t).
Proof.
  assert (H : quiet_with (fun _ => True)
                (CPUCollector.collectCPUMetrics p t)).
  { unfold CPUCollector.collectCPUMetrics. quiet_tac. }
  intros c. destruct (H c) as (Hs & Ht & _).
  split; [exact Hs|]. split; [exact Ht|].
  intros m Hm. eapply collectCPUMetrics_metric. exact Hm.
Qed.

Lemma CPU_select_one_send r cy :
  one_send KCPU (now cy) (CPUCollector.Start_select r cy).
Proof.
  intros c. unfold delivers, CPUCollector.Start_select. go_simpl.
  change (sent (Select ?ch :: ?tr)) with (sent tr).
  destruct (go_select _ _ _) as [| |[|n]]; go_simpl;
    try (left; split; reflexivity).
  destruct (collectCPUMetrics_quiet (probes cy) (now cy) c) as (Hs & Ht & Hm).
  rewrite Hs, sent_app, Ht. cbn [app].
  destruct (result_of (CPUCollector.collectCPUMetrics _ _ _)) as [[m|e]|];
    go_simpl; try (left; split; reflexivity).
  specialize (Hm m eq_refl).
  destruct (go_select _ _ _) as [| |i] eqn:E; go_simpl;
    try (left; split; reflexivity).
  apply go_select_two in E as [[-> H]|[-> _]]; go_simpl.
  - right. exists m. auto.
  - left. split; reflexivity.
Qed.

Lemma CPU_begin_one_send x t : one_send KCPU t (CPUCollector.Start_begin x).
Proof.
  unfold CPUCollector.Start_begin.
  apply (one_send_quiet _ _ (fun _ => True)). quiet_tac.
Qed.

Lemma worker_select_one_send k r cy :
  one_send k (now cy) (worker_select k r cy).
Proof.
  destruct k; cbn.
  - apply CPU_select_one_send.
  - apply poll_select_one_send, Memory_collect_one_send.
  - apply poll_select_one_send, Disk_collect_one_send.
  - apply poll_select_one_send, Network_collect_one_send.
Qed.

Lemma worker_begin_one_send k i cy :
  one_send k (now cy) (worker_begin k i cy).
Proof.
  destruct k; cbn.
  - apply CPU_begin_one_send.
  - apply poll_begin_one_send, Memory_collect_one_send.
  - apply poll_begin_one_send, Disk_collect_one_send.
  - apply poll_begin_one_send, Network_collect_one_send.
Qed.

Lemma poll_begin_ops {P} k i (cas : P -> Time.t -> M Chan.t unit) cy :
  (forall p t, emits (collector_op k t) (cas p t)) ->
  emits (collector_op k (now cy)) (poll_begin i cas cy).
Proof. intros H. unfold poll_begin. emits_tac; auto. Qed.

Lemma poll_select_ops {P} k msg (cas : P -> Time.t -> M Chan.t unit) r cy :
  (forall p t, emits (collector_op k t) (cas p t)) ->
  emits (collector_op k (now cy)) (poll_select msg cas r cy).
Proof. intros H. unfold poll_select. emits_tac; auto. Qed.

Lemma worker_select_ops k r cy :
  emits (collector_op k (now cy)) (worker_select k r cy).
Proof.
  destruct k; cbn.
  - apply CPU_select_ops.
  - apply poll_select_ops, Memory_collect_ops.
  - apply poll_select_ops, Disk_collect_ops.
  - apply poll_select_ops, Network_collect_ops.
Qed.

Lemma worker_begin_ops k i cy :
  emits (collector_op k (now cy)) (worker_begin k i cy).
Proof.
  destruct k; cbn.
  - unfold CPUCollector.Start_begin. emits_tac.
  - apply poll_begin_ops, Memory_collect_ops.
  - apply poll_begin_ops, Disk_collect_ops.
  - apply poll_begin_ops, Network_collect_ops.
Qed.

Lemma offers_collector_op k t tr :
  Forall (collector_op k t) tr ->
  Forall (fun o => measurement_of k t o.1) (offers tr).
Proof.
  induction 1 as [|o tr Ho _ IH]; [constructor|].
  destruct o; try exact IH. cbn. constructor; assumption.
Qed.

Lemma payload_of_tag k m d : payload_of k m = Some d -> Metric.Type_ m = tag k.
Proof.
  unfold payload_of. destruct (String.eqb_spec (Metric.Type_ m) (tag k));
    [auto|discriminate].
Qed.

Lemma payload_of_other k k' m d :
  payload_of k m = Some d -> k' <> k -> payload_of k' m = None.
Proof.
  intros H Hk. apply payload_of_tag in H. unfold payload_of. rewrite H.
  destruct k, k'; try congruence; reflexivity.
Qed.

Lemma measurement_stored k t m a k' :
  measurement_of k t m ->
  slot k' (state_of (storeMetric m a)) =
    if decide (k' = k) then Some (Metric.Data m) else slot k' a.
Proof.
  intros [Hp _]. rewrite storeMetric_slot. destruct (decide (k' = k)) as [->|Hk].
  - rewrite Hp. reflexivity.
  - rewrite (payload_of_other _ _ _ _ Hp Hk). reflexivity.
Qed.

(** X2. Whatever its probes return and whatever the state of the mailbox,
    the collector of kind [k] offers only Measurements of its own kind
    stamped with the clock reading of the cycle, both in its loop and in
    the part of [Start] before it; it sends at most one per cycle and
    only into a mailbox ready to take it; and every metric it offers,
    once delivered to [storeMetric], ends in the slot of kind [k] and
    nowhere else. *)
Theorem collector_offers_own_kind (k : Kind) (interval : Duration)
    (r : Ready) (cy : Cycle (Probes k)) (c : Chan.t) :
  let good (res : Status * Chan.t * list Op) :=
    Forall (fun o => measurement_of k (now cy) o.1) (offers (trace_of res)) /\
    delivers k (now cy) c res /\
    (forall o a k',
        o ∈ offers (trace_of res) ->
        slot k' (state_of (storeMetric o.1 a)) =
          if decide (k' = k) then Some (Metric.Data o.1) else slot k' a) in
  good (worker_select k r cy c) /\ good (worker_begin k interval cy c).
Proof.
  cbv zeta. split; (split; [|split]).
  - apply offers_collector_op, worker_select_ops.
  - apply worker_select_one_send.
  - intros o a k' Ho. apply (measurement_stored k (now cy)).
    pose proof (offers_collector_op _ _ _ (worker_select_ops k r cy c)) as H.
    rewrite Forall_forall in H. apply H, Ho.
  - apply offers_collector_op, worker_begin_ops.
  - apply worker_begin_one_send.
  - intros o a k' Ho. apply (measurement_stored k (now cy)).
    pose proof (offers_collector_op _ _ _ (worker_begin_ops k interval cy c))
      as H.
    rewrite Forall_forall in H. apply H, Ho.
Qed.

Lemma collector_offers_own_kind_witness :
  let cy :=
    mkCycle
      (DiskCollector.mkProbes (Ok (disk.mkUsageStat 100 60 40 float_zero))
         (Ok (<["sda" := disk.mkIOCountersStat 1 2 3 4]> ∅)))
      (Time.mk 10 200) false 0 in
  let c := Chan.mk 2 [] RecvIdle in
  let m :=
    Metric.mk "disk" (Time.mk 10 200)
      (AnyDisk (DiskMetric.mk 100 60 40 float_zero 3 4 1 2)) in
  let a :=
    Aggregator.mk c Sample.zero (Some CPUMetric.zero) None None None
      Second in
  slot KDisk (state_of (storeMetric m a)) = Some (Metric.Data m) /\
  slot KCPU (state_of (storeMetric m a)) = Some (AnyCPU CPUMetric.zero).
Proof.
  intros cy c m a.
  destruct (collector_offers_own_kind KDisk Second (mkReady false true 0)
              cy c) as [(_ & _ & H) _].
  assert (Hin : (m, Case 0) ∈
                offers (trace_of (worker_select KDisk (mkReady false true 0)
                                    cy c))).
  { vm_compute. left. }
  split.
  - exact (H (m, Case 0) a KDisk Hin).
  - exact (H (m, Case 0) a KCPU Hin).
Defined.

(** ** Executions, step by step *)

Lemma with_metricsChan_id (a : Aggregator.t) :
  Aggregator.with_metricsChan (Aggregator.metricsChan a) a = a.
Proof. destruct a. reflexivity. Qed.

Lemma on_chan_state {A} (m : M Chan.t A) (a : Aggregator.t) :
  state_of (on_chan m a) =
  Aggregator.with_metricsChan (state_of (m (Aggregator.metricsChan a))) a.
Proof. unfold on_chan. destruct (m _) as [[x c] tr]. reflexivity. Qed.

(** What [advance] runs: the part before the loop, an iteration, or
    nothing. *)
Lemma advance_cases {S} (st : option Status) (b i : M S Status) (s : S) :
  let res := advance st b i s in
  (state_of res = state_of (b s) /\ trace_of res = trace_of (b s)) \/
  (state_of res = state_of (i s) /\ trace_of res = trace_of (i s)) \/
  (state_of res = s /\ trace_of res = []).
Proof.
  unfold advance. destruct st as [[| |]|]; go_simpl; rewrite ?app_nil_r; auto.
Qed.

(** One iteration of the aggregator's loop, by cases: it only touches the
    consumer side of the mailbox; or it takes the oldest metric in flight
    and stores it; or it builds a sample. *)
Lemma Start_select_cases (r : Ready) (now : Time.t) (a : Aggregator.t) :
  let res := Start_select r now a in
  exists c',
    let mid := Aggregator.with_metricsChan c' a in
    Chan.dataqsiz c' = Chan.dataqsiz (Aggregator.metricsChan a) /\
    (Chan.wf (Aggregator.metricsChan a) -> Chan.wf c') /\
    ((in_flight c' = in_flight (Aggregator.metricsChan a) /\
      state_of res = mid /\
      exists ch, trace_of res = [Select ch] \/
                 trace_of res =
                   [Select ch; Log "Aggregator stopping..." []]) \/
     (exists m,
        in_flight (Aggregator.metricsChan a) = m :: in_flight c' /\
        state_of res = state_of (storeMetric m mid) /\
        trace_of res =
          Select (Case 1) :: Recv m :: trace_of (storeMetric m mid)) \/
     (in_flight c' = in_flight (Aggregator.metricsChan a) /\
      state_of res = state_of (createSample now mid) /\
      exists ch, trace_of res = Select ch :: trace_of (createSample now mid))).
Proof.
  cbv zeta. unfold Start_select. go_simpl.
  destruct (Chan.recvq (Aggregator.metricsChan a)) eqn:Eq.
  3: { exists (Chan.with_recvq RecvIdle (Aggregator.metricsChan a)).
       split; [reflexivity|]. split.
       { intros Hwf. apply with_recvq_wf; [exact Hwf|discriminate]. }
       right. left. exists m. go_simpl. rewrite app_nil_r.
       unfold in_flight. rewrite Eq. cbn. auto. }
  all: go_simpl;
    destruct (go_select _ _ _) as [| |[|[|n]]] eqn:E; go_simpl.
  all: try (exists (Chan.with_recvq RecvIdle (Aggregator.metricsChan a));
            split; [reflexivity|]; split;
            [intros Hwf; apply with_recvq_wf; [exact Hwf|discriminate]|];
            first
              [ left; split; [unfold in_flight; cbn; rewrite Eq; reflexivity|];
                split; [reflexivity|]; eexists; eauto; fail
              | right; right; rewrite app_nil_r;
                split; [unfold in_flight; cbn; rewrite Eq; reflexivity|];
                split; [reflexivity|]; eexists; reflexivity ]).
  all: try (exists (Aggregator.metricsChan a);
            rewrite with_metricsChan_id;
            split; [reflexivity|]; split; [auto|];
            left; split; [reflexivity|]; split; [reflexivity|];
            eexists; left; reflexivity).
  all: try (exists (Chan.with_recvq RecvParked (Aggregator.metricsChan a));
            split; [reflexivity|]; split;
            [intros Hwf; apply with_recvq_wf; [exact Hwf|]; intros _;
             apply go_select_blocks in E; unfold Chan.recv_ready in E;
             destruct (Chan.buf _); [reflexivity|discriminate]|];
            left; split; [unfold in_flight; cbn; rewrite Eq; reflexivity|];
            split; [reflexivity|]; eexists; left; reflexivity).
  all: destruct (Chan.recv _) as [[m c']|] eqn:Er; go_simpl.
  all: try (exists (Aggregator.metricsChan a);
            rewrite with_metricsChan_id;
            split; [reflexivity|]; split; [auto|];
            left; split; [reflexivity|]; split; [reflexivity|];
            eexists; left; reflexivity).
  all: exists (Chan.with_recvq RecvIdle c');
    unfold Chan.recv in Er;
    destruct (Chan.buf (Aggregator.metricsChan a)) as [|x b] eqn:Eb;
    [discriminate|]; injection Er as <- <-;
    split; [reflexivity|]; split;
    [intros Hwf; eapply recv_wf; [exact Hwf|];
     unfold Chan.recv; rewrite Eb; reflexivity|];
    right; left; exists x; rewrite app_nil_r;
    unfold in_flight; cbn; rewrite Eq, Eb; auto.
Qed.

(** A property of executions follows from the same property of the four
    computations the goroutines are made of. *)
Section RunRel.
Variable Inv : Aggregator.t -> Prop.
Variable R : Aggregator.t -> list Op -> Aggregator.t -> Prop.

Hypothesis R_refl : forall a, R a [] a.
Hypothesis R_trans :
  forall a1 t1 a2 t2 a3, R a1 t1 a2 -> R a2 t2 a3 -> R a1 (t1 ++ t2) a3.
Hypothesis aggregator_begin :
  forall a, Inv a ->
    Inv (state_of (Start_begin a)) /\
    R a (trace_of (Start_begin a)) (state_of (Start_begin a)).
Hypothesis aggregator_select :
  forall r now a, Inv a ->
    Inv (state_of (Start_select r now a)) /\
    R a (trace_of (Start_select r now a)) (state_of (Start_select r now a)).
Hypothesis collector_begin :
  forall k i cy a, Inv a ->
    Inv (state_of (on_chan (worker_begin k i cy) a)) /\
    R a (trace_of (on_chan (worker_begin k i cy) a))
      (state_of (on_chan (worker_begin k i cy) a)).
Hypothesis collector_select :
  forall k r cy a, Inv a ->
    Inv (state_of (on_chan (worker_select k r cy) a)) /\
    R a (trace_of (on_chan (worker_select k r cy) a))
      (state_of (on_chan (worker_select k r cy) a)).

Lemma collector_advance (k : Kind) (st : option Status) (i : Duration)
    (r : Ready) (cy : Cycle (Probes k)) (a : Aggregator.t) :
  Inv a ->
  let res :=
    on_chan (advance st (worker_begin k i cy) (worker_select k r cy)) a in
  Inv (state_of res) /\ R a (trace_of res) (state_of res).
Proof.
  intros Ha. cbv zeta. rewrite on_chan_state, on_chan_trace.
  destruct (advance_cases st (worker_begin k i cy) (worker_select k r cy)
              (Aggregator.metricsChan a)) as [[-> ->]|[[-> ->]|[-> ->]]].
  - rewrite <- on_chan_state, <- on_chan_trace. apply collector_begin, Ha.
  - rewrite <- on_chan_state, <- on_chan_trace. apply collector_select, Ha.
  - rewrite with_metricsChan_id. auto.
Qed.

Lemma step_rel (s : Step) (p : Process) :
  Inv (aggregator p) ->
  Inv (aggregator (step s p).1) /\
  R (aggregator p) (step s p).2 (aggregator (step s p).1).
Proof.
  intros Ha. unfold step. destruct (crashed p); [auto|].
  destruct s as [r now|r cy|r cy|r cy|r cy].
  - destruct (advance_cases (aggregatorSt p) Start_begin (Start_select r now)
                (aggregator p)) as [H|[H|H]];
      destruct (advance _ _ _ _) as [[st a'] tr];
      cbn [state_of trace_of fst snd] in *; destruct H as [-> ->];
      cbn [aggregator fst snd]; auto.
  - pose proof (collector_advance KCPU (cpuSt p)
                  (CPUCollector.interval (cpuCollector p)) r cy _ Ha) as H.
    destruct (cpuCollector p) as [i]. cbn in H.
    destruct (on_chan _ _) as [[st a'] tr]. exact H.
  - pose proof (collector_advance KMemory (memorySt p)
                  (MemoryCollector.interval (memoryCollector p)) r cy _ Ha)
      as H.
    destruct (memoryCollector p) as [i]. cbn in H.
    destruct (on_chan _ _) as [[st a'] tr]. exact H.
  - pose proof (collector_advance KDisk (diskSt p)
                  (DiskCollector.interval (diskCollector p)) r cy _ Ha) as H.
    destruct (diskCollector p) as [i]. cbn in H.
    destruct (on_chan _ _) as [[st a'] tr]. exact H.
  - pose proof (collector_advance KNetwork (networkSt p)
                  (NetworkCollector.interval (networkCollector p)) r cy _ Ha)
      as H.
    destruct (networkCollector p) as [i]. cbn in H.
    destruct (on_chan _ _) as [[st a'] tr]. exact H.
Qed.

Lemma run_rel (ss : list Step) (p : Process) :
  Inv (aggregator p) ->
  Inv (aggregator (run ss p).1) /\
  R (aggregator p) (run ss p).2 (aggregator (run ss p).1).
Proof.
  revert p. induction ss as [|s ss IH]; intros p Ha.
  - cbn. auto.
  - rewrite run_cons. cbn [fst snd].
    destruct (step_rel s p Ha) as [H1 H2].
    destruct (IH _ H1) as [H3 H4]. split; [exact H3|].
    eapply R_trans; eassumption.
Qed.
End RunRel.

(** ** Conservation of metrics *)

Lemma conserves_refl a : conserves a [] a.
Proof.
  unfold conserves. cbn. rewrite app_nil_r. repeat split; constructor.
Qed.

Lemma conserves_trans a1 t1 a2 t2 a3 :
  conserves a1 t1 a2 -> conserves a2 t2 a3 -> conserves a1 (t1 ++ t2) a3.
Proof.
  intros (H1 & H2 & H3 & H4) (H5 & H6 & H7 & H8). unfold conserves.
  rewrite sent_app, received_app, app_assoc, H1, <- !app_assoc, H5.
  repeat split; try congruence; apply Forall_app; auto.
Qed.

Lemma storeMetric_measurement m a :
  is_measurement m -> trace_of (storeMetric m a) = [].
Proof.
  intros [k Hk]. pose proof (payload_of_tag _ _ _ Hk) as Ht.
  unfold payload_of in Hk. rewrite Ht, String.eqb_refl in Hk.
  unfold storeMetric. rewrite Ht.
  destruct k, (Metric.Data m); cbn in *; try discriminate; reflexivity.
Qed.

Lemma send_in_flight m c :
  Chan.wf c -> in_flight (Chan.send m c) = in_flight c ++ [m].
Proof.
  intros (_ & _ & Hp). unfold in_flight, Chan.send.
  destruct (Chan.recvq c) eqn:E; cbn; rewrite ?E; try reflexivity.
  rewrite (Hp eq_refl). reflexivity.
Qed.

Lemma send_dataqsiz m c : Chan.dataqsiz (Chan.send m c) = Chan.dataqsiz c.
Proof. unfold Chan.send. destruct (Chan.recvq c); reflexivity. Qed.

Lemma collector_op_received k t tr :
  Forall (collector_op k t) tr -> received tr = [].
Proof.
  induction 1 as [|o tr Ho _ IH]; [reflexivity|].
  destruct o; cbn in *; try exact IH; contradiction.
Qed.

Ltac log_tac :=
  emits_tac; try (apply emits_emit; cbn; congruence).

Lemma trySend_no_unknown m : emits no_unknown_log (trySend m).
Proof. unfold trySend. log_tac. Qed.

Lemma worker_select_no_unknown k r cy :
  emits no_unknown_log (worker_select k r cy).
Proof.
  destruct k; cbn;
    unfold CPUCollector.Start_select, CPUCollector.collectCPUMetrics,
      MemoryCollector.Start_select, DiskCollector.Start_select,
      NetworkCollector.Start_select, poll_select,
      MemoryCollector.collectAndSend, DiskCollector.collectAndSend,
      NetworkCollector.collectAndSend, trySend; log_tac.
Qed.

Lemma worker_begin_no_unknown k i cy :
  emits no_unknown_log (worker_begin k i cy).
Proof.
  destruct k; cbn;
    unfold CPUCollector.Start_begin,
      MemoryCollector.Start_begin, DiskCollector.Start_begin,
      NetworkCollector.Start_begin, poll_begin,
      MemoryCollector.collectAndSend, DiskCollector.collectAndSend,
      NetworkCollector.collectAndSend, trySend; log_tac.
Qed.

Lemma createSample_sent now a : sent (trace_of (createSample now a)) = [].
Proof. unfold createSample, bind, emit, get, modify. reflexivity. Qed.

Lemma createSample_received now a :
  received (trace_of (createSample now a)) = [].
Proof. unfold createSample, bind, emit, get, modify. reflexivity. Qed.

Lemma createSample_no_unknown now : emits no_unknown_log (createSample now).
Proof. unfold createSample. log_tac. Qed.

(** A collector's computation conserves the metrics. *)
Lemma collector_conserves {A} (k : Kind) (t : Time.t) (m : M Chan.t A)
    (a : Aggregator.t) :
  one_send k t m -> emits (collector_op k t) m -> emits no_unknown_log m ->
  mailbox_inv a ->
  mailbox_inv (state_of (on_chan m a)) /\
  conserves a (trace_of (on_chan m a)) (state_of (on_chan m a)).
Proof.
  intros H1 H2 H3 [Hwf Hm].
  rewrite on_chan_state, on_chan_trace. unfold mailbox_inv, conserves. cbn.
  specialize (H1 (Aggregator.metricsChan a)).
  specialize (H2 (Aggregator.metricsChan a)).
  specialize (H3 (Aggregator.metricsChan a)).
  rewrite (collector_op_received _ _ _ H2). cbn.
  destruct H1 as [[-> ->]|(x & Hr & -> & -> & Hx)].
  - rewrite app_nil_r. split; [split; assumption|].
    repeat split; auto.
  - rewrite send_in_flight, send_dataqsiz by exact Hwf.
    split; [split|repeat split; auto].
    + apply send_wf; assumption.
    + apply Forall_app. split; [exact Hm|]. constructor; [|constructor].
      exists k. apply Hx.
Qed.

Lemma aggregator_select_conserves r now a :
  mailbox_inv a ->
  mailbox_inv (state_of (Start_select r now a)) /\
  conserves a (trace_of (Start_select r now a))
    (state_of (Start_select r now a)).
Proof.
  intros [Hwf Hm].
  destruct (Start_select_cases r now a) as (c' & Hd & Hw & H).
  specialize (Hw Hwf). unfold mailbox_inv, conserves.
  destruct H as [(Hf & -> & ch & [-> | ->])
                |[(m & Hf & -> & ->)|(Hf & -> & ch & ->)]].
  - cbn. rewrite Hf, app_nil_r. split; [split; assumption|].
    repeat split; auto; repeat constructor.
  - cbn. rewrite Hf, app_nil_r. split; [split; assumption|].
    repeat split; auto; repeat constructor. cbn. congruence.
  - rewrite Hf in Hm. apply Forall_cons in Hm as [Hx Hm].
    rewrite storeMetric_chan, (storeMetric_measurement _ _ Hx). cbn.
    rewrite Hf, app_nil_r. split; [split; assumption|].
    repeat split; auto; repeat constructor; auto.
  - rewrite createSample_chan. cbn -[createSample].
    change (sent (Select ch :: ?tr)) with (sent tr).
    change (received (Select ch :: ?tr)) with (received tr).
    rewrite createSample_sent, createSample_received, Hf, app_nil_r.
    split; [split; assumption|].
    repeat split; auto; try constructor; try exact I.
    apply createSample_no_unknown.
Qed.

Lemma aggregator_begin_conserves a :
  mailbox_inv a ->
  mailbox_inv (state_of (Start_begin a)) /\
  conserves a (trace_of (Start_begin a)) (state_of (Start_begin a)).
Proof.
  intros Ha. unfold Start_begin. go_simpl.
  destruct (_ <=? 0); go_simpl; (split; [exact Ha|]).
  - apply conserves_refl.
  - unfold conserves. cbn. rewrite app_nil_r.
    repeat split; repeat constructor; cbn; congruence.
Qed.

Lemma run_conserves (ss : list Step) (p : Process) :
  mailbox_inv (aggregator p) ->
  mailbox_inv (aggregator (run ss p).1) /\
  conserves (aggregator p) (run ss p).2 (aggregator (run ss p).1).
Proof.
  apply run_rel.
  - apply conserves_refl.
  - apply conserves_trans.
  - apply aggregator_begin_conserves.
  - apply aggregator_select_conserves.
  - intros k i cy a Ha. apply (collector_conserves k (now cy)); auto.
    + apply worker_begin_one_send.
    + apply worker_begin_ops.
    + apply worker_begin_no_unknown.
  - intros k r cy a Ha. apply (collector_conserves k (now cy)); auto.
    + apply worker_select_one_send.
    + apply worker_select_ops.
    + apply worker_select_no_unknown.
Qed.

Lemma main_mailbox (ParseDuration : string -> option Duration)
    (env : gmap string string) (p : Process) :
  main ParseDuration env = Some p ->
  mailbox_inv (aggregator p) /\
  in_flight (Aggregator.metricsChan (aggregator p)) = [] /\
  Chan.dataqsiz (Aggregator.metricsChan (aggregator p)) =
    bufferSize (settings ParseDuration env) /\
  0 <= bufferSize (settings ParseDuration env).
Proof.
  unfold main, NewAggregator, Chan.make.
  destruct (bufferSize _ <? 0) eqn:E; [discriminate|].
  intros [= <-]. apply Z.ltb_ge in E. cbn.
  repeat split; try constructor; try exact E; cbn; try lia; discriminate.
Qed.

(** X3. In every execution of the process [main] starts, the metrics the
    aggregator has received are, in order and each exactly once, the
    first of the metrics the collectors have sent; those sent and not yet
    received are exactly what the mailbox holds. *)
Theorem metrics_received_once_in_order
    (ParseDuration : string -> option Duration) (env : gmap string string)
    (p : Process) (ss : list Step) :
  main ParseDuration env = Some p ->
  let tr := (run ss p).2 in
  let c := Aggregator.metricsChan (aggregator (run ss p).1) in
  sent tr = received tr ++ in_flight c /\
  received tr `prefix_of` sent tr.
Proof.
  intros Hm. cbv zeta.
  destruct (main_mailbox _ _ _ Hm) as (Hinv & H0 & _).
  destruct (run_conserves ss p Hinv) as (_ & H & _).
  rewrite H0 in H. cbn in H. rewrite H. split; [reflexivity|].
  eexists. reflexivity.
Qed.

Lemma metrics_received_once_in_order_witness :
  exists p,
    main (fun _ => None) ∅ = Some p /\
    length (sent (run demo_schedule p).2) = 3%nat /\
    length (received (run demo_schedule p).2) = 3%nat /\
    received (run demo_schedule p).2 `prefix_of` sent (run demo_schedule p).2.
Proof.
  eexists. split; [reflexivity|].
  split; [vm_compute; reflexivity|]. split; [vm_compute; reflexivity|].
  refine (proj2 (metrics_received_once_in_order (fun _ => None) ∅ _
                   demo_schedule _)).
  reflexivity.
Defined.

(** X4. In every execution of the process [main] starts, the mailbox
    keeps the capacity read from [BUFFER_SIZE], its buffer never holds
    more metrics than that, and at most one more metric is outstanding:
    the one handed directly to the woken aggregator. *)
Theorem mailbox_within_capacity
    (ParseDuration : string -> option Duration) (env : gmap string string)
    (p : Process) (ss : list Step) :
  main ParseDuration env = Some p ->
  let c := Aggregator.metricsChan (aggregator (run ss p).1) in
  let size := bufferSize (settings ParseDuration env) in
  Chan.dataqsiz c = size /\
  0 <= Chan.qcount c <= size /\
  Z.of_nat (length (in_flight c)) <= size + 1.
Proof.
  intros Hm. cbv zeta.
  destruct (main_mailbox _ _ _ Hm) as (Hinv & _ & Hsz & _).
  destruct (run_conserves ss p Hinv) as ([(H0 & H1 & _) _] & _ & Hd & _).
  rewrite Hd, Hsz in *. split; [reflexivity|].
  unfold Chan.qcount, in_flight in *.
  destruct (Chan.recvq _); cbn [length]; lia.
Qed.

Lemma mailbox_within_capacity_witness :
  exists p,
    main (fun _ => None) (<["BUFFER_SIZE" := "2"]> ∅) = Some p /\
    Chan.dataqsiz (Aggregator.metricsChan
                     (aggregator (run demo_schedule p).1)) = 2 /\
    Chan.qcount (Aggregator.metricsChan
                   (aggregator (run demo_schedule p).1)) <= 2.
Proof.
  eexists. split; [reflexivity|].
  pose proof (mailbox_within_capacity (fun _ => None)
                (<["BUFFER_SIZE" := "2"]> ∅) _ demo_schedule eq_refl) as H.
  cbv zeta in H. destruct H as (H1 & [_ H2] & _).
  split; [exact H1|exact H2].
Defined.

(** X5. In every execution of the process [main] starts, every metric the
    aggregator receives is a Measurement of one of the four kinds, so
    [storeMetric] never reaches its [default] branch: no metric is ever
    reported as of unknown type, and none is discarded for a payload of
    the wrong type. *)
Theorem no_unknown_metric_type
    (ParseDuration : string -> option Duration) (env : gmap string string)
    (p : Process) (ss : list Step) :
  main ParseDuration env = Some p ->
  Forall is_measurement (received (run ss p).2) /\
  Forall no_unknown_log (run ss p).2 /\
  (forall m a, m ∈ received (run ss p).2 ->
     exists k, slot k (state_of (storeMetric m a)) = Some (Metric.Data m)).
Proof.
  intros Hm.
  destruct (main_mailbox _ _ _ Hm) as (Hinv & _).
  destruct (run_conserves ss p Hinv) as (_ & _ & _ & H1 & H2).
  split; [exact H1|]. split; [exact H2|].
  intros m a Hin. rewrite Forall_forall in H1.
  destruct (H1 m Hin) as [k Hk]. exists k.
  rewrite storeMetric_slot, Hk. reflexivity.
Qed.

Lemma no_unknown_metric_type_witness :
  exists p,
    main (fun _ => None) ∅ = Some p /\
    Forall no_unknown_log (run demo_schedule p).2.
Proof.
  eexists. split; [reflexivity|].
  refine (proj1 (proj2 (no_unknown_metric_type (fun _ => None) ∅ _
                          demo_schedule _))).
  reflexivity.
Defined.

(** ** What is published *)

Lemma prom_updates_app t1 t2 :
  prom_updates (t1 ++ t2) = prom_updates t1 ++ prom_updates t2.
Proof. apply omap_app. Qed.

Lemma stores_last_refl a : stores_last a [] a.
Proof. split; reflexivity. Qed.

Lemma stores_last_trans a1 t1 a2 t2 a3 :
  stores_last a1 t1 a2 -> stores_last a2 t2 a3 ->
  stores_last a1 (t1 ++ t2) a3.
Proof.
  intros [H1 H2] [H3 H4]. unfold stores_last.
  rewrite published_app, prom_updates_app, last_app, H2, H4, H3, H1.
  split; [|reflexivity]. destruct (last (published t2)); reflexivity.
Qed.

Lemma collector_op_quiet k t tr :
  Forall (collector_op k t) tr ->
  published tr = [] /\ prom_updates tr = [] /\ received tr = [].
Proof.
  induction 1 as [|o tr Ho _ IH]; [auto|].
  destruct o; cbn in *; try exact IH; contradiction.
Qed.

Lemma collector_stores_last {A} (k : Kind) (t : Time.t) (m : M Chan.t A)
    (a : Aggregator.t) :
  emits (collector_op k t) m ->
  stores_last a (trace_of (on_chan m a)) (state_of (on_chan m a)).
Proof.
  intros H. rewrite on_chan_state, on_chan_trace.
  destruct (collector_op_quiet _ _ _ (H (Aggregator.metricsChan a)))
    as (H1 & H2 & _).
  unfold stores_last. rewrite H1, H2. split; reflexivity.
Qed.

Lemma storeMetric_prom m : emits (fun o => prom_updates [o] = []) (storeMetric m).
Proof. unfold storeMetric. emits_tac. Qed.

Lemma prom_updates_none tr :
  Forall (fun o => prom_updates [o] = []) tr -> prom_updates tr = [].
Proof.
  induction 1 as [|o tr Ho _ IH]; [reflexivity|].
  change (o :: tr) with ([o] ++ tr). rewrite prom_updates_app, Ho, IH.
  reflexivity.
Qed.

Lemma createSample_stores now a :
  exists s,
    published (trace_of (createSample now a)) = [s] /\
    prom_updates (trace_of (createSample now a)) = [s] /\
    Aggregator.latestSample (state_of (createSample now a)) = s /\
    Sample.Timestamp s = now /\
    forall k, sample_payload k s = default (zero_payload k) (slot k a).
Proof.
  unfold createSample, bind, emit, get, modify. cbn.
  eexists. repeat split.
  - destruct (Aggregator.currentCPU a), (Aggregator.currentMemory a),
      (Aggregator.currentDisk a), (Aggregator.currentNetwork a); reflexivity.
  - intros k. unfold slot.
    destruct k, (Aggregator.currentCPU a), (Aggregator.currentMemory a),
      (Aggregator.currentDisk a), (Aggregator.currentNetwork a); reflexivity.
Qed.

Lemma aggregator_select_stores_last r now a :
  stores_last a (trace_of (Start_select r now a))
    (state_of (Start_select r now a)).
Proof.
  destruct (Start_select_cases r now a) as (c' & _ & _ & H).
  unfold stores_last.
  destruct H as [(_ & -> & ch & [-> | ->])
                |[(m & _ & -> & ->)|(_ & -> & ch & ->)]].
  - split; reflexivity.
  - split; reflexivity.
  - rewrite storeMetric_latestSample.
    change (published (Select ?c :: Recv m :: ?tr)) with (published tr).
    change (prom_updates (Select ?c :: Recv m :: ?tr)) with (prom_updates tr).
    rewrite (not_publish_published _ (storeMetric_quiet m _)),
      (prom_updates_none _ (storeMetric_prom m _)).
    split; reflexivity.
  - destruct (createSample_stores now (Aggregator.with_metricsChan c' a))
      as (s & H1 & H2 & H3 & _).
    change (published (Select ?c :: ?tr)) with (published tr).
    change (prom_updates (Select ?c :: ?tr)) with (prom_updates tr).
    rewrite H1, H2, H3. split; reflexivity.
Qed.

Lemma aggregator_begin_stores_last a :
  stores_last a (trace_of (Start_begin a)) (state_of (Start_begin a)).
Proof.
  unfold Start_begin. go_simpl. destruct (_ <=? 0); split; reflexivity.
Qed.

Lemma run_stores_last (ss : list Step) (p : Process) :
  stores_last (aggregator p) (run ss p).2 (aggregator (run ss p).1).
Proof.
  apply (run_rel (fun _ => True) stores_last); auto.
  - apply stores_last_refl.
  - apply stores_last_trans.
  - intros a _. split; [exact I|apply aggregator_begin_stores_last].
  - intros r now a _. split; [exact I|apply aggregator_select_stores_last].
  - intros k i cy a _. split; [exact I|].
    apply (collector_stores_last k (now cy)), worker_begin_ops.
  - intros k r cy a _. split; [exact I|].
    apply (collector_stores_last k (now cy)), worker_select_ops.
Qed.

(** X6. At any point of any execution, [GetLatestSample] returns the
    sample published last, or the sample stored at the start when none
    has been published since. *)
Theorem GetLatestSample_is_last_published (p : Process) (ss : list Step) :
  GetLatestSample (aggregator (run ss p).1) =
    default (GetLatestSample (aggregator p)) (last (published (run ss p).2)).
Proof. apply run_stores_last. Qed.

(** X7. Along any execution, the exporter is passed exactly the samples
    that are published, in the order of their publication. *)
Theorem exporter_sees_published_samples (p : Process) (ss : list Step) :
  prom_updates (run ss p).2 = published (run ss p).2.
Proof. apply run_stores_last. Qed.

(** ** What a published sample holds *)

Lemma slot_after_cons k m l cur :
  slot_after k (m :: l) cur = slot_after k l (slot_after k [m] cur).
Proof. apply (slot_after_app k [m] l). Qed.

Lemma publishes_current_app k cur t1 t2 :
  publishes_current k cur (t1 ++ t2) <->
  publishes_current k cur t1 /\
  publishes_current k (slot_after k (received t1) cur) t2.
Proof.
  revert cur. induction t1 as [|o t1 IH]; intros cur.
  - cbn. unfold slot_after. cbn. tauto.
  - destruct o; cbn [app publishes_current];
      try (rewrite IH; reflexivity).
    + change (received (Recv m :: t1)) with (m :: received t1).
      rewrite (slot_after_cons k m (received t1)). apply IH.
    + rewrite IH. change (received (Publish s :: t1)) with (received t1).
      tauto.
Qed.

Lemma publishes_current_quiet k cur tr :
  published tr = [] -> received tr = [] -> publishes_current k cur tr.
Proof.
  revert cur. induction tr as [|o tr IH]; intros cur Hp Hr; [exact I|].
  destruct o; cbn in *; try discriminate; auto.
Qed.

Lemma tracks_refl k a : tracks k a [] a.
Proof. split; [reflexivity|exact I]. Qed.

Lemma tracks_trans k a1 t1 a2 t2 a3 :
  tracks k a1 t1 a2 -> tracks k a2 t2 a3 -> tracks k a1 (t1 ++ t2) a3.
Proof.
  intros [H1 H2] [H3 H4]. unfold tracks.
  rewrite received_app, slot_after_app, publishes_current_app, <- H1.
  auto.
Qed.

Lemma collector_tracks {A} (k k' : Kind) (t : Time.t) (m : M Chan.t A)
    (a : Aggregator.t) :
  emits (collector_op k' t) m ->
  tracks k a (trace_of (on_chan m a)) (state_of (on_chan m a)).
Proof.
  intros H. unfold tracks. rewrite on_chan_slot, on_chan_trace.
  destruct (collector_op_quiet _ _ _ (H (Aggregator.metricsChan a)))
    as (H1 & _ & H3).
  rewrite H3. split; [reflexivity|].
  apply publishes_current_quiet; assumption.
Qed.

Lemma createSample_trace now a :
  exists s rest,
    trace_of (createSample now a) = Now :: Publish s :: rest /\
    published rest = [] /\ received rest = [] /\
    forall k, sample_payload k s = default (zero_payload k) (slot k a).
Proof.
  unfold createSample, bind, emit, get, modify. cbn.
  eexists. eexists. split; [reflexivity|]. repeat split.
  intros k. unfold slot.
  destruct k, (Aggregator.currentCPU a), (Aggregator.currentMemory a),
    (Aggregator.currentDisk a), (Aggregator.currentNetwork a); reflexivity.
Qed.

Lemma aggregator_select_tracks k r now a :
  tracks k a (trace_of (Start_select r now a))
    (state_of (Start_select r now a)).
Proof.
  destruct (Start_select_cases r now a) as (c' & _ & _ & H).
  unfold tracks.
  destruct H as [(_ & -> & ch & [-> | ->])
                |[(m & _ & -> & ->)|(_ & -> & ch & ->)]].
  - rewrite with_metricsChan_slot. split; [reflexivity|exact I].
  - rewrite with_metricsChan_slot. split; [reflexivity|exact I].
  - rewrite storeMetric_slot, with_metricsChan_slot.
    change (received (Select ?c :: Recv m :: ?tr)) with (m :: received tr).
    rewrite (not_recv_received _ (storeMetric_no_recv m _)).
    split; [unfold slot_after; cbn; destruct (payload_of k m); reflexivity|].
    cbn [publishes_current].
    apply publishes_current_quiet.
    + apply not_publish_published, storeMetric_quiet.
    + apply not_recv_received, storeMetric_no_recv.
  - rewrite createSample_slot, with_metricsChan_slot.
    change (received (Select ?c :: ?tr)) with (received tr).
    rewrite createSample_received. split; [reflexivity|].
    destruct (createSample_trace now (Aggregator.with_metricsChan c' a))
      as (s & rest & -> & Hp & Hr & Hs).
    cbn [publishes_current]. split.
    + rewrite Hs, with_metricsChan_slot. reflexivity.
    + apply publishes_current_quiet; assumption.
Qed.

Lemma aggregator_begin_tracks k a :
  tracks k a (trace_of (Start_begin a)) (state_of (Start_begin a)).
Proof.
  unfold Start_begin. go_simpl.
  destruct (_ <=? 0); split; first [reflexivity|exact I].
Qed.

Lemma run_tracks (k : Kind) (ss : list Step) (p : Process) :
  tracks k (aggregator p) (run ss p).2 (aggregator (run ss p).1).
Proof.
  apply (run_rel (fun _ => True) (tracks k)); auto.
  - apply tracks_refl.
  - apply tracks_trans.
  - intros a _. split; [exact I|apply aggregator_begin_tracks].
  - intros r now a _. split; [exact I|apply aggregator_select_tracks].
  - intros k' i cy a _. split; [exact I|].
    apply (collector_tracks k k' (now cy)), worker_begin_ops.
  - intros k' r cy a _. split; [exact I|].
    apply (collector_tracks k k' (now cy)), worker_select_ops.
Qed.

(** X8. Along any execution, a published sample holds, for each kind, the
    payload of the last Measurement of that kind the aggregator had
    received when it built the sample; if it had received none, what the
    slot held at the start, and the zero value if the slot was empty. *)
Theorem published_sample_holds_last_received (p : Process) (ss : list Step)
    (k : Kind) (i : nat) (s : Sample.t) :
  (run ss p).2 !! i = Some (Publish s) ->
  sample_payload k s =
    default (zero_payload k)
      (slot_after k (received (take i (run ss p).2))
         (slot k (aggregator p))).
Proof.
  intros Hi. destruct (run_tracks k ss p) as [_ H].
  rewrite <- (take_drop_middle _ _ _ Hi) in H.
  apply publishes_current_app in H as [_ H]. cbn in H. apply H.
Qed.

Lemma published_sample_holds_last_received_witness :
  exists p s,
    main (fun _ => None) ∅ = Some p /\
    (run demo_schedule p).2 !! 28%nat = Some (Publish s) /\
    sample_payload KMemory s =
      AnyMemory (MemoryMetric.mk 8 4 4 float_zero 2 1 float_zero) /\
    sample_payload KNetwork s = AnyNetwork NetworkMetric.zero.
Proof.
  eexists. eexists. split; [reflexivity|].
  match goal with |- (run _ ?p).2 !! _ = _ /\ _ => set (p0 := p) end.
  split; [vm_compute; reflexivity|].
  split.
  - etransitivity.
    + refine (published_sample_holds_last_received p0 demo_schedule KMemory
                28 _ _). vm_compute. reflexivity.
    + vm_compute. reflexivity.
  - etransitivity.
    + refine (published_sample_holds_last_received p0 demo_schedule KNetwork
                28 _ _). vm_compute. reflexivity.
    + vm_compute. reflexivity.
Defined.

(** ** Panics and empty probe results *)

Lemma run_crashed (p : Process) (ss : list Step) :
  crashed p = true -> run ss p = (p, []).
Proof.
  intros H. induction ss as [|s ss IH]; [reflexivity|].
  cbn [run]. unfold step. rewrite H, IH. reflexivity.
Qed.

Lemma getEnvDuration_parsed (PD : string -> option Duration)
    (env : gmap string string) (key v : string) (d dflt : Duration) :
  env !! key = Some v -> v <> "" -> PD v = Some d ->
  getEnvDuration PD env key dflt = d.
Proof.
  intros He Hv Hd. unfold getEnvDuration, Getenv. rewrite He. cbn.
  destruct (String.eqb v "") eqn:E; [apply String.eqb_eq in E; contradiction|].
  cbn. rewrite Hd. reflexivity.
Qed.

(** X9. A duration that parses is used as it is: when the variable that
    gives a goroutine's interval holds a duration that is zero or
    negative, [main] starts as usual, but a goroutine that creates its
    ticker from it panics when it is the first to run, and the goroutines
    do nothing at all in that execution: their trace stays empty, with no
    probe, no log line and no sample. *)
Theorem nonpositive_interval_crashes_at_start
    (ParseDuration : string -> option Duration) (env : gmap string string)
    (v : string) (d : Duration) (p : Process) (s : Step) (ss : list Step) :
  env !! interval_key (goroutine_of s) = Some v ->
  v <> "" ->
  ParseDuration v = Some d ->
  d <= 0 ->
  main ParseDuration env = Some p ->
  crashed (run (s :: ss) p).1 = true /\ (run (s :: ss) p).2 = [].
Proof.
  intros He Hv Hd Hle Hm. apply Z.leb_le in Hle.
  assert (Hs : crashed (step s p).1 = true /\ (step s p).2 = []).
  { unfold main, NewAggregator in Hm.
    destruct (Chan.make _) as [c|]; [|discriminate]. injection Hm as <-.
    unfold settings. cbn [sampleInterval collectorInterval].
    destruct s; cbn [goroutine_of interval_key] in He;
      rewrite (getEnvDuration_parsed _ _ _ _ d _ He Hv Hd);
      unfold step, crashed; cbn;
      unfold Start_begin, CPUCollector.Start_begin,
        MemoryCollector.Start_begin, DiskCollector.Start_begin,
        NetworkCollector.Start_begin, poll_begin, on_chan, bind, get, ret;
      cbn; rewrite Hle; cbn; split; reflexivity. }
  destruct Hs as [Hc Ht]. rewrite run_cons. cbn [fst snd].
  rewrite (run_crashed _ ss Hc). cbn [fst snd]. rewrite Ht.
  split; [exact Hc|reflexivity].
Qed.

Lemma nonpositive_interval_crashes_at_start_witness :
  let ParseDuration :=
    fun s : string => if String.eqb s "0s" then Some 0 else None in
  let env : gmap string string := <["COLLECTOR_INTERVAL" := "0s"]> ∅ in
  let s := StepDisk (mkReady false true 0)
             (mkCycle
                (DiskCollector.mkProbes
                   (Ok (disk.mkUsageStat 100 60 40 float_zero)) (Ok ∅))
                (Time.mk 10 200) false 0) in
  exists p,
    main ParseDuration env = Some p /\
    crashed (run (s :: demo_schedule) p).1 = true /\
    (run (s :: demo_schedule) p).2 = [].
Proof.
  intros PD env s. eexists. split; [reflexivity|].
  apply (nonpositive_interval_crashes_at_start PD env "0s" 0).
  - reflexivity.
  - discriminate.
  - reflexivity.
  - lia.
  - reflexivity.
Defined.

(** X10. The CPU collector indexes the result of [cpu.Percent] without
    looking at its length: in a cycle where the overall call returns an
    empty slice and no error, the collector makes its three probe calls
    and panics at [overallPercent[0]].  Nothing is offered to the
    mailbox, the aggregator is left as it was, and the process has ended:
    whatever is scheduled afterwards does nothing. *)
Theorem CPU_empty_percent_slice_crashes (p : Process) (r : Ready)
    (cy : Cycle CPUCollector.Probes) (overall perCore : slice float64)
    (ss : list Step) :
  crashed p = false ->
  cpuSt p = Some Running ->
  takes_tick r ->
  CPUCollector.Percent_overall (probes cy) = Ok overall ->
  length (default [] overall) = 0%nat ->
  CPUCollector.Percent_percore (probes cy) = Ok perCore ->
  let res := run (StepCPU r cy :: ss) p in
  crashed res.1 = true /\
  aggregator res.1 = aggregator p /\
  probe_calls res.2 = [cpu_Percent false; cpu_Percent true; load_Avg] /\
  offers res.2 = [] /\
  published res.2 = [].
Proof.
  intros Hc Hst Hr Ho Hlen Hp. cbv zeta.
  assert (Hs : crashed (step (StepCPU r cy) p).1 = true /\
               aggregator (step (StepCPU r cy) p).1 = aggregator p /\
               probe_calls (step (StepCPU r cy) p).2 =
                 [cpu_Percent false; cpu_Percent true; load_Avg] /\
               offers (step (StepCPU r cy) p).2 = [] /\
               published (step (StepCPU r cy) p).2 = []).
  { unfold step. rewrite Hc, Hst. unfold takes_tick in Hr.
    unfold advance, on_chan, CPUCollector.Start_select,
      CPUCollector.collectCPUMetrics, bind, emit, ret.
    rewrite Hr, Ho, Hp.
    assert (Hcr : forall a b c d e f g h i,
      crashed (mkProcess a b c d e f (Some Panicked) g h i) = true).
    { intros. unfold crashed. cbn. destruct f as [[]|]; reflexivity. }
    destruct overall as [[|x l]|]; [|discriminate|];
      destruct (CPUCollector.Avg (probes cy)); cbn;
      rewrite with_metricsChan_id; repeat split; apply Hcr. }
  destruct Hs as (H1 & H2 & H3 & H4 & H5).
  rewrite run_cons. cbn [fst snd]. rewrite (run_crashed _ ss H1).
  cbn [fst snd]. rewrite app_nil_r. auto.
Qed.

Lemma CPU_empty_percent_slice_crashes_witness :
  let cy :=
    mkCycle
      (CPUCollector.mkProbes (Ok (Some [])) (Ok (Some [float_zero]))
         (Ok (load.mkAvgStat float_zero float_zero float_zero)))
      (Time.mk 12 0) false 0 in
  let tick := mkReady false true 0 in
  exists p0 p,
    main (fun _ => None) ∅ = Some p0 /\
    p = (run [StepCPU tick cy] p0).1 /\
    crashed (run (StepCPU tick cy :: demo_schedule) p).1 = true /\
    published (run (StepCPU tick cy :: demo_schedule) p).2 = [].
Proof.
  intros cy tick. eexists. eexists. split; [reflexivity|].
  split; [reflexivity|].
  match goal with |- crashed (run _ ?p).1 = _ /\ _ => set (p1 := p) end.
  refine ((fun H => conj (proj1 H) (proj2 (proj2 (proj2 (proj2 H)))))
            (CPU_empty_percent_slice_crashes p1 tick cy (Some [])
               (Some [float_zero]) demo_schedule _ _ _ _ _ _));
    reflexivity.
Defined.

(** X11. The Network collector does look: when [net.IOCounters] returns
    no error and no entry, the cycle logs that no interface was found,
    offers nothing, leaves the mailbox as it was, and the collector goes
    on with its loop; the same holds of the collection made before the
    loop. *)
Theorem Network_no_interface_skips_cycle (r : Ready)
    (cy : Cycle NetworkCollector.Probes) (c : Chan.t)
    (n : NetworkCollector.t) (counters : slice net.IOCountersStat) :
  NetworkCollector.IOCounters (probes cy) = Ok counters ->
  length (default [] counters) = 0%nat ->
  let skipped (res : Status * Chan.t * list Op) :=
    result_of res = Running /\ state_of res = c /\
    offers (trace_of res) = [] /\
    probe_calls (trace_of res) = [net_IOCounters] /\
    In (Log "No network interfaces found" []) (trace_of res) in
  (takes_tick r -> skipped (NetworkCollector.Start_select r cy c)) /\
  (0 < NetworkCollector.interval n ->
   skipped (NetworkCollector.Start_begin n cy c)).
Proof.
  intros Hp Hlen. cbv zeta. split.
  - intros Hr. unfold takes_tick in Hr.
    unfold NetworkCollector.Start_select, poll_select,
      NetworkCollector.collectAndSend, bind, emit, ret.
    rewrite Hr, Hp.
    destruct counters as [[|x l]|]; [|discriminate|]; cbn; tauto.
  - intros Hi. apply Z.leb_gt in Hi.
    unfold NetworkCollector.Start_begin, poll_begin,
      NetworkCollector.collectAndSend, bind, emit, ret.
    rewrite Hi, Hp.
    destruct counters as [[|x l]|]; [|discriminate|]; cbn; tauto.
Qed.

Lemma Network_no_interface_skips_cycle_witness :
  let cy :=
    mkCycle (NetworkCollector.mkProbes (Ok None)) (Time.mk 12 0) false 0 in
  let c := Chan.mk 2 [] RecvIdle in
  result_of (NetworkCollector.Start_select (mkReady false true 0) cy c)
    = Running /\
  state_of (NetworkCollector.Start_begin (NetworkCollector.mk Second) cy c)
    = c.
Proof.
  intros cy c.
  pose proof (Network_no_interface_skips_cycle (mkReady false true 0) cy c
                (NetworkCollector.mk Second) None eq_refl eq_refl) as [H1 H2].
  split.
  - apply H1. reflexivity.
  - apply H2. reflexivity.
Defined.

(** ** A cycle whose probes succeed *)

Lemma go_select_send (b : bool) (pick : nat) :
  go_select [b; false] true pick = if b then Case 0 else Default.
Proof.
  destruct b; unfold go_select; cbn [ready_cases length]; [|reflexivity].
  rewrite Nat.mod_1_r. reflexivity.
Qed.

Ltac hands_off_tac c :=
  destruct (Chan.send_ready c) eqn:E;
  [ rewrite (trySend_ready _ _ E) | rewrite (trySend_not_ready _ _ E) ];
  cbn; (split; [reflexivity|]); eexists; (split; [|
    (split; [reflexivity|]); (split; [reflexivity|]);
    try (intros H; repeat (destruct H as [H|H]; try discriminate H);
         exact H);
    auto 10 ]); split; reflexivity.

Lemma poll_collect_hands_off (k : Kind) (t : Time.t) (p : Probes k)
    (c : Chan.t) :
  k <> KCPU ->
  collects k p = true ->
  let collectAndSend :=
    match k return Probes k -> Time.t -> M Chan.t unit with
    | KCPU => fun _ _ => ret tt
    | KMemory => MemoryCollector.collectAndSend
    | KDisk => DiskCollector.collectAndSend
    | KNetwork => NetworkCollector.collectAndSend
    end in
  hands_off k t c (Running, state_of (collectAndSend p t c),
                   trace_of (collectAndSend p t c)).
Proof.
  intros Hk Hc. cbv zeta. unfold hands_off.
  destruct k; [congruence| | |]; cbn in p, Hc |- *.
  - unfold MemoryCollector.collectAndSend, bind, emit, ret.
    destruct (MemoryCollector.VirtualMemory p); [|discriminate].
    destruct (MemoryCollector.SwapMemory p); [|discriminate].
    hands_off_tac c.
  - unfold DiskCollector.collectAndSend, bind, emit, ret.
    destruct (DiskCollector.Usage p); [|discriminate].
    destruct (DiskCollector.IOCounters p); [|discriminate].
    hands_off_tac c.
  - unfold NetworkCollector.collectAndSend, bind, emit, ret.
    destruct (NetworkCollector.IOCounters p) as [[[|x l]|]|];
      try discriminate.
    hands_off_tac c.
Qed.

Lemma hands_off_ext (k : Kind) (t : Time.t) (c st : Chan.t)
    (tr tr' : list Op) :
  hands_off k t c (Running, st, tr) ->
  offers tr' = offers tr ->
  (In (Log (drop_log k) []) tr' <-> In (Log (drop_log k) []) tr) ->
  hands_off k t c (Running, st, tr').
Proof.
  unfold hands_off. cbn [result_of state_of trace_of fst snd].
  intros [_ (m & Hm & H)] Ho Hl.
  split; [reflexivity|]. exists m. split; [exact Hm|].
  rewrite Ho. destruct (Chan.send_ready c); tauto.
Qed.

Lemma poll_select_tick {P} (stopping : string)
    (collectAndSend : P -> Time.t -> M Chan.t unit) (r : Ready)
    (cy : Cycle P) (c : Chan.t) :
  takes_tick r ->
  poll_select stopping collectAndSend r cy c =
    (Running, state_of (collectAndSend (probes cy) (now cy) c),
     Select (Case 1) ::
       trace_of (collectAndSend (probes cy) (now cy) c) ++ []).
Proof.
  intros Hr. unfold takes_tick in Hr. unfold poll_select, bind, emit, ret.
  rewrite Hr. destruct (collectAndSend _ _ c) as [[u st] tr]. reflexivity.
Qed.

Lemma poll_begin_positive {P} (interval : Duration)
    (collectAndSend : P -> Time.t -> M Chan.t unit) (cy : Cycle P)
    (c : Chan.t) :
  0 < interval ->
  poll_begin interval collectAndSend cy c =
    (Running, state_of (collectAndSend (probes cy) (now cy) c),
     NewTicker interval ::
       trace_of (collectAndSend (probes cy) (now cy) c) ++ []).
Proof.
  intros Hi. apply Z.leb_gt in Hi. unfold poll_begin, bind, emit, ret.
  rewrite Hi. destruct (collectAndSend _ _ c) as [[u st] tr]. reflexivity.
Qed.

Lemma CPU_select_hands_off (r : Ready) (cy : Cycle CPUCollector.Probes)
    (c : Chan.t) :
  takes_tick r ->
  collects KCPU (probes cy) = true ->
  ctxDoneAtSend cy = false ->
  hands_off KCPU (now cy) c (CPUCollector.Start_select r cy c).
Proof.
  intros Hr Hc Hd. unfold takes_tick in Hr.
  unfold CPUCollector.Start_select, CPUCollector.collectCPUMetrics,
    bind, emit, ret, get, put.
  rewrite Hr. cbn in Hc.
  destruct (CPUCollector.Percent_overall (probes cy)) as [[[|f l]|]|];
    try discriminate;
    destruct (CPUCollector.Percent_percore (probes cy)); try discriminate;
    destruct (CPUCollector.Avg (probes cy)); cbn -[go_select];
    rewrite Hd, go_select_send; unfold hands_off;
    destruct (Chan.send_ready c) eqn:E; cbn;
    (split; [reflexivity|]); eexists; (split; [|
      (split; [reflexivity|]); (split; [reflexivity|]);
      try (intros H; repeat (destruct H as [H|H]; try discriminate H);
           exact H);
      auto 10 ]); split; reflexivity.
Qed.

(** X12. A cycle whose probes succeed offers the mailbox exactly one
    metric, a Measurement of the collector's kind stamped with the
    cycle's clock reading.  If the mailbox is ready to take it, it is
    sent and no drop is logged; if not, the mailbox is left as it was and
    the collector logs the drop.  Either way the collector goes on with
    its loop (for the CPU collector: unless the context is cancelled at
    the hand-off).  The Memory, Disk and Network collectors do the same
    once before their loop, before any [select]. *)
Theorem successful_cycle_hands_off_once (k : Kind) (r : Ready)
    (cy : Cycle (Probes k)) (c : Chan.t) (interval : Duration) :
  collects k (probes cy) = true ->
  (takes_tick r ->
   (k = KCPU -> ctxDoneAtSend cy = false) ->
   hands_off k (now cy) c (worker_select k r cy c)) /\
  (0 < interval ->
   k <> KCPU ->
   hands_off k (now cy) c (worker_begin k interval cy c) /\
   Forall not_select (trace_of (worker_begin k interval cy c))).
Proof.
  intros Hc. split.
  - intros Hr Hd. destruct k.
    + apply CPU_select_hands_off; auto.
    + cbn [worker_select]. unfold MemoryCollector.Start_select.
      rewrite (poll_select_tick _ _ _ _ _ Hr).
      eapply hands_off_ext;
        [apply (poll_collect_hands_off KMemory); [discriminate|exact Hc]
        |rewrite app_nil_r; reflexivity
        |rewrite app_nil_r; cbn; split; [intros [H|H]; [discriminate|exact H]
                                        |auto]].
    + cbn [worker_select]. unfold DiskCollector.Start_select.
      rewrite (poll_select_tick _ _ _ _ _ Hr).
      eapply hands_off_ext;
        [apply (poll_collect_hands_off KDisk); [discriminate|exact Hc]
        |rewrite app_nil_r; reflexivity
        |rewrite app_nil_r; cbn; split; [intros [H|H]; [discriminate|exact H]
                                        |auto]].
    + cbn [worker_select]. unfold NetworkCollector.Start_select.
      rewrite (poll_select_tick _ _ _ _ _ Hr).
      eapply hands_off_ext;
        [apply (poll_collect_hands_off KNetwork); [discriminate|exact Hc]
        |rewrite app_nil_r; reflexivity
        |rewrite app_nil_r; cbn; split; [intros [H|H]; [discriminate|exact H]
                                        |auto]].
  - intros Hi Hk. split;
      [|apply (first_collection_is_immediate k interval cy c Hk Hi)].
    destruct k; [congruence| | |]; cbn [worker_begin].
    + unfold MemoryCollector.Start_begin. cbn [MemoryCollector.interval].
      rewrite (poll_begin_positive _ _ _ _ Hi).
      eapply hands_off_ext;
        [apply (poll_collect_hands_off KMemory); [discriminate|exact Hc]
        |rewrite app_nil_r; reflexivity
        |rewrite app_nil_r; cbn; split; [intros [H|H]; [discriminate|exact H]
                                        |auto]].
    + unfold DiskCollector.Start_begin. cbn [DiskCollector.interval].
      rewrite (poll_begin_positive _ _ _ _ Hi).
      eapply hands_off_ext;
        [apply (poll_collect_hands_off KDisk); [discriminate|exact Hc]
        |rewrite app_nil_r; reflexivity
        |rewrite app_nil_r; cbn; split; [intros [H|H]; [discriminate|exact H]
                                        |auto]].
    + unfold NetworkCollector.Start_begin. cbn [NetworkCollector.interval].
      rewrite (poll_begin_positive _ _ _ _ Hi).
      eapply hands_off_ext;
        [apply (poll_collect_hands_off KNetwork); [discriminate|exact Hc]
        |rewrite app_nil_r; reflexivity
        |rewrite app_nil_r; cbn; split; [intros [H|H]; [discriminate|exact H]
                                        |auto]].
Qed.

Lemma successful_cycle_hands_off_once_witness :
  let cy :=
    mkCycle
      (DiskCollector.mkProbes (Ok (disk.mkUsageStat 100 60 40 float_zero))
         (Ok (<["sda" := disk.mkIOCountersStat 1 2 3 4]> ∅)))
      (Time.mk 10 200) false 0 in
  let full := Chan.mk 1 [Metric.zero] RecvIdle in
  hands_off KDisk (Time.mk 10 200) full
    (DiskCollector.Start_select (mkReady false true 0) cy full) /\
  hands_off KDisk (Time.mk 10 200) full
    (DiskCollector.Start_begin (DiskCollector.mk Second) cy full).
Proof.
  intros cy full.
  pose proof (successful_cycle_hands_off_once KDisk (mkReady false true 0)
                cy full Second eq_refl) as [H1 H2].
  split.
  - apply H1; [reflexivity|discriminate].
  - apply H2; [reflexivity|discriminate].
Defined.

(** ** The REST view *)

Lemma main_latestSample (ParseDuration : string -> option Duration)
    (env : gmap string string) (p : Process) :
  main ParseDuration env = Some p ->
  GetLatestSample (aggregator p) = Sample.zero.
Proof.
  unfold main, NewAggregator. destruct (Chan.make _); [|discriminate].
  intros [= <-]. reflexivity.
Qed.

(** X13. At any point of any execution started by [main], the handler of
    the latest-metrics endpoint answers from the sample published last.
    While none has been published, or when the last one carries the zero
    time, it sets the JSON content type, writes status 503 and encodes
    the error object.  Otherwise it writes status 200 and then encodes
    that sample; 200 is the first status written even when the encoder
    fails and the handler goes on to report an error. *)
Theorem MetricsLatestHandler_follows_publication
    (ParseDuration : string -> option Duration) (env : gmap string string)
    (p : Process) (ss : list Step) (encode : Sample.t -> option error) :
  main ParseDuration env = Some p ->
  let resp := MetricsLatestHandler encode (aggregator (run ss p).1) in
  let unavailable :=
    [W_Header_Set "Content-Type" "application/json";
     W_WriteHeader StatusServiceUnavailable;
     W_Encode (JSONError "No metrics data available yet")] in
  match last (published (run ss p).2) with
  | None => resp = unavailable
  | Some s =>
      if Time.IsZero (Sample.Timestamp s) then resp = unavailable
      else
        (exists rest,
           resp = W_Header_Set "Content-Type" "application/json" ::
                  W_WriteHeader StatusOK :: W_Encode (JSONSample s) :: rest) /\
        head (statuses resp) = Some StatusOK
  end.
Proof.
  intros Hm. cbv zeta. unfold MetricsLatestHandler.
  assert (Hg : GetLatestSample (aggregator (run ss p).1) =
               default Sample.zero (last (published (run ss p).2))).
  { rewrite <- (main_latestSample _ _ _ Hm). apply run_stores_last. }
  rewrite Hg. clear Hg.
  destruct (last (published (run ss p).2)) as [s|]; unfold default;
    cbn [from_option id].
  - destruct (Time.IsZero (Sample.Timestamp s)); [reflexivity|].
    split; [eexists; reflexivity|reflexivity].
  - reflexivity.
Qed.

Lemma MetricsLatestHandler_follows_publication_witness :
  exists p,
    main (fun _ => None) ∅ = Some p /\
    head (statuses (MetricsLatestHandler (fun _ => Some (errorString "NaN"))
                      (aggregator (run demo_schedule p).1))) =
      Some StatusOK /\
    MetricsLatestHandler (fun _ => None)
      (aggregator (run (take 5 demo_schedule) p).1) =
      [W_Header_Set "Content-Type" "application/json";
       W_WriteHeader StatusServiceUnavailable;
       W_Encode (JSONError "No metrics data available yet")].
Proof.
  eexists. split; [reflexivity|].
  match goal with |- context [run _ ?p] => set (p0 := p) end.
  assert (Hm : main (fun _ => None) ∅ = Some p0) by reflexivity.
  split.
  - generalize (MetricsLatestHandler_follows_publication _ _ p0
                  demo_schedule (fun _ => Some (errorString "NaN")) Hm).
    cbv zeta.
    destruct (last (published (run demo_schedule p0).2)) as [s|] eqn:E;
      [|vm_compute in E; discriminate E].
    destruct (Time.IsZero (Sample.Timestamp s)) eqn:Z.
    + vm_compute in E. injection E as <-. vm_compute in Z. discriminate Z.
    + intros [_ H]. exact H.
  - generalize (MetricsLatestHandler_follows_publication _ _ p0
                  (take 5 demo_schedule) (fun _ => None) Hm).
    cbv zeta.
    destruct (last (published (run (take 5 demo_schedule) p0).2))
      as [s|] eqn:E; [vm_compute in E; discriminate E|].
    intros H. exact H.
Defined.

(** ** The exporter *)

Lemma core_label_inj (i j : nat) : core_label i = core_label j -> i = j.
Proof.
  unfold core_label. cbn. intros [= H]. exact (pretty_nat_inj _ _ H).
Qed.

Lemma core_label_not_overall (i : nat) : core_label i <> "overall".
Proof. unfold core_label. cbn. discriminate. Qed.

Lemma range_cores_core (l : list float64) (i0 i : nat) (g : GaugeVec) :
  range_cores i0 l g !! core_label i =
    if decide (i0 <= i)%nat
    then match l !! (i - i0)%nat with
         | Some v => Some v
         | None => g !! core_label i
         end
    else g !! core_label i.
Proof.
  revert i0 g. induction l as [|v l IH]; intros i0 g.
  - cbn. destruct (decide _); reflexivity.
  - cbn [range_cores]. rewrite IH. unfold WithLabelValues_Set.
    destruct (decide (S i0 <= i)%nat) as [H|H].
    + rewrite decide_True by lia.
      replace (i - i0)%nat with (S (i - S i0)) by lia. cbn.
      destruct (l !! (i - S i0)%nat); [reflexivity|].
      apply lookup_insert_ne. intros E. apply core_label_inj in E. lia.
    + destruct (decide (i0 <= i)%nat) as [H'|H'].
      * assert (i = i0) as -> by lia. rewrite Nat.sub_diag. cbn.
        apply lookup_insert_eq.
      * apply lookup_insert_ne. intros E. apply core_label_inj in E. lia.
Qed.

Lemma range_cores_other (l : list float64) (i0 : nat) (g : GaugeVec)
    (label : string) :
  (forall j, label <> core_label j) ->
  range_cores i0 l g !! label = g !! label.
Proof.
  intros H. revert i0 g. induction l as [|v l IH]; intros i0 g;
    [reflexivity|].
  cbn [range_cores]. rewrite IH. unfold WithLabelValues_Set.
  apply lookup_insert_ne. intros E. apply (H i0). symmetry. exact E.
Qed.

Lemma range_cores_keeps (l : list float64) (i0 : nat) (g : GaugeVec)
    (label : string) :
  is_Some (g !! label) -> is_Some (range_cores i0 l g !! label).
Proof.
  revert i0 g. induction l as [|v l IH]; intros i0 g H; [exact H|].
  cbn [range_cores]. apply IH. unfold WithLabelValues_Set.
  destruct (decide (core_label i0 = label)) as [<-|Hne].
  - rewrite lookup_insert_eq. eauto.
  - rewrite lookup_insert_ne by exact Hne. exact H.
Qed.

Lemma cpu_usage_after_update (s : Sample.t) (m : Metrics.t)
    (i : nat) (label : string) :
  let perCore := default [] (CPUMetric.PerCorePercent (Sample.CPU s)) in
  let before := Metrics.cpuUsagePercent m in
  let after := Metrics.cpuUsagePercent (UpdateFromSample s m) in
  after !! "overall" = Some (CPUMetric.OverallPercent (Sample.CPU s)) /\
  after !! core_label i =
    match perCore !! i with
    | Some v => Some v
    | None => before !! core_label i
    end /\
  (is_Some (before !! label) -> is_Some (after !! label)).
Proof.
  cbv zeta. unfold UpdateFromSample. cbn [Metrics.cpuUsagePercent].
  split; [|split].
  - rewrite range_cores_other.
    + apply lookup_insert_eq.
    + intros j E. symmetry in E. exact (core_label_not_overall j E).
  - rewrite range_cores_core, decide_True by lia. rewrite Nat.sub_0_r.
    destruct (_ !! i); [reflexivity|].
    apply lookup_insert_ne. intros E. symmetry in E.
    exact (core_label_not_overall i E).
  - intros H. apply range_cores_keeps. unfold WithLabelValues_Set.
    destruct (decide ("overall" = label)) as [<-|Hne].
    + rewrite lookup_insert_eq. eauto.
    + rewrite lookup_insert_ne by exact Hne. exact H.
Qed.

(** X14. After [UpdateFromSample], the CPU usage vector holds the
    sample's overall percentage under the label overall and, for each
    index of the sample's per-core slice, that core's percentage under
    its own label; distinct cores never share a series, and no core
    overwrites the overall one.  The series of a core the sample does not
    list keeps the value it had, and no series ever disappears. *)
Theorem UpdateFromSample_cpu_usage_series (s : Sample.t) (m : Metrics.t)
    (i : nat) (label : string) :
  let perCore := default [] (CPUMetric.PerCorePercent (Sample.CPU s)) in
  let before := Metrics.cpuUsagePercent m in
  let after := Metrics.cpuUsagePercent (UpdateFromSample s m) in
  after !! "overall" = Some (CPUMetric.OverallPercent (Sample.CPU s)) /\
  after !! core_label i =
    match perCore !! i with
    | Some v => Some v
    | None => before !! core_label i
    end /\
  (is_Some (before !! label) -> is_Some (after !! label)).
Proof. apply cpu_usage_after_update. Qed.

Lemma UpdateFromSample_cpu_usage_series_witness :
  let cores (l : list float64) :=
    Sample.mk (Time.mk 1 0) (CPUMetric.mk float_zero (Some l) None)
      MemoryMetric.zero DiskMetric.zero NetworkMetric.zero in
  let before := UpdateFromSample (cores [float_zero; float_zero]) NewMetrics in
  let after := UpdateFromSample (cores [float_zero]) before in
  is_Some (Metrics.cpuUsagePercent after !! core_label 1).
Proof.
  intros cores before after.
  refine (proj2 (proj2 (UpdateFromSample_cpu_usage_series
                          (cores [float_zero]) before 0 (core_label 1))) _).
  vm_compute. eauto.
Defined.


Lemma UpdateFromSample_exposes (s : Sample.t) (m : Metrics.t) :
  exposes (UpdateFromSample s m) s.
Proof.
  unfold exposes. cbv zeta. split; [split|].
  - apply (cpu_usage_after_update s m 0 "").
  - intros i v Hv.
    destruct (cpu_usage_after_update s m i "") as (_ & H & _).
    cbv zeta in H. rewrite H, Hv. reflexivity.
  - unfold UpdateFromSample, WithLabelValues_Set. cbn.
    repeat split; try reflexivity;
      repeat first [apply lookup_insert_eq
                   |rewrite lookup_insert_ne by discriminate].
Qed.

Lemma exporter_after_snoc (l : list Sample.t) (s : Sample.t) (m : Metrics.t) :
  fold_left (fun m s => UpdateFromSample s m) (l ++ [s]) m =
  UpdateFromSample s (fold_left (fun m s => UpdateFromSample s m) l m).
Proof. rewrite fold_left_app. reflexivity. Qed.

Lemma published_take_nil (n : nat) (tr : list Op) :
  published tr = [] -> published (take n tr) = [].
Proof.
  intros H. rewrite <- (take_drop n tr), published_app in H.
  apply app_eq_nil in H as [H _]. exact H.
Qed.

Lemma prom_updates_take_nil (n : nat) (tr : list Op) :
  prom_updates tr = [] -> prom_updates (take n tr) = [].
Proof.
  intros H. rewrite <- (take_drop n tr), prom_updates_app in H.
  apply app_eq_nil in H as [H _]. exact H.
Qed.

Lemma one_behind_quiet (tr : list Op) :
  published tr = [] -> prom_updates tr = [] ->
  forall n, one_behind (take n tr).
Proof.
  intros Hp Hu n. left.
  rewrite (published_take_nil n _ Hp), (prom_updates_take_nil n _ Hu).
  reflexivity.
Qed.

Lemma one_behind_app (t1 t2 : list Op) :
  prom_updates t1 = published t1 -> one_behind t2 -> one_behind (t1 ++ t2).
Proof.
  intros H1 [H2|[s H2]]; unfold one_behind;
    rewrite prom_updates_app, published_app, H1, H2.
  - left. reflexivity.
  - right. exists s. rewrite app_assoc. reflexivity.
Qed.

Lemma follows_refl a : follows a [] a.
Proof.
  split; [apply stores_last_refl|]. intros n. rewrite take_nil.
  left. reflexivity.
Qed.

Lemma follows_trans a1 t1 a2 t2 a3 :
  follows a1 t1 a2 -> follows a2 t2 a3 -> follows a1 (t1 ++ t2) a3.
Proof.
  intros [S1 F1] [S2 F2]. split; [eapply stores_last_trans; eassumption|].
  intros n. rewrite take_app.
  destruct (decide (n <= length t1)%nat) as [Hn|Hn].
  - replace (n - length t1)%nat with 0%nat by lia. cbn.
    rewrite app_nil_r. apply F1.
  - rewrite take_ge by lia. apply one_behind_app; [apply S1|apply F2].
Qed.

Lemma follows_quiet a tr a' :
  stores_last a tr a' -> published tr = [] -> follows a tr a'.
Proof.
  intros Hs Hp. split; [exact Hs|].
  apply one_behind_quiet; [exact Hp|].
  destruct Hs as [_ Hu]. rewrite Hu. exact Hp.
Qed.

Lemma createSample_one_behind now a n :
  one_behind (take n (trace_of (createSample now a))).
Proof.
  unfold createSample, bind, emit, get, modify. cbn.
  destruct n as [|[|[|[|[|n]]]]]; cbn;
    first [left; reflexivity | right; eexists; reflexivity].
Qed.

Lemma collector_follows {A} (k : Kind) (t : Time.t) (m : M Chan.t A)
    (a : Aggregator.t) :
  emits (collector_op k t) m ->
  follows a (trace_of (on_chan m a)) (state_of (on_chan m a)).
Proof.
  intros H. apply follows_quiet; [apply (collector_stores_last k t), H|].
  rewrite on_chan_trace.
  apply (collector_op_quiet k t), (H (Aggregator.metricsChan a)).
Qed.

Lemma aggregator_begin_follows a :
  follows a (trace_of (Start_begin a)) (state_of (Start_begin a)).
Proof.
  apply follows_quiet; [apply aggregator_begin_stores_last|].
  unfold Start_begin. go_simpl. destruct (_ <=? 0); reflexivity.
Qed.

Lemma aggregator_select_follows r now a :
  follows a (trace_of (Start_select r now a))
    (state_of (Start_select r now a)).
Proof.
  pose proof (aggregator_select_stores_last r now a) as Hs.
  destruct (Start_select_cases r now a) as (c' & _ & _ & H).
  destruct H as [(_ & _ & ch & [E | E])
                |[(m & _ & _ & E)|(_ & _ & ch & E)]].
  - apply follows_quiet; [exact Hs|]. rewrite E. reflexivity.
  - apply follows_quiet; [exact Hs|]. rewrite E. reflexivity.
  - apply follows_quiet; [exact Hs|]. rewrite E.
    change (published (Select ?c :: Recv m :: ?tr)) with (published tr).
    apply not_publish_published, storeMetric_quiet.
  - split; [exact Hs|]. intros n. rewrite E.
    destruct n as [|n]; [left; reflexivity|].
    change (take (S n) (Select ch :: ?tr)) with (Select ch :: take n tr).
    apply (one_behind_app [Select ch]); [reflexivity|].
    apply createSample_one_behind.
Qed.

Lemma run_follows (ss : list Step) (p : Process) :
  follows (aggregator p) (run ss p).2 (aggregator (run ss p).1).
Proof.
  apply (run_rel (fun _ => True) follows); auto.
  - apply follows_refl.
  - apply follows_trans.
  - intros a _. split; [exact I|apply aggregator_begin_follows].
  - intros r now a _. split; [exact I|apply aggregator_select_follows].
  - intros k i cy a _. split; [exact I|].
    apply (collector_follows k (now cy)), worker_begin_ops.
  - intros k r cy a _. split; [exact I|].
    apply (collector_follows k (now cy)), worker_select_ops.
Qed.

(** X15. At every point of any execution, the exporter shows the sample
    passed to it last: each gauge set on every update holds the value of
    the corresponding field of that sample, byte and packet counts
    converted to floating point, and the series of each core the sample
    lists holds that core's percentage; while none has been passed the
    exporter is as it was.  The samples passed are the samples stored so
    far, except that the one stored last may still be missing, since
    [createSample] stores its sample before it updates the exporter: the
    exporter shows the latest stored sample or, inside that window, the
    one before it. *)
Theorem exporter_at_most_one_sample_behind (p : Process) (ss : list Step)
    (m : Metrics.t) (n : nat) :
  let tr := take n (run ss p).2 in
  match last (prom_updates tr) with
  | Some s => exposes (exporter_after tr m) s
  | None => exporter_after tr m = m
  end /\
  (prom_updates tr = published tr \/
   exists s, published tr = prom_updates tr ++ [s]).
Proof.
  cbv zeta. split; [|apply run_follows].
  unfold exporter_after.
  destruct (last (prom_updates (take n (run ss p).2))) as [s|] eqn:E.
  - apply last_Some in E as [l ->]. rewrite exporter_after_snoc.
    apply UpdateFromSample_exposes.
  - apply last_None in E. rewrite E. reflexivity.
Qed.

Lemma publishes_current_unobserved (k : Kind) (cur : option any)
    (tr : list Op) :
  publishes_current k cur tr ->
  omap (payload_of k) (received tr) = [] ->
  Forall (fun s => sample_payload k s = default (zero_payload k) cur)
    (published tr).
Proof.
  revert cur. induction tr as [|o tr IH]; intros cur Hp Hr; [constructor|].
  destruct o; cbn [publishes_current] in Hp;
    try (apply IH; [exact Hp|exact Hr]).
  - change (received (Recv m :: tr)) with (m :: received tr) in Hr.
    cbn [omap list_omap] in Hr.
    destruct (payload_of k m) eqn:E; [discriminate|].
    change (published (Recv m :: tr)) with (published tr).
    apply IH; [|exact Hr].
    unfold slot_after in Hp. cbn in Hp. rewrite E in Hp. exact Hp.
  - destruct Hp as [Hs Hp].
    change (published (Publish s :: tr)) with (s :: published tr).
    constructor; [exact Hs|]. apply IH; [exact Hp|exact Hr].
Qed.

Lemma main_slot (ParseDuration : string -> option Duration)
    (env : gmap string string) (p : Process) (k : Kind) :
  main ParseDuration env = Some p -> slot k (aggregator p) = None.
Proof.
  unfold main, NewAggregator. destruct (Chan.make _); [|discriminate].
  intros [= <-]. destruct k; reflexivity.
Qed.

Lemma updates_without_cpu (l : list Sample.t) (m : Metrics.t) :
  Forall (fun s => Sample.CPU s = CPUMetric.zero) l ->
  let m' := fold_left (fun m s => UpdateFromSample s m) l m in
  Metrics.cpuLoadAverage m' = Metrics.cpuLoadAverage m /\
  Metrics.cpuUsagePercent m' =
    match l with
    | [] => Metrics.cpuUsagePercent m
    | _ => <["overall" := float_zero]> (Metrics.cpuUsagePercent m)
    end.
Proof.
  cbv zeta. revert m. induction l as [|s l IH]; intros m H.
  - split; reflexivity.
  - inversion H as [|? ? Hs Hl]; subst. cbn [fold_left].
    destruct (IH (UpdateFromSample s m) Hl) as [H1 H2].
    rewrite H1, H2.
    assert (Hl' : Metrics.cpuLoadAverage (UpdateFromSample s m) =
                  Metrics.cpuLoadAverage m)
      by (unfold UpdateFromSample; cbn; rewrite Hs; reflexivity).
    assert (Hu : Metrics.cpuUsagePercent (UpdateFromSample s m) =
                 <["overall" := float_zero]> (Metrics.cpuUsagePercent m))
      by (unfold UpdateFromSample; cbn; rewrite Hs; reflexivity).
    rewrite Hl', Hu. split; [reflexivity|].
    destruct l; [reflexivity|]. apply insert_insert_eq.
Qed.

Lemma publishes_current_take (k : Kind) (cur : option any) (n : nat)
    (tr : list Op) :
  publishes_current k cur tr -> publishes_current k cur (take n tr).
Proof.
  intros H. rewrite <- (take_drop n tr) in H.
  apply publishes_current_app in H as [H _]. exact H.
Qed.

(** X16. At every point of an execution started by [main] up to which
    the aggregator has received no CPU Measurement, the exporter's
    load-average vector has no series at all, and its CPU usage vector
    has no per-core series: it is empty until the exporter has been
    passed a sample, and holds only the overall series, at zero, from
    then on. *)
Theorem load_average_unset_until_cpu_received
    (ParseDuration : string -> option Duration) (env : gmap string string)
    (p : Process) (ss : list Step) (n : nat) :
  main ParseDuration env = Some p ->
  let tr := take n (run ss p).2 in
  omap (payload_of KCPU) (received tr) = [] ->
  let m := exporter_after tr NewMetrics in
  Metrics.cpuLoadAverage m = ∅ /\
  Metrics.cpuUsagePercent m =
    match prom_updates tr with
    | [] => ∅
    | _ => {["overall" := float_zero]}
    end.
Proof.
  intros Hm. cbv zeta. intros Hr.
  destruct (run_tracks KCPU ss p) as [_ Ht].
  rewrite (main_slot _ _ _ KCPU Hm) in Ht.
  apply (publishes_current_take _ _ n) in Ht.
  pose proof (publishes_current_unobserved _ _ _ Ht Hr) as Hz.
  assert (Hu : Forall (fun s => Sample.CPU s = CPUMetric.zero)
                 (prom_updates (take n (run ss p).2))).
  { assert (Hp : Forall (fun s => Sample.CPU s = CPUMetric.zero)
                   (published (take n (run ss p).2))).
    { eapply Forall_impl; [exact Hz|]. cbn. intros s [= E]. exact E. }
    destruct (run_follows ss p) as [_ Hf].
    destruct (Hf n) as [->|[s E]]; [exact Hp|].
    rewrite E in Hp. apply Forall_app in Hp as [Hp _]. exact Hp. }
  unfold exporter_after.
  destruct (updates_without_cpu _ NewMetrics Hu) as [H1 H2].
  rewrite H1, H2. split; [reflexivity|].
  destruct (prom_updates (take n (run ss p).2)); reflexivity.
Qed.

Lemma load_average_unset_until_cpu_received_witness :
  exists p,
    main (fun _ => None) ∅ = Some p /\
    prom_updates (take 30 (run (take 9 demo_schedule) p).2) <> [] /\
    Metrics.cpuLoadAverage
      (exporter_after (take 30 (run (take 9 demo_schedule) p).2)
         NewMetrics) = ∅.
Proof.
  eexists. split; [reflexivity|].
  match goal with |- context [run _ ?p] => set (p0 := p) end.
  split; [vm_compute; discriminate|].
  refine (proj1 (load_average_unset_until_cpu_received (fun _ => None) ∅
                   p0 (take 9 demo_schedule) 30 _ _)).
  - reflexivity.
  - vm_compute. reflexivity.
Defined.

(** ** Where published data comes from *)

Lemma received_take (n : nat) (tr : list Op) :
  received (take n tr) `prefix_of` received tr.
Proof.
  exists (received (drop n tr)).
  rewrite <- received_app, take_drop. reflexivity.
Qed.

Lemma conserves_causal a tr a' :
  conserves a tr a' -> received tr = [] \/ sent tr = [] -> causal a tr.
Proof.
  intros (H & _) [Hr|Hs] n.
  - pose proof (received_take n tr) as [l Hl]. rewrite Hr in Hl.
    symmetry in Hl. apply app_eq_nil in Hl as [-> _]. apply prefix_nil.
  - rewrite Hs, app_nil_r in H.
    etransitivity; [apply received_take|].
    rewrite H. etransitivity; [apply prefix_app_r; reflexivity|].
    apply prefix_app_r. reflexivity.
Qed.

Lemma ordered_refl a : ordered a [] a.
Proof.
  split; [apply conserves_refl|]. intros n. rewrite take_nil.
  apply prefix_nil.
Qed.

Lemma ordered_trans a1 t1 a2 t2 a3 :
  ordered a1 t1 a2 -> ordered a2 t2 a3 -> ordered a1 (t1 ++ t2) a3.
Proof.
  intros [C1 K1] [C2 K2]. split; [eapply conserves_trans; eassumption|].
  intros n. rewrite take_app, received_app, sent_app.
  destruct (decide (n <= length t1)%nat) as [Hn|Hn].
  - replace (n - length t1)%nat with 0%nat by lia. cbn.
    rewrite !app_nil_r. apply K1.
  - rewrite take_ge by lia. destruct C1 as (H & _).
    rewrite app_assoc, H, <- app_assoc. apply prefix_app, K2.
Qed.

Lemma collector_ordered {A} (k : Kind) (t : Time.t) (m : M Chan.t A)
    (a : Aggregator.t) :
  one_send k t m -> emits (collector_op k t) m -> emits no_unknown_log m ->
  mailbox_inv a ->
  mailbox_inv (state_of (on_chan m a)) /\
  ordered a (trace_of (on_chan m a)) (state_of (on_chan m a)).
Proof.
  intros H1 H2 H3 Ha.
  destruct (collector_conserves k t m a H1 H2 H3 Ha) as [Hi Hc].
  split; [exact Hi|]. split; [exact Hc|].
  apply (conserves_causal _ _ _ Hc). left. rewrite on_chan_trace.
  apply (collector_op_received k t), H2.
Qed.

Lemma aggregator_select_ordered r now a :
  mailbox_inv a ->
  mailbox_inv (state_of (Start_select r now a)) /\
  ordered a (trace_of (Start_select r now a))
    (state_of (Start_select r now a)).
Proof.
  intros Ha. destruct (aggregator_select_conserves r now a Ha) as [Hi Hc].
  split; [exact Hi|]. split; [exact Hc|].
  apply (conserves_causal _ _ _ Hc). right.
  destruct Ha as [_ Hm].
  destruct (Start_select_cases r now a) as (c' & _ & _ & H).
  destruct H as [(_ & _ & ch & [-> | ->])
                |[(m & Hf & _ & ->)|(_ & _ & ch & ->)]];
    try reflexivity.
  rewrite Hf in Hm. apply Forall_cons in Hm as [Hx _].
  rewrite (storeMetric_measurement _ _ Hx). reflexivity.
Qed.

Lemma aggregator_begin_ordered a :
  mailbox_inv a ->
  mailbox_inv (state_of (Start_begin a)) /\
  ordered a (trace_of (Start_begin a)) (state_of (Start_begin a)).
Proof.
  intros Ha. destruct (aggregator_begin_conserves a Ha) as [Hi Hc].
  split; [exact Hi|]. split; [exact Hc|].
  apply (conserves_causal _ _ _ Hc). left.
  unfold Start_begin. go_simpl. destruct (_ <=? 0); reflexivity.
Qed.

Lemma run_ordered (ss : list Step) (p : Process) :
  mailbox_inv (aggregator p) ->
  mailbox_inv (aggregator (run ss p).1) /\
  ordered (aggregator p) (run ss p).2 (aggregator (run ss p).1).
Proof.
  apply run_rel.
  - apply ordered_refl.
  - apply ordered_trans.
  - apply aggregator_begin_ordered.
  - apply aggregator_select_ordered.
  - intros k i cy a Ha. apply (collector_ordered k (now cy)); auto.
    + apply worker_begin_one_send.
    + apply worker_begin_ops.
    + apply worker_begin_no_unknown.
  - intros k r cy a Ha. apply (collector_ordered k (now cy)); auto.
    + apply worker_select_one_send.
    + apply worker_select_ops.
    + apply worker_select_no_unknown.
Qed.

(** X17. Nothing in a published sample is made up.  In an execution
    started by [main], each of the four payloads of a published sample is
    either the zero value of its kind, or the payload of a Measurement of
    that kind which a collector sent to the mailbox before the sample was
    published. *)
Theorem published_payload_was_sent_before
    (ParseDuration : string -> option Duration) (env : gmap string string)
    (p : Process) (ss : list Step) (k : Kind) (i : nat) (s : Sample.t) :
  main ParseDuration env = Some p ->
  (run ss p).2 !! i = Some (Publish s) ->
  sample_payload k s = zero_payload k \/
  exists m,
    m ∈ sent (take i (run ss p).2) /\
    payload_of k m = Some (sample_payload k s).
Proof.
  intros Hm Hi.
  destruct (run_tracks k ss p) as [_ Ht].
  rewrite <- (take_drop_middle _ _ _ Hi) in Ht.
  apply publishes_current_app in Ht as [_ Ht]. cbn in Ht.
  destruct Ht as [Ht _]. rewrite (main_slot _ _ _ k Hm) in Ht.
  unfold slot_after in Ht.
  destruct (last (omap (payload_of k) (received (take i (run ss p).2))))
    as [pl|] eqn:E; cbn in Ht; [right|left; exact Ht].
  apply last_Some in E as [l E].
  assert (Hin : pl ∈ omap (payload_of k) (received (take i (run ss p).2))).
  { rewrite E. apply elem_of_app. right. apply list_elem_of_singleton.
    reflexivity. }
  apply list_elem_of_omap in Hin as (m & Hin & Hpl).
  exists m. split; [|rewrite Ht; exact Hpl].
  destruct (main_mailbox _ _ _ Hm) as (Hinv & H0 & _).
  destruct (run_ordered ss p Hinv) as (_ & _ & Hc).
  specialize (Hc i). rewrite H0 in Hc. cbn in Hc.
  destruct Hc as [l' ->]. apply elem_of_app. left. exact Hin.
Qed.

Lemma published_payload_was_sent_before_witness :
  exists p s,
    main (fun _ => None) ∅ = Some p /\
    (run demo_schedule p).2 !! 28%nat = Some (Publish s) /\
    (sample_payload KDisk s = zero_payload KDisk \/
     exists m,
       m ∈ sent (take 28 (run demo_schedule p).2) /\
       payload_of KDisk m = Some (sample_payload KDisk s)).
Proof.
  eexists. eexists. split; [reflexivity|].
  match goal with |- (run _ ?p).2 !! _ = _ /\ _ => set (p0 := p) end.
  split; [vm_compute; reflexivity|].
  refine (published_payload_was_sent_before (fun _ => None) ∅ p0
            demo_schedule KDisk 28 _ _ _).
  - reflexivity.
  - vm_compute. reflexivity.
Defined.

(** ** Reading the settings *)

Lemma digit_pretty_N_char (d : N) :
  (d < 10)%N -> digit (pretty_N_char d) = Some (Z.of_N d).
Proof.
  intros H.
  assert (d = 0 \/ d = 1 \/ d = 2 \/ d = 3 \/ d = 4 \/ d = 5 \/ d = 6 \/
          d = 7 \/ d = 8 \/ d = 9)%N as Hd by lia.
  repeat (destruct Hd as [->|Hd]; [reflexivity|]). subst. reflexivity.
Qed.

Lemma digits_pretty_N_go (n : N) :
  exists k : Z, 0 <= k /\
    forall s acc,
      digits (pretty_N_go n s) acc = digits s (acc * 10 ^ k + Z.of_N n).
Proof.
  induction (N.lt_wf_0 n) as [n _ IH].
  destruct (decide (n = 0)%N) as [->|Hn].
  - exists 0. split; [lia|]. intros s acc. rewrite pretty_N_go_0.
    f_equal. lia.
  - destruct (IH (n `div` 10)%N) as (k & Hk & H).
    { apply N.div_lt; lia. }
    exists (k + 1). split; [lia|]. intros s acc.
    rewrite pretty_N_go_step by lia. rewrite H. cbn [digits].
    rewrite digit_pretty_N_char by (apply N.mod_lt; lia).
    f_equal. rewrite Z.pow_add_r by lia.
    pose proof (N.div_mod n 10 ltac:(lia)) as E.
    apply (f_equal Z.of_N) in E.
    rewrite N2Z.inj_add, N2Z.inj_mul in E. cbn in E. lia.
Qed.

Lemma pretty_N_go_first (n : N) (s : string) :
  (0 < n)%N ->
  exists c rest, pretty_N_go n s = String c rest /\ is_Some (digit c).
Proof.
  revert s. induction (N.lt_wf_0 n) as [n _ IH]. intros s Hn.
  rewrite pretty_N_go_step by exact Hn.
  destruct (decide (n `div` 10 = 0)%N) as [E|E].
  - rewrite E, pretty_N_go_0. eexists. eexists. split; [reflexivity|].
    rewrite digit_pretty_N_char by (apply N.mod_lt; lia). eauto.
  - apply IH; [apply N.div_lt; lia|].
    destruct (n `div` 10)%N; [congruence|reflexivity].
Qed.

Lemma digit_not_sign (c : Ascii.ascii) :
  is_Some (digit c) ->
  Ascii.eqb c "-"%char = false /\ Ascii.eqb c "+"%char = false.
Proof.
  intros [d Hd]. split.
  - destruct (Ascii.eqb c "-"%char) eqn:E; [|reflexivity].
    apply Ascii.eqb_eq in E. subst. discriminate.
  - destruct (Ascii.eqb c "+"%char) eqn:E; [|reflexivity].
    apply Ascii.eqb_eq in E. subst. discriminate.
Qed.

Lemma Atoi_digits (s : string) (c : Ascii.ascii) (rest : string) (n : Z) :
  s = String c rest -> is_Some (digit c) -> digits s 0 = Some n ->
  Atoi s =
    (if (- 2 ^ 63 <=? n) && (n <=? 2 ^ 63 - 1) then Some n else None) /\
  Atoi (String "-" s) =
    (if (- 2 ^ 63 <=? - n) && (- n <=? 2 ^ 63 - 1) then Some (- n) else None).
Proof.
  intros -> Hc Hd. destruct (digit_not_sign c Hc) as [H1 H2].
  unfold Atoi. rewrite H1, H2. cbn [orb]. rewrite Hd.
  change (Ascii.eqb "-" "-") with true. cbn [orb]. rewrite Hd.
  split; reflexivity.
Qed.

Lemma Atoi_pretty (n : Z) :
  - 2 ^ 63 <= n <= 2 ^ 63 - 1 -> Atoi (pretty n) = Some n.
Proof.
  intros Hn.
  assert (Hpos : forall x : positive,
    exists c rest, pretty x = String c rest /\ is_Some (digit c) /\
                   digits (pretty x) 0 = Some (Z.pos x)).
  { intros x. unfold pretty, pretty_positive, pretty, pretty_N.
    rewrite decide_False by discriminate.
    destruct (pretty_N_go_first (N.pos x) "" ltac:(lia))
      as (c & rest & E & Hc).
    exists c, rest. split; [exact E|]. split; [exact Hc|].
    destruct (digits_pretty_N_go (N.pos x)) as (k & _ & H).
    rewrite H. reflexivity. }
  destruct n as [|x|x].
  - reflexivity.
  - destruct (Hpos x) as (c & rest & E & Hc & Hd).
    change (pretty (Z.pos x)) with (pretty x).
    destruct (Atoi_digits _ _ _ _ E Hc Hd) as [-> _].
    destruct (Z.leb_spec (- 2 ^ 63) (Z.pos x)); [|lia].
    destruct (Z.leb_spec (Z.pos x) (2 ^ 63 - 1)); [|lia]. reflexivity.
  - destruct (Hpos x) as (c & rest & E & Hc & Hd).
    change (pretty (Z.neg x)) with (String "-" (pretty x)).
    destruct (Atoi_digits _ _ _ _ E Hc Hd) as [_ ->].
    change (- Z.pos x) with (Z.neg x).
    destruct (Z.leb_spec (- 2 ^ 63) (Z.neg x)); [|lia].
    destruct (Z.leb_spec (Z.neg x) (2 ^ 63 - 1)); [|lia]. reflexivity.
Qed.

(** X18. A buffer size written in decimal is read back exactly.  When
    [BUFFER_SIZE] holds the decimal numeral of an integer [n] in the
    range of [int], the setting is [n], whatever the default.  A negative
    [n] makes [main] panic in [NewAggregator]; and whenever [main] gets
    its aggregator, the mailbox is empty and its capacity is exactly [n]
    (an unbuffered channel for [n = 0]). *)
Theorem BUFFER_SIZE_decimal_sets_capacity
    (ParseDuration : string -> option Duration) (env : gmap string string)
    (n : Z) :
  env !! "BUFFER_SIZE" = Some (pretty n) ->
  - 2 ^ 63 <= n <= 2 ^ 63 - 1 ->
  bufferSize (settings ParseDuration env) = n /\
  (n < 0 -> main ParseDuration env = None) /\
  (forall p,
     main ParseDuration env = Some p ->
     0 <= n /\ Aggregator.metricsChan (aggregator p) = Chan.mk n [] RecvIdle).
Proof.
  intros He Hn. pose proof (Atoi_pretty n Hn) as Ha.
  assert (Hb : bufferSize (settings ParseDuration env) = n).
  { unfold settings, bufferSize, getEnvInt, Getenv. rewrite He. cbn [default].
    unfold default. cbn [from_option id].
    destruct (String.eqb (pretty n) "") eqn:E.
    - apply String.eqb_eq in E. rewrite E in Ha. discriminate.
    - cbn [negb]. rewrite Ha. reflexivity. }
  split; [exact Hb|].
  unfold main, NewAggregator, Chan.make. rewrite Hb.
  destruct (Z.ltb_spec n 0) as [Hlt|Hge]; split.
  - reflexivity.
  - discriminate.
  - lia.
  - intros p [= <-]. split; [exact Hge|reflexivity].
Qed.

Lemma BUFFER_SIZE_decimal_sets_capacity_witness :
  let env : gmap string string := <["BUFFER_SIZE" := "3"]> ∅ in
  bufferSize (settings (fun _ => None) env) = 3 /\
  exists p,
    main (fun _ => None) env = Some p /\
    Aggregator.metricsChan (aggregator p) = Chan.mk 3 [] RecvIdle.
Proof.
  intros env.
  destruct (BUFFER_SIZE_decimal_sets_capacity (fun _ => None) env 3)
    as (H1 & _ & H3); [reflexivity|lia|].
  split; [exact H1|].
  eexists. split; [reflexivity|]. apply H3. reflexivity.
Defined.

(** ** Completeness of a sample *)

Lemma published_lookup (tr : list Op) (i : nat) (s : Sample.t) :
  tr !! i = Some (Publish s) -> s ∈ published tr.
Proof.
  intros H. apply list_elem_of_omap. exists (Publish s).
  split; [|reflexivity]. eapply list_elem_of_lookup_2. exact H.
Qed.

(** X19. [IsComplete] only looks at the time stamp, and [createSample]
    stamps every sample with the clock reading.  So, when the clock never
    reads the zero time, every sample published in an execution started
    by [main] counts as complete, whatever it holds; one built before
    any metric has been received holds the zero value of all four
    payloads and counts as complete all the same. *)
Theorem every_published_sample_is_complete
    (ParseDuration : string -> option Duration) (env : gmap string string)
    (p : Process) (ss : list Step) (i : nat) (s : Sample.t) :
  main ParseDuration env = Some p ->
  Forall (fun t => Time.IsZero t = false) (aggregator_clock ss) ->
  (run ss p).2 !! i = Some (Publish s) ->
  Sample.IsComplete s = true /\
  (received (take i (run ss p).2) = [] ->
   forall k, sample_payload k s = zero_payload k).
Proof.
  intros Hm Hclock Hi. split.
  - unfold Sample.IsComplete.
    assert (Hin : Sample.Timestamp s ∈
                  map Sample.Timestamp (published (run ss p).2)).
    { apply list_elem_of_fmap. exists s. split; [reflexivity|].
      eapply published_lookup. exact Hi. }
    pose proof (run_published_clock ss p) as Hsub.
    rewrite Forall_forall in Hclock.
    rewrite (Hclock (Sample.Timestamp s)); [reflexivity|].
    eapply elem_of_sublist; [exact Hin|exact Hsub].
  - intros Hr k. destruct (run_tracks k ss p) as [_ Ht].
    rewrite <- (take_drop_middle _ _ _ Hi) in Ht.
    apply publishes_current_app in Ht as [_ Ht]. cbn in Ht.
    destruct Ht as [Ht _]. rewrite (main_slot _ _ _ k Hm), Hr in Ht.
    exact Ht.
Qed.

Lemma every_published_sample_is_complete_witness :
  let ss :=
    [StepAggregator (mkReady false false 0) (Time.mk 10 0);
     StepAggregator (mkReady false true 0) (Time.mk 10 250)] in
  exists p s,
    main (fun _ => None) ∅ = Some p /\
    (run ss p).2 !! 4%nat = Some (Publish s) /\
    Sample.IsComplete s = true /\
    sample_payload KCPU s = zero_payload KCPU.
Proof.
  intros ss. eexists. eexists. split; [reflexivity|].
  match goal with |- (run _ ?p).2 !! _ = _ /\ _ => set (p0 := p) end.
  split; [vm_compute; reflexivity|].
  assert (Hm : main (fun _ => None) ∅ = Some p0) by reflexivity.
  assert (Hc : Forall (fun t => Time.IsZero t = false) (aggregator_clock ss))
    by (repeat constructor).
  pose proof (fun s Hi =>
                every_published_sample_is_complete (fun _ => None) ∅ p0 ss 4
                  s Hm Hc Hi) as H.
  split.
  - apply H. vm_compute. reflexivity.
  - refine (proj2 (H _ _) _ KCPU).
    + vm_compute. reflexivity.
    + vm_compute. reflexivity.
Defined.
